(** * Patient intake dialogue engine: a shallow embedding

    The Python sources under [src/agent] are embedded as Rocq functions.
    Python values are an inductive type, Python dictionaries are
    insertion-ordered association lists, raising an exception is the
    [Raise] outcome, and the transition callbacks, which mutate the flow
    manager, run in a small state-and-exception monad in which mutations
    made before a raise persist.

    Text is modelled by [string] (8-bit characters); [lower] acts on the
    ASCII letters. *)

From Stdlib Require Import String Ascii List Bool Arith ZArith Lia.
From Stdlib Require Import DecimalString.
Import ListNotations.
Open Scope string_scope.
Set Warnings "-register-all".

(* ================================================================== *)
(** ** Python values, exceptions, outcomes *)

Module Py.

Inductive value : Type :=
| VNone
| VBool (b : bool)
| VInt (z : Z)
| VStr (s : string)
| VList (l : list value)
| VDict (d : list (string * value))
| VMethod (name : string).   (* a bound built-in method, e.g. [d.get] *)

(** A Python [dict] with string keys: association list in insertion order. *)
Definition dict (V : Type) : Type := list (string * V).

Inductive exn : Type :=
| AttributeError (attr : string)
| KeyError (key : string)
| TypeError (msg : string).

Inductive outcome (A : Type) : Type :=
| Ok (a : A)
| Raise (e : exn).
Arguments Ok {A} a.
Arguments Raise {A} e.

Definition obind {A B} (o : outcome A) (k : A -> outcome B) : outcome B :=
  match o with
  | Ok a => k a
  | Raise e => Raise e
  end.

Inductive pytype : Type :=
| TNoneType | TBoolT | TIntT | TStrT | TListT | TDictT | TMethodT.

Definition pytype_eqb (a b : pytype) : bool :=
  match a, b with
  | TNoneType, TNoneType | TBoolT, TBoolT | TIntT, TIntT | TStrT, TStrT
  | TListT, TListT | TDictT, TDictT | TMethodT, TMethodT => true
  | _, _ => false
  end.

(** [type(v)] *)
Definition type_of (v : value) : pytype :=
  match v with
  | VNone => TNoneType
  | VBool _ => TBoolT
  | VInt _ => TIntT
  | VStr _ => TStrT
  | VList _ => TListT
  | VDict _ => TDictT
  | VMethod _ => TMethodT
  end.

(** Truth value testing, as [if v:] does it. *)
Definition truthy (v : value) : bool :=
  match v with
  | VNone => false
  | VBool b => b
  | VInt z => negb (z =? 0)%Z
  | VStr s => negb (s =? "")
  | VList l => match l with [] => false | _ => true end
  | VDict d => match d with [] => false | _ => true end
  | VMethod _ => true
  end.

(** *** Dictionaries *)

Section Dict.
Context {V : Type}.

(** [d.get(k)] as an option. *)
Fixpoint lookup (d : dict V) (k : string) : option V :=
  match d with
  | [] => None
  | (k', v) :: d' => if k' =? k then Some v else lookup d' k
  end.

(** [d.get(k, default)] *)
Definition get (d : dict V) (k : string) (default : V) : V :=
  match lookup d k with
  | Some v => v
  | None => default
  end.

(** [d[k] = v]: an existing key keeps its position, a new key is
    appended. *)
Fixpoint set (d : dict V) (k : string) (v : V) : dict V :=
  match d with
  | [] => [(k, v)]
  | (k', v') :: d' =>
      if k' =? k then (k', v) :: d' else (k', v') :: set d' k v
  end.

Definition keys (d : dict V) : list string := map fst d.
Definition values (d : dict V) : list V := map snd d.
End Dict.

(** *** Strings *)

Definition is_upper (c : ascii) : bool :=
  let n := nat_of_ascii c in ((65 <=? n) && (n <=? 90))%nat.

Definition lower_char (c : ascii) : ascii :=
  if is_upper c then ascii_of_nat (nat_of_ascii c + 32) else c.

(** [s.lower()] *)
Fixpoint lower (s : string) : string :=
  match s with
  | EmptyString => EmptyString
  | String c s' => String (lower_char c) (lower s')
  end.

(** [needle in hay] on two strings. *)
Fixpoint str_in (needle hay : string) : bool :=
  String.prefix needle hay ||
  match hay with
  | EmptyString => false
  | String _ hay' => str_in needle hay'
  end.

(** *** Operations on dynamically typed values *)

Definition dict_attributes : list string :=
  ["clear"; "copy"; "fromkeys"; "get"; "items"; "keys"; "pop"; "popitem";
   "setdefault"; "update"; "values"].

(** [v.name], the attribute read as a value.  A [dict] has its methods
    and nothing else; its items are not attributes.  The sources read
    attributes of dictionaries only, so the methods of the other types
    are left out. *)
Definition getattr (v : value) (name : string) : outcome value :=
  match v with
  | VDict _ =>
      if existsb (String.eqb name) dict_attributes
      then Ok (VMethod name)
      else Raise (AttributeError name)
  | _ => Raise (AttributeError name)
  end.

(** [v[k]] with a string key. *)
Definition getitem (v : value) (k : string) : outcome value :=
  match v with
  | VDict d =>
      match lookup d k with
      | Some x => Ok x
      | None => Raise (KeyError k)
      end
  | VStr _ => Raise (TypeError "string indices must be integers")
  | VList _ => Raise (TypeError "list indices must be integers or slices")
  | _ => Raise (TypeError "object is not subscriptable")
  end.

(** [v.get(k)] (default [None]) *)
Definition get_method (v : value) (k : string) : outcome value :=
  match v with
  | VDict d => Ok (get d k VNone)
  | _ => Raise (AttributeError "get")
  end.

(** [v.lower()] *)
Definition lower_method (v : value) : outcome string :=
  match v with
  | VStr s => Ok (lower s)
  | _ => Raise (AttributeError "lower")
  end.

Fixpoint chars (s : string) : list value :=
  match s with
  | EmptyString => []
  | String c s' => VStr (String c EmptyString) :: chars s'
  end.

(** [iter(v)], fully unfolded: the elements a [for] loop over [v] sees. *)
Definition iterate (v : value) : outcome (list value) :=
  match v with
  | VList l => Ok l
  | VStr s => Ok (chars s)
  | VDict d => Ok (map VStr (keys d))
  | _ => Raise (TypeError "object is not iterable")
  end.

(** *** [str] and [repr], as an f-string field [{v}] renders a value *)

Definition string_of_Z (z : Z) : string :=
  NilZero.string_of_int (Z.to_int z).

Definition hex_digit (n : nat) : ascii :=
  if (n <? 10)%nat then ascii_of_nat (48 + n) else ascii_of_nat (87 + n).

Definition backslash : ascii := ascii_of_nat 92.
Definition single_quote : ascii := ascii_of_nat 39.
Definition double_quote : ascii := ascii_of_nat 34.

Fixpoint has_char (c : ascii) (s : string) : bool :=
  match s with
  | EmptyString => false
  | String c' s' => Ascii.eqb c c' || has_char c s'
  end.

Fixpoint escape (quote : ascii) (s : string) : string :=
  match s with
  | EmptyString => EmptyString
  | String c s' =>
      let n := nat_of_ascii c in
      (if Ascii.eqb c quote || Ascii.eqb c backslash
       then String backslash (String c EmptyString)
       else if (n =? 9)%nat then String backslash "t"
       else if (n =? 10)%nat then String backslash "n"
       else if (n =? 13)%nat then String backslash "r"
       else if ((n <? 32) || (n =? 127))%nat
       then String backslash
              (String "x" (String (hex_digit (n / 16))
                             (String (hex_digit (n mod 16)) EmptyString)))
       else String c EmptyString) ++ escape quote s'
  end.

(** [repr(s)] of a string: single quotes unless the text has a single
    quote and no double quote. *)
Definition repr_str (s : string) : string :=
  let quote :=
    if has_char single_quote s && negb (has_char double_quote s)
    then double_quote else single_quote in
  String quote (escape quote s ++ String quote EmptyString).

(** [repr(v)]; the address that Python prints for a method object is
    left out. *)
Fixpoint repr (v : value) : string :=
  match v with
  | VNone => "None"
  | VBool true => "True"
  | VBool false => "False"
  | VInt z => string_of_Z z
  | VStr s => repr_str s
  | VList l =>
      "[" ++ String.concat ", " (map repr l) ++ "]"
  | VDict d =>
      "{" ++ String.concat ", "
               (map (fun kv => repr_str (fst kv) ++ ": " ++ repr (snd kv)) d)
          ++ "}"
  | VMethod name => "<built-in method " ++ name ++ " of dict object>"
  end.

(** [str(v)], which is what [f"{v}"] inserts. *)
Definition str (v : value) : string :=
  match v with
  | VStr s => s
  | _ => repr v
  end.

End Py.

Import Py.

Notation "x <- c1 ;; c2" := (obind c1 (fun x => c2))
  (at level 61, c1 at next level, right associativity).

(* ================================================================== *)
(** ** Node descriptors and the flow manager (the [pipecat_flows] side) *)

Definition newline : string := String (ascii_of_nat 10) EmptyString.

(** The handlers and transition callbacks a node descriptor can name. *)
Inductive handler_id : Type :=
| verify_consent_h
| collect_chief_complaint_h
| collect_medical_history_h
| assess_chest_pain_h
| assess_respiratory_h
| emergency_handle_emergency_h      (* [general_nodes/emergency.py] *)
| shared_handle_emergency_h.        (* [shared_handlers/handlers.py] *)

Inductive callback_id : Type :=
| handle_consent_transition_cb
| handle_complaint_transition_cb
| handle_medical_history_transition_cb
| handle_wrap_up_transition_cb
| handle_emergency_transition_cb
| handle_chest_pain_assessment_cb
| handle_respiratory_assessment_cb.

(** JSON-schema types used by the [parameters] of a function. *)
Inductive json_type : Type :=
| JString
| JBoolean
| JArray (item : json_type)
| JObject (props : list (string * json_type)).

Record message : Type := Message { role : string; content : string }.

Record parameters : Type := Parameters {
  properties : list (string * json_type);
  required : list string
}.

Record function_decl : Type := Function {
  fn_name : string;
  fn_handler : option handler_id;
  fn_description : string;
  fn_parameters : parameters;
  fn_transition_callback : option callback_id;
  fn_transition_to : option string
}.

Record node : Type := Node {
  role_messages : list message;
  task_messages : list message;
  functions : list function_decl;
  pre_actions : list (dict value);
  post_actions : list (dict value)
}.

(** The flow manager as the callbacks see it: the session state mapping
    and the nodes handed to [set_node], oldest first.  The current node
    is the last one installed. *)
Record flow_manager : Type := FlowManager {
  state : dict value;
  installed : list (string * node)
}.

Definition initial_flow_manager : flow_manager :=
  {| state := []; installed := [] |}.

Definition current_node (fm : flow_manager) : option (string * node) :=
  last (map Some (installed fm)) None.

(** Callbacks: they read the clock, mutate the flow manager and may
    raise; what was mutated before a raise stays mutated. *)
Definition M (A : Type) : Type :=
  string -> flow_manager -> flow_manager * outcome A.

Definition ret {A} (a : A) : M A := fun _ fm => (fm, Ok a).

Definition bind {A B} (m : M A) (k : A -> M B) : M B :=
  fun now fm =>
    match m now fm with
    | (fm', Ok a) => k a now fm'
    | (fm', Raise e) => (fm', Raise e)
    end.

Definition lift {A} (o : outcome A) : M A := fun _ fm => (fm, o).

(** [datetime.now().isoformat()]: the clock reading, already rendered. *)
Definition now_isoformat : M string := fun now fm => (fm, Ok now).

(** [flow_manager.state[key] = v] *)
Definition set_state (key : string) (v : value) : M unit :=
  fun _ fm =>
    ({| state := set (state fm) key v; installed := installed fm |}, Ok tt).

(** [await flow_manager.set_node(name, n)]: [n] is handed to the runtime
    under [name] and becomes the current node.  What the runtime itself
    does with a node (running its actions, speaking its messages) is not
    part of the sources embedded here: a node with an action the runtime
    has no handler for, as the ["alert_staff"] pre-action of the
    emergency node while [bot.py] registers none, is recorded as handed
    over all the same. *)
Definition set_node (name : string) (n : node) : M unit :=
  fun _ fm =>
    ({| state := state fm; installed := installed fm ++ [(name, n)] |},
     Ok tt).

Declare Scope flow_scope.
Delimit Scope flow_scope with flow.
Notation "x <-- c1 ;; c2" := (bind c1 (fun x => c2))
  (at level 61, c1 at next level, right associativity) : flow_scope.
Notation "c1 ;;; c2" := (bind c1 (fun _ => c2))
  (at level 61, right associativity) : flow_scope.

Definition object_parameters (props : list (string * json_type))
  (req : list string) : parameters :=
  {| properties := props; required := req |}.

Definition system (text : string) : message :=
  {| role := "system"; content := text |}.

(* ================================================================== *)
(** ** [agent/general_nodes/end.py] *)

Module EndNode.

Definition create_end_call_node (message : string) : node :=
  {| role_messages := [];
     task_messages := [system ("Say: '" ++ message ++ "'")];
     functions := [];
     pre_actions := [];
     post_actions := [[("type", VStr "end_conversation")]] |}.

End EndNode.

(* ================================================================== *)
(** ** [agent/general_nodes/wrap_up.py] *)

Module WrapUp.

Definition create_wrap_up_node : node :=
  {| role_messages := [];
     task_messages :=
       [system
          ("Thank the patient for their time and summarize the key information collected. "
           ++ "Let them know that this information will be reviewed by their healthcare provider "
           ++ "before their appointment. Ask if they have any questions before ending the call.")];
     functions :=
       [{| fn_name := "finish_conversation";
           fn_handler := None;
           fn_description := "End the conversation";
           fn_parameters := object_parameters [] [];
           fn_transition_callback := Some handle_wrap_up_transition_cb;
           fn_transition_to := None |}];
     pre_actions := [];
     post_actions := [] |}.

Definition handle_wrap_up_transition (args : dict value) (result : value)
  : M unit :=
  set_node "end_call"
    (EndNode.create_end_call_node "Thank you for your time. Goodbye!").

End WrapUp.

(* ================================================================== *)
(** ** [agent/general_nodes/medical_history.py] *)

Module MedicalHistory.

Definition create_medical_history_node : node :=
  {| role_messages := [];
     task_messages :=
       [system
          ("Now I'd like to ask about your general medical history. Ask about:" ++ newline
           ++ "1. Any existing medical conditions" ++ newline
           ++ "2. Current medications" ++ newline
           ++ "3. Any allergies" ++ newline
           ++ "4. Past surgeries" ++ newline
           ++ "Ask these questions one at a time, naturally.")];
     functions :=
       [{| fn_name := "collect_medical_history";
           fn_handler := Some collect_medical_history_h;
           fn_description := "Collect patient's medical history";
           fn_parameters :=
             object_parameters
               [("conditions", JArray JString);
                ("medications",
                 JArray (JObject [("name", JString); ("dosage", JString);
                                  ("frequency", JString)]));
                ("allergies", JArray JString);
                ("surgeries", JArray JString)]
               ["conditions"; "medications"; "allergies"];
           fn_transition_callback := Some handle_medical_history_transition_cb;
           fn_transition_to := None |}];
     pre_actions := [];
     post_actions := [] |}.

Definition collect_medical_history (args : dict value) : outcome value :=
  Ok (VDict
        [("status", VStr "success");
         ("conditions", get args "conditions" (VList []));
         ("medications", get args "medications" (VList []));
         ("allergies", get args "allergies" (VList []));
         ("surgeries", get args "surgeries" (VList []))]).

Definition handle_medical_history_transition (args : dict value)
  (result : value) : M unit :=
  (conditions <-- lift (getitem result "conditions") ;;
   medications <-- lift (getitem result "medications") ;;
   allergies <-- lift (getitem result "allergies") ;;
   surgeries <-- lift (getitem result "surgeries") ;;
   set_state "medical_history"
     (VDict [("conditions", conditions); ("medications", medications);
             ("allergies", allergies); ("surgeries", surgeries)]) ;;;
   set_node "wrap_up" WrapUp.create_wrap_up_node)%flow.

End MedicalHistory.

(* ================================================================== *)
(** ** [agent/shared_handlers/handlers.py] *)

Module SharedHandlers.

(** [now] is the value of [datetime.now().isoformat()] at the call. *)
Definition handle_emergency (now : string) (args : dict value)
  : outcome value :=
  Ok (VDict
        [("status", VStr "success");
         ("emergency_reason",
          get args "emergency_reason" (VStr "Unspecified emergency"));
         ("timestamp", VStr now)]).

End SharedHandlers.

(* ================================================================== *)
(** ** [agent/general_nodes/emergency.py] *)

Module Emergency.

(** The module imports [handle_emergency] from the shared handlers and
    then defines its own function of that name; the node below is built
    after both, so it names the local one. *)
Definition create_emergency_node (emergency_reason : value) : node :=
  {| role_messages := [];
     task_messages :=
       [system
          ("Based on what you've told me, I need to transfer you to our medical staff immediately. "
           ++ "Please stay on the line while I connect you. If you're experiencing severe symptoms, "
           ++ "please consider calling emergency services or going to the nearest emergency room.")];
     functions :=
       [{| fn_name := "handle_emergency";
           fn_handler := Some emergency_handle_emergency_h;
           fn_description := "Handle emergency routing";
           fn_parameters := object_parameters [("emergency_reason", JString)] [];
           fn_transition_callback := Some handle_emergency_transition_cb;
           fn_transition_to := None |}];
     pre_actions :=
       [[("type", VStr "alert_staff"); ("reason", emergency_reason)]];
     post_actions := [] |}.

Definition handle_emergency (args : dict value) : outcome value :=
  Ok (VDict
        [("status", VStr "success");
         ("emergency_reason",
          get args "emergency_reason" (VStr "Unspecified emergency"))]).

Definition handle_emergency_transition (args : dict value) (result : value)
  : M unit :=
  (reason <-- lift (get_method result "emergency_reason") ;;
   timestamp <-- now_isoformat ;;
   set_state "emergency"
     (VDict [("reason", reason); ("timestamp", VStr timestamp)]) ;;;
   set_node "end_call"
     (EndNode.create_end_call_node
        "Please stay on the line while I transfer you to our medical staff."))%flow.

End Emergency.

(* ================================================================== *)
(** ** [agent/specialty_nodes/base.py] *)

Module Base.

(** A concrete subclass of [SpecialtyNode]: its [__name__], its
    class method [get_trigger_phrases] and its [create_assessment_node]. *)
Record SpecialtyNode : Type := {
  class_name : string;
  get_trigger_phrases : list string;
  create_assessment_node : node
}.

Definition create_transition_node (self : SpecialtyNode)
  (transition_message : string) : node :=
  {| role_messages := [];
     task_messages := [system ("Say: '" ++ transition_message ++ "'")];
     functions :=
       [{| fn_name := "continue_to_" ++ lower (class_name self);
           fn_handler := None;
           fn_description := "Continue to " ++ class_name self ++ " assessment";
           fn_parameters := object_parameters [] [];
           fn_transition_callback := None;
           fn_transition_to := Some (lower (class_name self) ++ "_assessment") |}];
     pre_actions := [];
     post_actions := [] |}.

Definition setup (self : SpecialtyNode) (transition_message : string)
  : M unit :=
  (set_node (lower (class_name self) ++ "_intro")
     (create_transition_node self transition_message) ;;;
   set_node (lower (class_name self) ++ "_assessment")
     (create_assessment_node self))%flow.

End Base.

(* ================================================================== *)
(** ** [agent/specialty_nodes/registry.py] *)

Module NodeRegistry.

(** The class attribute [_flows]: class name to class, in insertion
    order. *)
Definition flows : Type := dict Base.SpecialtyNode.

(** [register] mutates [_flows] and hands its argument back; the
    outcome below is the new [_flows]. *)
Definition register (flow_class : Base.SpecialtyNode) (_flows : flows)
  : outcome flows :=
  Ok (set _flows (Base.class_name flow_class) flow_class).

Fixpoint first_triggered (complaint_lower : string)
  (classes : list Base.SpecialtyNode) : option Base.SpecialtyNode :=
  match classes with
  | [] => None
  | flow_class :: rest =>
      if existsb (fun trigger => str_in trigger complaint_lower)
           (Base.get_trigger_phrases flow_class)
      then Some flow_class
      else first_triggered complaint_lower rest
  end.

Definition get_node_for_complaint (_flows : flows) (complaint : value)
  : outcome (option Base.SpecialtyNode) :=
  complaint_lower <- lower_method complaint ;;
  Ok (first_triggered complaint_lower (values _flows)).

End NodeRegistry.

(* ================================================================== *)
(** ** [agent/general_nodes/chief_complaint.py] *)

Module ChiefComplaint.

Definition create_chief_complaint_node : node :=
  {| role_messages := [];
     task_messages :=
       [system
          ("Ask: 'Could you please tell me the main reason for your appointment?' "
           ++ "After their response, ask about duration: 'How long have you been experiencing these symptoms?'")];
     functions :=
       [{| fn_name := "collect_chief_complaint";
           fn_handler := Some collect_chief_complaint_h;
           fn_description := "Collect chief complaint information";
           fn_parameters :=
             object_parameters
               [("complaint", JString); ("duration", JString)]
               ["complaint"; "duration"];
           fn_transition_callback := Some handle_complaint_transition_cb;
           fn_transition_to := None |}];
     pre_actions := [];
     post_actions := [] |}.

Definition collect_chief_complaint (args : dict value) : outcome value :=
  Ok (VDict
        [("status", VStr "success");
         ("complaint", get args "complaint" (VStr ""));
         ("duration", get args "duration" (VStr ""))]).

(** [_flows] is the registry's class attribute as it stands when the
    callback runs. *)
Definition handle_complaint_transition (_flows : NodeRegistry.flows)
  (args : dict value) (result : value) : M unit :=
  (complaint <-- lift (getitem result "complaint") ;;
   duration <-- lift (getitem result "duration") ;;
   set_state "chief_complaint"
     (VDict [("complaint", complaint); ("duration", duration)]) ;;;
   complaint' <-- lift (getitem result "complaint") ;;
   specialty_flow <--
     lift (NodeRegistry.get_node_for_complaint _flows complaint') ;;
   match specialty_flow with
   | Some flow =>
       complaint'' <-- lift (getitem result "complaint") ;;
       duration'' <-- lift (getitem result "duration") ;;
       Base.setup flow
         ("I understand you've been experiencing " ++ str complaint''
          ++ " for " ++ str duration'' ++ ". "
          ++ "I'd like to ask a few more specific questions about this to help the doctor "
          ++ "better prepare for your appointment.")
   | None =>
       set_node "medical_history" MedicalHistory.create_medical_history_node
   end)%flow.

End ChiefComplaint.

(* ================================================================== *)
(** ** [agent/general_nodes/entry.py] *)

Module Entry.

Definition create_entry_node : node :=
  {| role_messages :=
       [system
          ("You are Alice, an agent for the Surrey Medical Clinic. Your job is to collect important information from the user before their doctor visit. You're talking to Ricky Sangha. You should address the user by their first name and be polite and professional. You're not a medical professional, so you shouldn't provide any advice. Keep your responses short. Your job is to collect information to give to a doctor. Don't make assumptions about what values to plug into functions. Ask for clarification if a user response is ambiguous."
           ++ "Maintain a professional, friendly, and empathetic tone. "
           ++ "Speak naturally and clearly as this is a voice conversation.")];
     task_messages :=
       [system
          ("Start by introducing yourself as an automated assistant from the medical office. "
           ++ "Explain that you're calling to gather some information before their upcoming appointment. "
           ++ "Ask for their consent to collect health information.")];
     functions :=
       [{| fn_name := "process_consent";
           fn_handler := Some verify_consent_h;
           fn_description := "Process patient consent";
           fn_parameters := object_parameters [("consent", JBoolean)] ["consent"];
           fn_transition_callback := Some handle_consent_transition_cb;
           fn_transition_to := None |}];
     pre_actions := [];
     post_actions := [] |}.

Definition verify_consent (args : dict value) : outcome value :=
  consent_given <-
    (if pytype_eqb (type_of (get args "consent" (VStr ""))) TBoolT
     then Ok (get args "consent" (VStr ""))
     else if pytype_eqb (type_of (get args "consent" (VStr ""))) TStrT
     then
       consent_response <- lower_method (get args "consent" (VStr "")) ;;
       Ok (VBool (consent_response =? "true"))
     else Ok (VBool false)) ;;
  Ok (VDict [("status", VStr "success"); ("consent_given", consent_given)]).

Definition handle_consent_transition (args : dict value) (result : value)
  : M unit :=
  (consent_given <-- lift (getitem result "consent_given") ;;
   if truthy consent_given
   then
     set_state "consent_given" (VBool true) ;;;
     set_node "chief_complaint" ChiefComplaint.create_chief_complaint_node
   else
     set_node "end_call"
       (EndNode.create_end_call_node
          "I understand. I'll have a staff member contact you directly. Thank you for your time."))%flow.

End Entry.

(* ================================================================== *)
(** ** The two generator expressions of the specialty handlers *)

(** [any(indicator in text for indicator in emergency_indicators)] *)
Definition any_indicator_in_text (emergency_indicators : list string)
  (text : string) : bool :=
  existsb (fun indicator => str_in indicator text) emergency_indicators.

(** The inner loop of the second generator, for one [symptom]:
    [indicator in symptom.lower()] for each indicator in turn, stopping
    at the first hit; [symptom.lower()] is evaluated at every round. *)
Fixpoint any_indicator_in_symptom (symptom : value)
  (emergency_indicators : list string) : outcome bool :=
  match emergency_indicators with
  | [] => Ok false
  | indicator :: rest =>
      symptom_lower <- lower_method symptom ;;
      if str_in indicator symptom_lower then Ok true
      else any_indicator_in_symptom symptom rest
  end.

(** [any(indicator in symptom.lower() for symptom in associated_symptoms
         for indicator in emergency_indicators)] over the elements of
    [associated_symptoms]. *)
Fixpoint any_indicator_in_symptoms (emergency_indicators : list string)
  (symptoms : list value) : outcome bool :=
  match symptoms with
  | [] => Ok false
  | symptom :: rest =>
      hit <- any_indicator_in_symptom symptom emergency_indicators ;;
      if hit then Ok true
      else any_indicator_in_symptoms emergency_indicators rest
  end.

(** [any(... in text ...) or any(... in symptom.lower() ...)]: the second
    generator is only built, and [associated_symptoms] only iterated,
    when the first [any] is false. *)
Definition detect_emergency (emergency_indicators : list string)
  (text : string) (associated_symptoms : value) : outcome bool :=
  if any_indicator_in_text emergency_indicators text then Ok true
  else
    symptoms <- iterate associated_symptoms ;;
    any_indicator_in_symptoms emergency_indicators symptoms.

(* ================================================================== *)
(** ** [agent/specialty_nodes/chest_pain.py] *)

Module ChestPain.

Definition get_trigger_phrases : list string :=
  ["chest pain"; "chest pressure"; "chest tightness"; "heart pain"; "angina"].

Definition create_assessment_node : node :=
  {| role_messages :=
       [system "You are assessing chest pain symptoms. Be alert for signs of emergency."];
     task_messages :=
       [system
          ("Carefully assess chest pain characteristics. Ask about:" ++ newline
           ++ "1. Location and radiation of pain" ++ newline
           ++ "2. Quality of pain (sharp, dull, pressure, etc.)" ++ newline
           ++ "3. Severity (1-10 scale)" ++ newline
           ++ "4. Associated symptoms" ++ newline
           ++ "5. What makes it better or worse")];
     functions :=
       [{| fn_name := "assess_chest_pain";
           fn_handler := Some assess_chest_pain_h;
           fn_description := "Assess chest pain symptoms";
           fn_parameters :=
             object_parameters
               [("pain_location", JString);
                ("pain_quality", JString);
                ("radiation", JString);
                ("associated_symptoms", JArray JString);
                ("severity", JString);
                ("aggravating_factors", JArray JString);
                ("relieving_factors", JArray JString)]
               ["pain_location"; "pain_quality"; "severity"];
           fn_transition_callback := Some handle_chest_pain_assessment_cb;
           fn_transition_to := None |}];
     pre_actions := [];
     post_actions := [] |}.

(** The class [ChestPainNode].  The module imports [FlowRegistry] from
    [registry.py] and decorates the class with [@FlowRegistry.register];
    [registry.py] defines no such name (the class there is
    [NodeRegistry]), and no module of the program imports
    [chest_pain.py]: the class is never registered. *)
Definition ChestPainNode : Base.SpecialtyNode :=
  {| Base.class_name := "ChestPainNode";
     Base.get_trigger_phrases := get_trigger_phrases;
     Base.create_assessment_node := create_assessment_node |}.

Definition emergency_indicators : list string :=
  ["severe"; "crushing"; "extremely painful"; "unbearable";
   "difficulty breathing"; "shortness of breath"; "sweating"; "nausea";
   "radiating to arm"].

(** [ChestPainAssessmentResult] is a [TypedDict]: calling it builds a
    plain [dict]. *)
Definition assess_chest_pain (args : dict value) : outcome value :=
  severity <- lower_method (get args "severity" (VStr "")) ;;
  let associated_symptoms := get args "associated_symptoms" (VList []) in
  is_emergency <-
    detect_emergency emergency_indicators severity associated_symptoms ;;
  Ok (VDict
        [("status", VStr "success");
         ("pain_location", get args "pain_location" (VStr ""));
         ("pain_quality", get args "pain_quality" (VStr ""));
         ("radiation", get args "radiation" (VStr ""));
         ("associated_symptoms", associated_symptoms);
         ("severity", VStr severity);
         ("aggravating_factors", get args "aggravating_factors" (VList []));
         ("relieving_factors", get args "relieving_factors" (VList []));
         ("requires_emergency_routing", VBool is_emergency);
         ("emergency_reason",
          if is_emergency
          then VStr "Potential cardiac emergency detected" else VNone)]).

(** The callback reads the result through attributes
    ([result.pain_location], ...). *)
Definition handle_chest_pain_assessment (args : dict value) (result : value)
  : M unit :=
  (location <-- lift (getattr result "pain_location") ;;
   quality <-- lift (getattr result "pain_quality") ;;
   radiation <-- lift (getattr result "radiation") ;;
   associated_symptoms <-- lift (getattr result "associated_symptoms") ;;
   severity <-- lift (getattr result "severity") ;;
   aggravating_factors <-- lift (getattr result "aggravating_factors") ;;
   relieving_factors <-- lift (getattr result "relieving_factors") ;;
   set_state "chest_pain_assessment"
     (VDict [("location", location); ("quality", quality);
             ("radiation", radiation);
             ("associated_symptoms", associated_symptoms);
             ("severity", severity);
             ("aggravating_factors", aggravating_factors);
             ("relieving_factors", relieving_factors)]) ;;;
   requires_emergency_routing <--
     lift (getattr result "requires_emergency_routing") ;;
   if truthy requires_emergency_routing
   then
     emergency_reason <-- lift (getattr result "emergency_reason") ;;
     set_node "emergency" (Emergency.create_emergency_node emergency_reason)
   else
     set_node "medical_history" MedicalHistory.create_medical_history_node)%flow.

End ChestPain.

(* ================================================================== *)
(** ** [agent/specialty_nodes/respiratory.py] *)

Module Respiratory.

Definition get_trigger_phrases : list string :=
  ["breathing problem"; "shortness of breath"; "difficulty breathing";
   "cough"; "respiratory"; "breathing difficulty"].

Definition create_assessment_node : node :=
  {| role_messages := [];
     task_messages :=
       [system
          ("Continue gathering information about their breathing symptoms naturally. Ask about:" ++ newline
           ++ "1. Difficulty breathing - when it occurs, severity" ++ newline
           ++ "2. Cough - type (dry/wet), duration" ++ newline
           ++ "3. Any mucus or phlegm" ++ newline
           ++ "4. Associated symptoms" ++ newline
           ++ "Ask these questions conversationally, one at a time.")];
     functions :=
       [{| fn_name := "assess_respiratory";
           fn_handler := Some assess_respiratory_h;
           fn_description := "Collect detailed respiratory information";
           fn_parameters :=
             object_parameters
               [("breathing_difficulty", JString);
                ("cough_type", JString);
                ("cough_duration", JString);
                ("sputum_presence", JBoolean);
                ("sputum_description", JString);
                ("associated_symptoms", JArray JString)]
               ["breathing_difficulty"; "cough_type"; "cough_duration"];
           fn_transition_callback := Some handle_respiratory_assessment_cb;
           fn_transition_to := None |}];
     pre_actions := [];
     post_actions := [] |}.

(** The class [RespiratoryNode], decorated like [ChestPainNode] and
    imported as little. *)
Definition RespiratoryNode : Base.SpecialtyNode :=
  {| Base.class_name := "RespiratoryNode";
     Base.get_trigger_phrases := get_trigger_phrases;
     Base.create_assessment_node := create_assessment_node |}.

Definition emergency_indicators : list string :=
  ["severe difficulty"; "can't breathe"; "unable to breathe"; "blue lips";
   "chest pain"; "dizzy"; "confused"].

Definition assess_respiratory (args : dict value) : outcome value :=
  breathing_difficulty <-
    lower_method (get args "breathing_difficulty" (VStr "")) ;;
  let associated_symptoms := get args "associated_symptoms" (VList []) in
  is_emergency <-
    detect_emergency emergency_indicators breathing_difficulty
      associated_symptoms ;;
  Ok (VDict
        [("status", VStr "success");
         ("breathing_difficulty", VStr breathing_difficulty);
         ("cough_type", get args "cough_type" (VStr ""));
         ("cough_duration", get args "cough_duration" (VStr ""));
         ("sputum_presence", get args "sputum_presence" (VBool false));
         ("sputum_description", get args "sputum_description" (VStr ""));
         ("associated_symptoms", associated_symptoms);
         ("requires_emergency", VBool is_emergency);
         ("emergency_reason",
          if is_emergency
          then VStr "Severe respiratory distress detected" else VNone)]).

Definition handle_respiratory_assessment (args : dict value) (result : value)
  : M unit :=
  (breathing_difficulty <-- lift (getitem result "breathing_difficulty") ;;
   cough_type <-- lift (getitem result "cough_type") ;;
   cough_duration <-- lift (getitem result "cough_duration") ;;
   sputum_presence <-- lift (getitem result "sputum_presence") ;;
   sputum_description <-- lift (getitem result "sputum_description") ;;
   associated_symptoms <-- lift (getitem result "associated_symptoms") ;;
   set_state "respiratory_assessment"
     (VDict [("breathing_difficulty", breathing_difficulty);
             ("cough_type", cough_type);
             ("cough_duration", cough_duration);
             ("sputum_presence", sputum_presence);
             ("sputum_description", sputum_description);
             ("associated_symptoms", associated_symptoms)]) ;;;
   requires_emergency <-- lift (getitem result "requires_emergency") ;;
   if truthy requires_emergency
   then
     emergency_reason <-- lift (getitem result "emergency_reason") ;;
     set_node "emergency" (Emergency.create_emergency_node emergency_reason)
   else
     set_node "medical_history" MedicalHistory.create_medical_history_node)%flow.

End Respiratory.

(* ================================================================== *)
(** ** Dispatch, and one tool call as the runtime delivers it *)

(** The function a descriptor's ["handler"] entry refers to.  Only the
    shared emergency handler reads the clock. *)
Definition run_handler (h : handler_id) (now : string) (args : dict value)
  : outcome value :=
  match h with
  | verify_consent_h => Entry.verify_consent args
  | collect_chief_complaint_h => ChiefComplaint.collect_chief_complaint args
  | collect_medical_history_h => MedicalHistory.collect_medical_history args
  | assess_chest_pain_h => ChestPain.assess_chest_pain args
  | assess_respiratory_h => Respiratory.assess_respiratory args
  | emergency_handle_emergency_h => Emergency.handle_emergency args
  | shared_handle_emergency_h => SharedHandlers.handle_emergency now args
  end.

(** The function a descriptor's ["transition_callback"] entry refers to. *)
Definition run_callback (_flows : NodeRegistry.flows) (cb : callback_id)
  (args : dict value) (result : value) : M unit :=
  match cb with
  | handle_consent_transition_cb => Entry.handle_consent_transition args result
  | handle_complaint_transition_cb =>
      ChiefComplaint.handle_complaint_transition _flows args result
  | handle_medical_history_transition_cb =>
      MedicalHistory.handle_medical_history_transition args result
  | handle_wrap_up_transition_cb => WrapUp.handle_wrap_up_transition args result
  | handle_emergency_transition_cb =>
      Emergency.handle_emergency_transition args result
  | handle_chest_pain_assessment_cb =>
      ChestPain.handle_chest_pain_assessment args result
  | handle_respiratory_assessment_cb =>
      Respiratory.handle_respiratory_assessment args result
  end.

(** A tool call of the language model: the function it names, its
    arguments, and the clock reading while it is served. *)
Record event : Type := Event {
  ev_function : string;
  ev_args : dict value;
  ev_now : string
}.

Definition find_function (name : string) (n : node) : option function_decl :=
  find (fun f => fn_name f =? name) (functions n).

(** Serving one tool call on the current node: the handler produces the
    result (a function without handler is acknowledged), then the
    transition callback runs on it.  A call that names no function of the
    current node cannot be delivered: [None].  A raise ends the call and
    leaves the flow manager as the raising code left it. *)
Definition deliver (_flows : NodeRegistry.flows) (e : event)
  (fm : flow_manager) : option (flow_manager * outcome unit) :=
  match current_node fm with
  | None => None
  | Some (_, n) =>
      match find_function (ev_function e) n with
      | None => None
      | Some f =>
          let result :=
            match fn_handler f with
            | Some h => run_handler h (ev_now e) (ev_args e)
            | None => Ok (VDict [("status", VStr "acknowledged")])
            end in
          match result with
          | Raise exc => Some (fm, Raise exc)
          | Ok r =>
              match fn_transition_callback f with
              | Some cb =>
                  Some (run_callback _flows cb (ev_args e) r (ev_now e) fm)
              | None => Some (fm, Ok tt)
              end
          end
      end
  end.

(** The flow manager after a sequence of tool calls. *)
Fixpoint run (_flows : NodeRegistry.flows) (events : list event)
  (fm : flow_manager) : flow_manager :=
  match events with
  | [] => fm
  | e :: rest =>
      match deliver _flows e fm with
      | Some (fm', _) => run _flows rest fm'
      | None => run _flows rest fm
      end
  end.

(** [bot.py]: when the first participant joins, the entry node is
    installed under the name ["initial"]. *)
Definition start_session : flow_manager :=
  fst (set_node "initial" Entry.create_entry_node "" initial_flow_manager).

(** A node is terminal when it offers no function and ends the
    conversation after its utterance. *)
Definition is_end_node (n : node) : bool :=
  match functions n, post_actions n with
  | [], [[(k, VStr "end_conversation")]] => k =? "type"
  | _, _ => false
  end.

(** The session is over when its current node is terminal. *)
Definition session_ended (fm : flow_manager) : bool :=
  match current_node fm with
  | Some (_, n) => is_end_node n
  | None => false
  end.

(* ================================================================== *)
(** ** [server.py]

    The HTTP front door: one bot process per request, at most
    [MAX_BOTS_PER_ROOM] running bots per room.  The REST helper, the
    token service, [subprocess] and the liveness of processes are the
    outside [world]; calls to them are taken to return. *)

Module Server.

Definition MAX_BOTS_PER_ROOM : nat := 1.

(** A [subprocess.Popen] object: its identity and the [pid] attribute. *)
Record Popen : Type := { handle : nat; pid : Z }.

(** The module-level [bot_procs]: process id to [(proc, room_url)], in
    insertion order. *)
Definition procs : Type := list (Z * (Popen * string)).

(** [bot_procs.get(pid)] *)
Fixpoint lookup_pid (bot_procs : procs) (key : Z) : option (Popen * string) :=
  match bot_procs with
  | [] => None
  | (k, entry) :: rest =>
      if (k =? key)%Z then Some entry else lookup_pid rest key
  end.

(** [bot_procs[key] = entry] *)
Fixpoint set_pid (bot_procs : procs) (key : Z) (entry : Popen * string)
  : procs :=
  match bot_procs with
  | [] => [(key, entry)]
  | (k, old) :: rest =>
      if (k =? key)%Z then (k, entry) :: rest
      else (k, old) :: set_pid rest key entry
  end.

(** What the request handlers get from outside while one request is
    served: the URL of the room the REST helper creates, the token it
    hands out for a room (or [None]), the outcome of [subprocess.Popen]
    on a command line (the process object, or the text of the exception),
    and whether [proc.poll()] is [None], that is, the process still
    runs. *)
Record world : Type := {
  create_room : string;
  get_token : string -> option string;
  popen : string -> string + Popen;
  poll_is_none : Popen -> bool
}.

Inductive response : Type :=
| RedirectResponse (url : string)
| JSONResponse (bot_id : Z) (status : string)
| HTTPException (status_code : Z) (detail : string).

(** [sum(1 for proc in bot_procs.values()
         if proc[1] == room_url and proc[0].poll() is None)] *)
Definition num_bots_in_room (w : world) (bot_procs : procs)
  (room_url : string) : nat :=
  length
    (filter (fun proc => (snd proc =? room_url) && poll_is_none w (fst proc))
       (map snd bot_procs)).

(** [start_agent], one request served from its first line to its last
    with no other request in between; the [print] calls are left out. *)
Definition start_agent (w : world) (room_url : option string)
  (bot_procs : procs) : response * procs :=
  let room_url :=
    match room_url with
    | Some url => if url =? "" then create_room w else url
    | None => create_room w
    end in
  if (MAX_BOTS_PER_ROOM <=? num_bots_in_room w bot_procs room_url)%nat
  then (HTTPException 500 ("Max bot limited reach for room: " ++ room_url),
        bot_procs)
  else
    match get_token w room_url with
    | None | Some EmptyString =>
        (HTTPException 500 ("Failed to get token for room: " ++ room_url),
         bot_procs)
    | Some token =>
        match popen w ("python3 -m bot -u " ++ room_url ++ " -t " ++ token) with
        | inr proc =>
            (RedirectResponse room_url,
             set_pid bot_procs (pid proc) (proc, room_url))
        | inl e =>
            (HTTPException 500 ("Failed to start subprocess: " ++ e),
             bot_procs)
        end
    end.

(** [start_agent] up to its [await] of [get_token]: the room is settled
    and the admission check is made on [bot_procs] as it stands.  The
    request is refused, or the coroutine is suspended, holding the room
    it was admitted to. *)
Definition start_agent_admit (w : world) (room_url : option string)
  (bot_procs : procs) : response + string :=
  let room_url :=
    match room_url with
    | Some url => if url =? "" then create_room w else url
    | None => create_room w
    end in
  if (MAX_BOTS_PER_ROOM <=? num_bots_in_room w bot_procs room_url)%nat
  then inl (HTTPException 500 ("Max bot limited reach for room: " ++ room_url))
  else inr room_url.

(** [start_agent] from the return of [get_token] on, on [bot_procs] as it
    stands by then: other requests may have been served while the
    coroutine was suspended. *)
Definition start_agent_resume (w : world) (room_url : string)
  (bot_procs : procs) : response * procs :=
  match get_token w room_url with
  | None | Some EmptyString =>
      (HTTPException 500 ("Failed to get token for room: " ++ room_url),
       bot_procs)
  | Some token =>
      match popen w ("python3 -m bot -u " ++ room_url ++ " -t " ++ token) with
      | inr proc =>
          (RedirectResponse room_url,
           set_pid bot_procs (pid proc) (proc, room_url))
      | inl e =>
          (HTTPException 500 ("Failed to start subprocess: " ++ e),
           bot_procs)
      end
  end.

(** [get_status] *)
Definition get_status (w : world) (pid : Z) (bot_procs : procs) : response :=
  match lookup_pid bot_procs pid with
  | None =>
      HTTPException 404
        ("Bot with process id: " ++ string_of_Z pid ++ " not found")
  | Some proc =>
      JSONResponse pid
        (if poll_is_none w (fst proc) then "running" else "finished")
  end.

End Server.

(* ================================================================== *)
(** * Vocabulary of the properties *)

(** ** Text *)

(** [needle] occurs in [hay]: some text before it, some text after. *)
Definition occurs (needle hay : string) : Prop :=
  exists before after, hay = before ++ needle ++ after.

(** Case-insensitive occurrence: occurrence of the lower-cased phrase in
    the lower-cased text. *)
Definition occurs_ci (phrase text : string) : Prop :=
  occurs (lower phrase) (lower text).

(** A text without upper-case ASCII letters. *)
Definition is_lower (s : string) : bool := (lower s =? s).

(** ** Schemas *)

(** [v] has the JSON type [ty]; in an object, a property that is present
    has its declared type and any property may be absent. *)
Fixpoint conforms (ty : json_type) (v : value) {struct ty} : bool :=
  match ty, v with
  | JString, VStr _ => true
  | JBoolean, VBool _ => true
  | JArray item, VList l => forallb (conforms item) l
  | JObject props, VDict d =>
      forallb
        (fun p =>
           match lookup d (fst p) with
           | Some x => conforms (snd p) x
           | None => true
           end)
        props
  | _, _ => false
  end.

(** Well-formed but possibly incomplete arguments: each supplied field
    has its declared type. *)
Definition well_formed (params : parameters) (args : dict value) : bool :=
  conforms (JObject (properties params)) (VDict args).

(** ** Emergency detection *)

(** The elements of [v] a [for] loop sees; none when [v] is not iterable. *)
Definition elements (v : value) : list value :=
  match iterate v with
  | Ok l => l
  | Raise _ => []
  end.

(** Some indicator keyword occurs, ignoring case, in the free text or in
    one of the symptoms. *)
Definition keyword_hit (indicators : list string) (text : string)
  (symptoms : list value) : Prop :=
  exists keyword, In keyword indicators /\
    (occurs_ci keyword text \/
     exists s, In (VStr s) symptoms /\ occurs_ci keyword s).

(** The specialties of the repository, to state properties of "every
    specialty" once. *)
Inductive specialty : Type := chest_pain | respiratory.

Definition assess (sp : specialty) : dict value -> outcome value :=
  match sp with
  | chest_pain => ChestPain.assess_chest_pain
  | respiratory => Respiratory.assess_respiratory
  end.

Definition indicators (sp : specialty) : list string :=
  match sp with
  | chest_pain => ChestPain.emergency_indicators
  | respiratory => Respiratory.emergency_indicators
  end.

(** The free-text field the indicators are looked for in. *)
Definition description_field (sp : specialty) : string :=
  match sp with
  | chest_pain => "severity"
  | respiratory => "breathing_difficulty"
  end.

(** The key of the emergency flag in the handler's result. *)
Definition emergency_flag (sp : specialty) : string :=
  match sp with
  | chest_pain => "requires_emergency_routing"
  | respiratory => "requires_emergency"
  end.

Definition assessment_node (sp : specialty) : node :=
  match sp with
  | chest_pain => ChestPain.create_assessment_node
  | respiratory => Respiratory.create_assessment_node
  end.

(** The schema the assessment node declares for its handler. *)
Definition assessment_schema (sp : specialty) : parameters :=
  match functions (assessment_node sp) with
  | f :: _ => fn_parameters f
  | [] => object_parameters [] []
  end.

(** ** Registry *)

(** Some trigger phrase of the class occurs verbatim in [text]. *)
Definition triggered_by (text : string) (flow_class : Base.SpecialtyNode)
  : Prop :=
  exists trigger,
    In trigger (Base.get_trigger_phrases flow_class) /\ occurs trigger text.

(** Some trigger phrase of the class occurs in the complaint, ignoring
    case. *)
Definition matches_ci (complaint : string) (flow_class : Base.SpecialtyNode)
  : Prop :=
  exists trigger,
    In trigger (Base.get_trigger_phrases flow_class) /\
    occurs_ci trigger complaint.

(** [result] is the first class of [classes], in order, that satisfies
    [P]; nothing when none does. *)
Definition first_such (P : Base.SpecialtyNode -> Prop)
  (classes : list Base.SpecialtyNode) (result : option Base.SpecialtyNode)
  : Prop :=
  match result with
  | Some flow_class =>
      exists before after,
        classes = (before ++ flow_class :: after)%list /\
        P flow_class /\
        forall other, In other before -> ~ P other
  | None => forall other, In other classes -> ~ P other
  end.

(** The claim as the specification words it: a case-insensitive substring
    match, first registered class wins, nothing when no phrase occurs. *)
Definition match_is_case_insensitive (_flows : NodeRegistry.flows)
  (complaint : string) : Prop :=
  exists result,
    NodeRegistry.get_node_for_complaint _flows (VStr complaint) = Ok result /\
    first_such (matches_ci complaint) (values _flows) result.

Definition lower_case_phrases (_flows : NodeRegistry.flows) : Prop :=
  forall flow_class, In flow_class (values _flows) ->
    forallb is_lower (Base.get_trigger_phrases flow_class) = true.

(** Two classes that share the word "pain", for the tie-break. *)
Definition colliding_flows : NodeRegistry.flows :=
  [("ChestPainNode", ChestPain.ChestPainNode);
   ("BackPainNode",
    {| Base.class_name := "BackPainNode";
       Base.get_trigger_phrases := ["pain"; "back"];
       Base.create_assessment_node := Respiratory.create_assessment_node |})].

(** A class whose trigger phrase is capitalised. *)
Definition capitalised_flows : NodeRegistry.flows :=
  [("CoughNode",
    {| Base.class_name := "CoughNode";
       Base.get_trigger_phrases := ["Cough"];
       Base.create_assessment_node := Respiratory.create_assessment_node |})].

(** The claim as the specification words it: registering a class whose
    name is already in the registry fails. *)
Definition duplicate_registration_fails : Prop :=
  forall (flow_class old : Base.SpecialtyNode) (_flows : NodeRegistry.flows),
    lookup _flows (Base.class_name flow_class) = Some old ->
    exists e, NodeRegistry.register flow_class _flows = Raise e.

(** A second class that calls itself [ChestPainNode]. *)
Definition second_ChestPainNode : Base.SpecialtyNode :=
  {| Base.class_name := "ChestPainNode";
     Base.get_trigger_phrases := ["sternum"];
     Base.create_assessment_node := Respiratory.create_assessment_node |}.

(** ** Sessions and their transitions *)

(** The result of the consent handler. *)
Definition consent_result (consent_given : bool) : value :=
  VDict [("status", VStr "success"); ("consent_given", VBool consent_given)].

(** The utterance of the end node after a refusal. *)
Definition decline_message : string :=
  "I understand. I'll have a staff member contact you directly. Thank you for your time.".

(** The flow manager after the entry transition, consent given. *)
Definition consented (fm : flow_manager) : flow_manager :=
  {| state := set (state fm) "consent_given" (VBool true);
     installed :=
       installed fm ++
       [("chief_complaint", ChiefComplaint.create_chief_complaint_node)] |}.

(** The flow manager after the entry transition, consent refused. *)
Definition declined (fm : flow_manager) : flow_manager :=
  {| state := state fm;
     installed :=
       installed fm ++
       [("end_call", EndNode.create_end_call_node decline_message)] |}.

(** The registry after the [@register] decorators of the given classes
    have run, in that order. *)
Definition register_all (classes : list Base.SpecialtyNode)
  : outcome NodeRegistry.flows :=
  fold_left
    (fun registry flow_class =>
       _flows <- registry ;; NodeRegistry.register flow_class _flows)
    classes (Ok []).

(** The arguments of the chest-pain scenario. *)
Definition chest_pain_args : dict value :=
  [("complaint", VStr "I have chest pain"); ("duration", VStr "2 days")].

(** The transition message the scenario builds. *)
Definition chest_pain_transition_message : string :=
  "I understand you've been experiencing I have chest pain for 2 days. "
  ++ "I'd like to ask a few more specific questions about this to help the doctor "
  ++ "better prepare for your appointment.".

(** The flow manager after the chief-complaint transition of the scenario. *)
Definition chest_pain_installed (fm : flow_manager) : flow_manager :=
  {| state :=
       set (state fm) "chief_complaint"
         (VDict [("complaint", VStr "I have chest pain");
                 ("duration", VStr "2 days")]);
     installed :=
       installed fm ++
       [("chestpainnode_intro",
         Base.create_transition_node ChestPain.ChestPainNode
           chest_pain_transition_message);
        ("chestpainnode_assessment", ChestPain.create_assessment_node)] |}.

(** The registry as the decorators of the two specialties would leave
    it: holding both classes, whichever module was imported first. *)
Definition both_registered (_flows : NodeRegistry.flows) : Prop :=
  register_all [ChestPain.ChestPainNode; Respiratory.RespiratoryNode]
    = Ok _flows \/
  register_all [Respiratory.RespiratoryNode; ChestPain.ChestPainNode]
    = Ok _flows.

(** The tool calls that lead a session into the chest-pain specialty. *)
Definition consent_event (now : string) : event :=
  {| ev_function := "process_consent";
     ev_args := [("consent", VBool true)];
     ev_now := now |}.

Definition chest_pain_complaint_event (now : string) : event :=
  {| ev_function := "collect_chief_complaint";
     ev_args := chest_pain_args;
     ev_now := now |}.

(** ** Handlers *)

(** The handlers a descriptor names. *)
Definition node_handlers (n : node) : list handler_id :=
  flat_map
    (fun f => match fn_handler f with Some h => [h] | None => [] end)
    (functions n).

(** The descriptors the factories of the repository produce. *)
Inductive factory_node : node -> Prop :=
| factory_entry : factory_node Entry.create_entry_node
| factory_chief_complaint :
    factory_node ChiefComplaint.create_chief_complaint_node
| factory_medical_history :
    factory_node MedicalHistory.create_medical_history_node
| factory_wrap_up : factory_node WrapUp.create_wrap_up_node
| factory_emergency reason :
    factory_node (Emergency.create_emergency_node reason)
| factory_end message : factory_node (EndNode.create_end_call_node message)
| factory_transition flow_class message :
    factory_node (Base.create_transition_node flow_class message)
| factory_assessment sp : factory_node (assessment_node sp).

(** The claim as the specification words it, for one handler: two calls
    with the same arguments give the same outcome, whenever they are
    made. *)
Definition pure_handler (h : handler_id) : Prop :=
  forall (args : dict value) (now1 now2 : string),
    run_handler h now1 args = run_handler h now2 args.

(** The fields the schema of a function declares. *)
Definition declared_fields (f : function_decl) : list string :=
  keys (properties (fn_parameters f)).

(** Two argument dictionaries hold the same thing, or both nothing, under
    each of [fields]. *)
Definition agree_on (fields : list string) (args1 args2 : dict value)
  : Prop :=
  forall field, In field fields -> lookup args1 field = lookup args2 field.

(** The key under which a handler reports a field of its arguments. *)
Definition result_key (field : string) : string :=
  if field =? "consent" then "consent_given" else field.

(** The empty value of a declared type: empty string, false, empty list. *)
Definition safe_default (ty : json_type) : value :=
  match ty with
  | JString => VStr ""
  | JBoolean => VBool false
  | JArray _ => VList []
  | JObject _ => VDict []
  end.

(** What a handler reports for a field its arguments lack. *)
Definition default_of (field : string) (ty : json_type) : value :=
  if field =? "emergency_reason" then VStr "Unspecified emergency"
  else safe_default ty.

(** A function declaration whose handler, on arguments that match the
    declared schema, returns a result in which every missing field has
    the value [default field type]. *)
Definition coerces_missing_to (default : string -> json_type -> value)
  (f : function_decl) : Prop :=
  forall h args now,
    fn_handler f = Some h ->
    well_formed (fn_parameters f) args = true ->
    exists d,
      run_handler h now args = Ok (VDict d) /\
      forall field ty,
        In (field, ty) (properties (fn_parameters f)) ->
        lookup args field = None ->
        lookup d (result_key field) = Some (default field ty).

(** ** Paths *)

(** The announcement node of a specialty; with the assessment node that
    follows it at once, it is one logical step. *)
Definition is_intro (name : string) : bool :=
  (name =? "chestpainnode_intro") || (name =? "respiratorynode_intro").

(** Position of a node name along [entry -> chief_complaint -> specialty
    -> medical_history | emergency -> wrap_up -> end]. *)
Definition stage (name : string) : nat :=
  if name =? "initial" then 0
  else if name =? "chief_complaint" then 1
  else if (name =? "chestpainnode_assessment")
          || (name =? "respiratorynode_assessment") || is_intro name then 2
  else if (name =? "medical_history") || (name =? "emergency") then 3
  else if name =? "wrap_up" then 4
  else 5.

(** The states a session went through: the names of the installed nodes,
    oldest first, announcements left out. *)
Definition visited (fm : flow_manager) : list string :=
  filter (fun name => negb (is_intro name)) (map fst (installed fm)).

(** The nodes a session of the repository can be at, under their names. *)
Inductive canonical : string -> node -> Prop :=
| at_entry : canonical "initial" Entry.create_entry_node
| at_chief_complaint :
    canonical "chief_complaint" ChiefComplaint.create_chief_complaint_node
| at_chest_pain :
    canonical "chestpainnode_assessment" ChestPain.create_assessment_node
| at_respiratory :
    canonical "respiratorynode_assessment" Respiratory.create_assessment_node
| at_medical_history :
    canonical "medical_history" MedicalHistory.create_medical_history_node
| at_emergency reason :
    canonical "emergency" (Emergency.create_emergency_node reason)
| at_wrap_up : canonical "wrap_up" WrapUp.create_wrap_up_node
| at_end message : canonical "end_call" (EndNode.create_end_call_node message).

(** [climbs l top]: [l] is strictly increasing and ends in [top]. *)
Inductive climbs : list nat -> nat -> Prop :=
| climbs_start s : climbs [s] s
| climbs_step l s s' : climbs l s -> s < s' -> climbs (l ++ [s']) s'.

(** The flow manager is on a path of the transition protocol: its
    current node is one of the canonical ones and the stages of the
    visited states climb up to it. *)
Definition on_path (fm : flow_manager) : Prop :=
  exists name n,
    current_node fm = Some (name, n) /\
    canonical name n /\
    climbs (map stage (visited fm)) (stage name).

(** [fm'] is [fm] after a transition out of the state [name]: one more
    canonical node installed, at a later stage, possibly announced by
    intro nodes. *)
Definition advanced (fm fm' : flow_manager) (name : string) : Prop :=
  exists intro name' n',
    installed fm' = (installed fm ++ intro ++ [(name', n')])%list /\
    forallb (fun p : string * node => is_intro (fst p)) intro = true /\
    canonical name' n' /\
    stage name < stage name'.

(** A tool call without arguments. *)
Definition call (name : string) : event :=
  {| ev_function := name; ev_args := []; ev_now := "" |}.

(** Some sequence of tool calls takes the session to its end. *)
Definition can_end (_flows : NodeRegistry.flows) (fm : flow_manager) : Prop :=
  exists events, session_ended (run _flows events fm) = true.

(** ** The program's registry *)

(** The registry as the program has it.  [_flows] starts empty
    ([registry.py], line 9) and [register] is never called: its only uses
    are the decorators of [chest_pain.py] and [respiratory.py], which
    import it as [FlowRegistry], a name [registry.py] does not define,
    and no module imports those two files. *)
Definition program_registry : NodeRegistry.flows := [].

(** The nodes a session of the program can be at, under their names:
    with no specialty registered these are the general ones. *)
Inductive general_node : string -> node -> Prop :=
| general_entry : general_node "initial" Entry.create_entry_node
| general_chief_complaint :
    general_node "chief_complaint" ChiefComplaint.create_chief_complaint_node
| general_medical_history :
    general_node "medical_history" MedicalHistory.create_medical_history_node
| general_wrap_up : general_node "wrap_up" WrapUp.create_wrap_up_node
| general_end message :
    general_node "end_call" (EndNode.create_end_call_node message).

(** [fm'] is [fm] with one more general node installed, at a later stage
    than [name]. *)
Definition stepped (fm fm' : flow_manager) (name : string) : Prop :=
  exists name' n',
    installed fm' = (installed fm ++ [(name', n')])%list /\
    general_node name' n' /\
    stage name < stage name'.

(** The flow manager is on a path of the program: its current node is a
    general one and the stages of the visited states climb up to it. *)
Definition on_general_path (fm : flow_manager) : Prop :=
  exists name n,
    current_node fm = Some (name, n) /\
    general_node name n /\
    climbs (map stage (visited fm)) (stage name).

(** A call of a function of the current node, with arguments that match
    the function's schema, is served without a raise and takes the
    session one state further. *)
Definition makes_progress (_flows : NodeRegistry.flows) (fm : flow_manager)
  : Prop :=
  forall e name n f,
    current_node fm = Some (name, n) ->
    find_function (ev_function e) n = Some f ->
    well_formed (fn_parameters f) (ev_args e) = true ->
    exists fm',
      deliver _flows e fm = Some (fm', Ok tt) /\
      exists next, visited fm' = (visited fm ++ [next])%list.

(** No tool call can be served any more: whatever function a call names,
    the current node does not offer it. *)
Definition halted (_flows : NodeRegistry.flows) (fm : flow_manager) : Prop :=
  forall e, deliver _flows e fm = None.

(** The keys the general nodes write. *)
Definition general_keys : list string :=
  ["consent_given"; "chief_complaint"; "medical_history"].

(** Every node handed to [set_node] so far is a general one. *)
Definition general_nodes_only (fm : flow_manager) : Prop :=
  forall name n, In (name, n) (installed fm) -> general_node name n.

(** The state of the session holds keys of the general nodes only. *)
Definition general_keys_only (fm : flow_manager) : Prop :=
  forall key, In key (keys (state fm)) -> In key general_keys.

(** ** Transitions and records *)

(** The message the chief-complaint transition announces a specialty
    with. *)
Definition transition_message (complaint duration : value) : string :=
  "I understand you've been experiencing " ++ str complaint
  ++ " for " ++ str duration ++ ". "
  ++ "I'd like to ask a few more specific questions about this to help the doctor "
  ++ "better prepare for your appointment.".

(** The nodes the chief-complaint transition installs for the outcome of
    the registry lookup. *)
Definition complaint_route (complaint duration : value)
  (found : option Base.SpecialtyNode) : list (string * node) :=
  match found with
  | Some flow =>
      [(lower (Base.class_name flow) ++ "_intro",
        Base.create_transition_node flow
          (transition_message complaint duration));
       (lower (Base.class_name flow) ++ "_assessment",
        Base.create_assessment_node flow)]
  | None =>
      [("medical_history", MedicalHistory.create_medical_history_node)]
  end.

(** What the chief-complaint transition records. *)
Definition complaint_record (args : dict value) : value :=
  VDict [("complaint", get args "complaint" (VStr ""));
         ("duration", get args "duration" (VStr ""))].

(** What the respiratory transition records: the free text lower-cased,
    the other fields as supplied or at their defaults. *)
Definition respiratory_record (args : dict value) (text : string) : value :=
  VDict [("breathing_difficulty", VStr (lower text));
         ("cough_type", get args "cough_type" (VStr ""));
         ("cough_duration", get args "cough_duration" (VStr ""));
         ("sputum_presence", get args "sputum_presence" (VBool false));
         ("sputum_description", get args "sputum_description" (VStr ""));
         ("associated_symptoms", get args "associated_symptoms" (VList []))].

(** What the medical-history transition records. *)
Definition medical_history_record (args : dict value) : value :=
  VDict [("conditions", get args "conditions" (VList []));
         ("medications", get args "medications" (VList []));
         ("allergies", get args "allergies" (VList []));
         ("surgeries", get args "surgeries" (VList []))].

(** The utterance of the end node after an emergency. *)
Definition hold_message : string :=
  "Please stay on the line while I transfer you to our medical staff.".

(** ** Session state *)

(** The session-state key the transition out of a state writes, when it
    writes one.  The wrap-up and end states write nothing, and the
    chest-pain callback raises before its assignment. *)
Definition topic_key (name : string) : option string :=
  if name =? "initial" then Some "consent_given"
  else if name =? "chief_complaint" then Some "chief_complaint"
  else if name =? "respiratorynode_assessment"
       then Some "respiratory_assessment"
  else if name =? "medical_history" then Some "medical_history"
  else if name =? "emergency" then Some "emergency"
  else None.

(** The keys a session can have in its state. *)
Definition topic_keys : list string :=
  ["consent_given"; "chief_complaint"; "respiratory_assessment";
   "medical_history"; "emergency"].

(** The state of a session holds topic keys only. *)
Definition topic_keys_only (fm : flow_manager) : Prop :=
  forall key, In key (keys (state fm)) -> In key topic_keys.

(** Without recorded consent a session has seen nothing but the entry
    node and, after a refusal, the end node. *)
Definition consent_gate (fm : flow_manager) : Prop :=
  lookup (state fm) "consent_given" = Some (VBool true) \/
  visited fm = ["initial"] \/
  visited fm = ["initial"; "end_call"].

(** A flow manager on a path, under a registry holding the two
    specialties. *)
Definition on_path_with (_flows : NodeRegistry.flows) (fm : flow_manager)
  : Prop :=
  both_registered _flows /\ on_path fm.

(** Some indicator keyword occurs in the text, ignoring case. *)
Definition mentions (indicators : list string) (text : string) : Prop :=
  exists keyword, In keyword indicators /\ occurs_ci keyword text.

(** The emergency flag of a handler result is set. *)
Definition flagged (sp : specialty) (r : value) : Prop :=
  getitem r (emergency_flag sp) = Ok (VBool true).

(** ** The transition graph *)

(** The states a transition out of [name] can lead to. *)
Definition next_states (name : string) : list string :=
  if name =? "initial" then ["chief_complaint"; "end_call"]
  else if name =? "chief_complaint"
       then ["chestpainnode_assessment"; "respiratorynode_assessment";
             "medical_history"]
  else if name =? "respiratorynode_assessment"
       then ["emergency"; "medical_history"]
  else if name =? "medical_history" then ["wrap_up"]
  else if name =? "wrap_up" then ["end_call"]
  else if name =? "emergency" then ["end_call"]
  else [].

(** [walk l name]: [l] starts at the entry state, each state is followed
    by one of its [next_states], and [l] ends in [name]. *)
Inductive walk : list string -> string -> Prop :=
| walk_start : walk ["initial"] "initial"
| walk_step l a b : walk l a -> In b (next_states a) -> walk (l ++ [b]) b.

(** [fm'] is [fm] after a transition out of the state [name] along an
    edge of the graph. *)
Definition moved (fm fm' : flow_manager) (name : string) : Prop :=
  exists intro name' n',
    installed fm' = (installed fm ++ intro ++ [(name', n')])%list /\
    forallb (fun p : string * node => is_intro (fst p)) intro = true /\
    canonical name' n' /\
    In name' (next_states name).

(** The flow manager is at the end of a walk through the graph. *)
Definition on_walk (fm : flow_manager) : Prop :=
  exists name n,
    current_node fm = Some (name, n) /\
    canonical name n /\
    walk (visited fm) name.

(** ** Admission of bots *)

(** Every room has at most [MAX_BOTS_PER_ROOM] running bots on record. *)
Definition rooms_within_limit (w : Server.world) (bot_procs : Server.procs)
  : Prop :=
  forall room_url,
    Server.num_bots_in_room w bot_procs room_url <= Server.MAX_BOTS_PER_ROOM.

(** Between two liveness reports no recorded process came back to life. *)
Definition no_resurrection (w w' : Server.world) (bot_procs : Server.procs)
  : Prop :=
  forall key proc room_url,
    In (key, (proc, room_url)) bot_procs ->
    Server.poll_is_none w' proc = true -> Server.poll_is_none w proc = true.

(** A world for examples: tokens are handed out, processes start and keep
    running. *)
Definition obliging_world : Server.world :=
  {| Server.create_room := "https://example.daily.co/fresh";
     Server.get_token := fun _ => Some "token";
     Server.popen := fun _ => inr {| Server.handle := 1; Server.pid := 4242 |};
     Server.poll_is_none := fun _ => true |}.

(** The command line [start_agent] spawns a bot with. *)
Definition bot_command (room_url token : string) : string :=
  "python3 -m bot -u " ++ room_url ++ " -t " ++ token.

(** In world [w] the token service hands out a token for the room and the
    bot spawned with it is [proc]. *)
Definition spawns (w : Server.world) (room_url : string)
  (proc : Server.Popen) : Prop :=
  exists token,
    Server.get_token w room_url = Some token /\
    token <> "" /\
    Server.popen w (bot_command room_url token) = inr proc.

(** Two worlds for examples, one per request: processes 4242 and 4243. *)
Definition first_world : Server.world := obliging_world.

Definition second_world : Server.world :=
  {| Server.create_room := "https://example.daily.co/fresh";
     Server.get_token := fun _ => Some "token";
     Server.popen := fun _ => inr {| Server.handle := 2; Server.pid := 4243 |};
     Server.poll_is_none := fun _ => true |}.

(* ================================================================== *)
(** * Properties *)


(** ** Substring occurrence *)

Lemma prefix_true_iff (s1 s2 : string) :
  String.prefix s1 s2 = true <-> exists rest, s2 = s1 ++ rest.
Proof.
  revert s2; induction s1 as [|c s1 IH]; intros s2; simpl.
  - destruct s2; split; intros; eauto.
  - destruct s2 as [|c' s2].
    + split; [discriminate | intros [rest H]; discriminate].
    + simpl. destruct (ascii_dec c c') as [->|Hne].
      * rewrite IH. split; intros [rest H]; exists rest.
        -- now rewrite H.
        -- now inversion H.
      * split; [discriminate | intros [rest H]; inversion H; congruence].
Qed.

Lemma str_in_occurs (needle hay : string) :
  str_in needle hay = true <-> occurs needle hay.
Proof.
  induction hay as [|c hay IH]; cbn [str_in].
  - rewrite orb_false_r, prefix_true_iff. split.
    + intros [rest H]. exists "", rest. exact H.
    + intros [before [after H]]. destruct before; simpl in H.
      * now exists after.
      * discriminate.
  - rewrite orb_true_iff, prefix_true_iff, IH. split.
    + intros [[rest H] | [before [after H]]].
      * exists "", rest. exact H.
      * exists (String c before), after. simpl. now rewrite H.
    + intros [before [after H]]. destruct before as [|c' before]; simpl in H.
      * left. now exists after.
      * right. inversion H. now exists before, after.
Qed.

Lemma str_in_false_iff (needle hay : string) :
  str_in needle hay = false <-> ~ occurs needle hay.
Proof.
  rewrite <- str_in_occurs. destruct (str_in needle hay); split; intros;
    try reflexivity; try discriminate; try congruence.
Qed.

Lemma lower_char_not_upper (c : ascii) : is_upper (lower_char c) = false.
Proof.
  destruct c as [[] [] [] [] [] [] [] []]; reflexivity.
Qed.

Lemma lower_idempotent (s : string) : lower (lower s) = lower s.
Proof.
  induction s as [|c s IH]; simpl; [reflexivity|].
  rewrite IH. f_equal.
  unfold lower_char at 1. now rewrite lower_char_not_upper.
Qed.

Lemma is_lower_eq (s : string) : is_lower s = true -> lower s = s.
Proof. apply String.eqb_eq. Qed.

(** ** Arguments that match a declared schema *)

Lemma well_formed_field (params : parameters) (args : dict value)
  (field : string) (ty : json_type) (v : value) :
  well_formed params args = true ->
  In (field, ty) (properties params) ->
  lookup args field = Some v ->
  conforms ty v = true.
Proof.
  unfold well_formed; simpl. rewrite forallb_forall.
  intros H Hin Hv. specialize (H _ Hin). simpl in H. now rewrite Hv in H.
Qed.

Lemma conforms_string (v : value) :
  conforms JString v = true -> exists s, v = VStr s.
Proof. destruct v; simpl; try discriminate. eauto. Qed.

Lemma well_formed_text (params : parameters) (args : dict value)
  (field : string) :
  well_formed params args = true ->
  In (field, JString) (properties params) ->
  exists s, get args field (VStr "") = VStr s.
Proof.
  intros Hwf Hin. unfold get.
  destruct (lookup args field) as [v|] eqn:Hv; [|eauto].
  apply conforms_string. eapply well_formed_field; eassumption.
Qed.

Lemma conforms_boolean (v : value) :
  conforms JBoolean v = true -> exists b, v = VBool b.
Proof. destruct v; simpl; try discriminate. eauto. Qed.

Lemma conforms_array (item : json_type) (v : value) :
  conforms (JArray item) v = true ->
  exists l, v = VList l /\ forallb (conforms item) l = true.
Proof. destruct v; simpl; try discriminate. eauto. Qed.

(** ** Consent handler *)

(** C10. The consent handler never raises and always reports success;
    [consent_given] is the supplied value when the ["consent"] field is a
    boolean, is true exactly when the field is a string whose lower-case
    form is ["true"], and is false when the field is missing or has any
    other type. *)
Theorem verify_consent_spec (args : dict value) :
  exists consent_given : bool,
    Entry.verify_consent args =
      Ok (VDict [("status", VStr "success");
                 ("consent_given", VBool consent_given)]) /\
    (forall b, lookup args "consent" = Some (VBool b) -> consent_given = b) /\
    (forall s, lookup args "consent" = Some (VStr s) ->
               (consent_given = true <-> lower s = "true")) /\
    (lookup args "consent" = None -> consent_given = false) /\
    (forall v, lookup args "consent" = Some v ->
               type_of v <> TBoolT -> type_of v <> TStrT ->
               consent_given = false).
Proof.
  unfold Entry.verify_consent, get.
  destruct (lookup args "consent") as [v|] eqn:Hv.
  - destruct v as [ | b | z | s | l | d | m ]; simpl;
      [ exists false | exists b | exists false | exists (lower s =? "true")
      | exists false | exists false | exists false ];
      (split; [reflexivity|]);
      repeat split; intros; try discriminate; try reflexivity;
      try match goal with H : Some _ = Some _ |- _ =>
            inversion H; subst; clear H end;
      try reflexivity; simpl in *; try congruence;
      try (now apply String.eqb_eq).
  - simpl. exists false. split; [reflexivity|].
    repeat split; intros; try discriminate; reflexivity.
Qed.

Lemma verify_consent_spec_witness :
  (exists c, Entry.verify_consent [("consent", VBool true)] =
               Ok (VDict [("status", VStr "success");
                          ("consent_given", VBool c)]) /\ c = true) /\
  (exists c, Entry.verify_consent [("consent", VStr "TRUE")] =
               Ok (VDict [("status", VStr "success");
                          ("consent_given", VBool c)]) /\ c = true) /\
  (exists c, Entry.verify_consent [] =
               Ok (VDict [("status", VStr "success");
                          ("consent_given", VBool c)]) /\ c = false) /\
  (exists c, Entry.verify_consent [("consent", VInt 1)] =
               Ok (VDict [("status", VStr "success");
                          ("consent_given", VBool c)]) /\ c = false).
Proof.
  repeat split.
  - destruct (verify_consent_spec [("consent", VBool true)])
      as (c & H & Hb & _).
    exists c. split; [exact H | apply Hb; reflexivity].
  - destruct (verify_consent_spec [("consent", VStr "TRUE")])
      as (c & H & _ & Hs & _).
    exists c. split; [exact H | apply (Hs "TRUE"); reflexivity].
  - destruct (verify_consent_spec []) as (c & H & _ & _ & Hn & _).
    exists c. split; [exact H | apply Hn; reflexivity].
  - destruct (verify_consent_spec [("consent", VInt 1)])
      as (c & H & _ & _ & _ & Ho).
    exists c. split; [exact H|].
    apply (Ho (VInt 1)); [reflexivity | discriminate | discriminate].
Defined.

(** ** Emergency detection *)

Lemma any_indicator_in_text_true (indicators : list string) (text : string) :
  any_indicator_in_text indicators text = true <->
  exists keyword, In keyword indicators /\ occurs keyword text.
Proof.
  unfold any_indicator_in_text. rewrite existsb_exists.
  split; intros [k [Hin H]]; exists k; split; auto; now apply str_in_occurs.
Qed.

Lemma any_indicator_in_symptom_spec (symptom : value)
  (indicators : list string) (b : bool) :
  any_indicator_in_symptom symptom indicators = Ok b ->
  (b = true <->
   exists keyword s, In keyword indicators /\ symptom = VStr s /\
                     occurs keyword (lower s)).
Proof.
  revert b; induction indicators as [|k rest IH]; intros b; simpl.
  - intros H; inversion H; subst. split; [discriminate|].
    intros (? & ? & [] & _).
  - destruct symptom as [ | | | s | | | ]; simpl; try discriminate.
    destruct (str_in k (lower s)) eqn:Hk.
    + intros H; inversion H; subst. split; [|reflexivity]. intros _.
      exists k, s. repeat split; auto. now apply str_in_occurs.
    + intros H. rewrite (IH b H). apply str_in_false_iff in Hk. split.
      * intros (k' & s' & Hin & Hs & Ho). exists k', s'. auto.
      * intros (k' & s' & [<-|Hin] & Hs & Ho).
        -- inversion Hs; subst. contradiction.
        -- exists k', s'. auto.
Qed.

Lemma any_indicator_in_symptoms_spec (indicators : list string)
  (symptoms : list value) (b : bool) :
  any_indicator_in_symptoms indicators symptoms = Ok b ->
  (b = true <->
   exists keyword s, In keyword indicators /\ In (VStr s) symptoms /\
                     occurs keyword (lower s)).
Proof.
  revert b; induction symptoms as [|symptom rest IH]; intros b; simpl.
  - intros H; inversion H; subst. split; [discriminate|].
    intros (? & ? & _ & [] & _).
  - destruct (any_indicator_in_symptom symptom indicators) as [hit|e] eqn:Hs;
      simpl; [|discriminate].
    pose proof (any_indicator_in_symptom_spec _ _ _ Hs) as Hhit.
    destruct hit.
    + intros H; inversion H; subst. split; [|reflexivity]. intros _.
      destruct Hhit as [Hhit _].
      destruct (Hhit eq_refl) as (k & s & Hin & -> & Ho).
      exists k, s. auto.
    + intros H. rewrite (IH b H). split.
      * intros (k & s & Hin & Hs' & Ho). exists k, s. auto.
      * intros (k & s & Hin & [Heq|Hs'] & Ho).
        -- destruct Hhit as [_ Hhit]. discriminate Hhit.
           exists k, s. auto.
        -- exists k, s. auto.
Qed.

(** On a list of strings the second generator never raises. *)
Lemma any_indicator_in_symptoms_total (indicators : list string)
  (symptoms : list value) :
  forallb (conforms JString) symptoms = true ->
  exists b, any_indicator_in_symptoms indicators symptoms = Ok b.
Proof.
  induction symptoms as [|symptom rest IH]; simpl.
  - eauto.
  - rewrite andb_true_iff. intros [Hs Hrest].
    apply conforms_string in Hs as [s ->].
    assert (Hin : exists hit,
               any_indicator_in_symptom (VStr s) indicators = Ok hit).
    { clear. induction indicators as [|k ks IHk]; simpl; eauto.
      destruct (str_in k (lower s)); eauto. }
    destruct Hin as [hit ->]. simpl.
    destruct hit; eauto.
Qed.

Lemma detect_emergency_spec (indicators : list string) (text : string)
  (associated_symptoms : value) (b : bool) :
  forallb is_lower indicators = true ->
  detect_emergency indicators (lower text) associated_symptoms = Ok b ->
  (b = true <-> keyword_hit indicators text (elements associated_symptoms)).
Proof.
  intros Hlow. rewrite forallb_forall in Hlow.
  unfold detect_emergency, keyword_hit, occurs_ci, elements.
  destruct (any_indicator_in_text indicators (lower text)) eqn:Ht.
  - intros H; inversion H; subst. split; [|reflexivity]. intros _.
    apply any_indicator_in_text_true in Ht as (k & Hin & Ho).
    exists k. split; [exact Hin|]. left.
    now rewrite (is_lower_eq _ (Hlow _ Hin)).
  - destruct (iterate associated_symptoms) as [symptoms|e]; simpl;
      [|discriminate].
    intros H. rewrite (any_indicator_in_symptoms_spec _ _ _ H). split.
    + intros (k & s & Hin & Hs & Ho). exists k. split; [exact Hin|].
      right. exists s. split; [exact Hs|].
      now rewrite (is_lower_eq _ (Hlow _ Hin)).
    + intros (k & Hin & [Ho | (s & Hs & Ho)]);
        rewrite (is_lower_eq _ (Hlow _ Hin)) in Ho.
      * assert (any_indicator_in_text indicators (lower text) = true)
          by (apply any_indicator_in_text_true; eauto).
        congruence.
      * exists k, s. auto.
Qed.

Lemma indicators_lower (sp : specialty) :
  forallb is_lower (indicators sp) = true.
Proof. destruct sp; reflexivity. Qed.

Lemma assess_unfold (sp : specialty) (args : dict value) (r : value) :
  assess sp args = Ok r ->
  exists text b,
    get args (description_field sp) (VStr "") = VStr text /\
    detect_emergency (indicators sp) (lower text)
      (get args "associated_symptoms" (VList [])) = Ok b /\
    getitem r (emergency_flag sp) = Ok (VBool b) /\
    getitem r "emergency_reason" =
      Ok (if b
          then VStr (match sp with
                     | chest_pain => "Potential cardiac emergency detected"
                     | respiratory => "Severe respiratory distress detected"
                     end)
          else VNone).
Proof.
  destruct sp; simpl;
    unfold ChestPain.assess_chest_pain, Respiratory.assess_respiratory.
  - destruct (get args "severity" (VStr "")) as [ | | | text | | | ];
      simpl; try discriminate.
    destruct (detect_emergency ChestPain.emergency_indicators (lower text)
                (get args "associated_symptoms" (VList []))) as [b|e] eqn:Hd;
      simpl; [|discriminate].
    intros H; inversion H; subst. exists text, b.
    repeat split; auto.
  - destruct (get args "breathing_difficulty" (VStr "")) as [ | | | text | | | ];
      simpl; try discriminate.
    destruct (detect_emergency Respiratory.emergency_indicators (lower text)
                (get args "associated_symptoms" (VList []))) as [b|e] eqn:Hd;
      simpl; [|discriminate].
    intros H; inversion H; subst. exists text, b.
    repeat split; auto.
Qed.

Lemma assess_total (sp : specialty) (args : dict value) :
  well_formed (assessment_schema sp) args = true ->
  exists r, assess sp args = Ok r.
Proof.
  intros Hwf.
  assert (Htext : exists text,
             get args (description_field sp) (VStr "") = VStr text).
  { unfold get. destruct (lookup args (description_field sp)) as [v|] eqn:Hv.
    - apply conforms_string.
      apply (well_formed_field (assessment_schema sp) args
               (description_field sp) JString v Hwf);
        [destruct sp; simpl; tauto | exact Hv].
    - eauto. }
  assert (Hsym : exists l,
             get args "associated_symptoms" (VList []) = VList l /\
             forallb (conforms JString) l = true).
  { unfold get. destruct (lookup args "associated_symptoms") as [v|] eqn:Hv.
    - apply conforms_array.
      apply (well_formed_field (assessment_schema sp) args
               "associated_symptoms" (JArray JString) v Hwf);
        [destruct sp; simpl; tauto | exact Hv].
    - exists []. auto. }
  destruct Htext as [text Htext]. destruct Hsym as (l & Hl & Hstr).
  assert (Hd : exists b,
             detect_emergency (indicators sp) (lower text) (VList l) = Ok b).
  { unfold detect_emergency.
    destruct (any_indicator_in_text (indicators sp) (lower text)); eauto.
    simpl. now apply any_indicator_in_symptoms_total. }
  destruct Hd as [b Hd].
  destruct sp; simpl in *;
    unfold ChestPain.assess_chest_pain, Respiratory.assess_respiratory;
    rewrite Htext, Hl; simpl; rewrite Hd; simpl; eauto.
Qed.

(** C2. For each specialty's assessment handler and all raw arguments:
    whenever the handler returns a result, its emergency flag is true if
    and only if some keyword of the specialty's indicator list occurs,
    ignoring case, in the free-text field or in an element of the
    associated symptoms, and a true flag comes with a non-empty reason
    text; and on arguments that match the declared schema the handler
    does return a result. *)
Theorem assessment_flags_emergency_iff_keyword (sp : specialty)
  (args : dict value) :
  (forall r, assess sp args = Ok r ->
     exists text b,
       get args (description_field sp) (VStr "") = VStr text /\
       getitem r (emergency_flag sp) = Ok (VBool b) /\
       (b = true <->
        keyword_hit (indicators sp) text
          (elements (get args "associated_symptoms" (VList [])))) /\
       (b = true ->
        exists reason,
          getitem r "emergency_reason" = Ok (VStr reason) /\ reason <> "")) /\
  (well_formed (assessment_schema sp) args = true ->
   exists r, assess sp args = Ok r).
Proof.
  split; [|apply assess_total].
  intros r Hr.
  destruct (assess_unfold sp args r Hr) as (text & b & Ht & Hd & Hflag & Hreason).
  exists text, b. repeat split; auto.
  - apply (detect_emergency_spec _ _ _ _ (indicators_lower sp) Hd).
  - apply (detect_emergency_spec _ _ _ _ (indicators_lower sp) Hd).
  - intros ->. destruct sp; eexists; (split; [exact Hreason | discriminate]).
Qed.

Lemma assessment_flags_emergency_iff_keyword_witness :
  exists r,
    assess chest_pain [("severity", VStr "Severe crushing pressure")] = Ok r /\
    getitem r (emergency_flag chest_pain) = Ok (VBool true) /\
    exists reason,
      getitem r "emergency_reason" = Ok (VStr reason) /\ reason <> "".
Proof.
  destruct (assessment_flags_emergency_iff_keyword chest_pain
              [("severity", VStr "Severe crushing pressure")]) as [Hres Htot].
  destruct (Htot eq_refl) as [r Hr].
  destruct (Hres r Hr) as (text & b & Ht & Hflag & Hiff & Hreason).
  assert (Hb : b = true).
  { apply Hiff. exists "crushing". split; [simpl; tauto|]. left.
    inversion Ht; subst. apply str_in_occurs. reflexivity. }
  subst b. exists r. repeat split; auto.
Defined.

(** ** Dictionary facts *)

Section DictFacts.
Context {V : Type}.
Implicit Types (d : dict V) (k : string) (v : V).

Lemma lookup_set_same d k v : lookup (set d k v) k = Some v.
Proof.
  induction d as [|[k' v'] d IH]; simpl.
  - now rewrite String.eqb_refl.
  - destruct (k' =? k) eqn:E; simpl; rewrite E; auto.
Qed.

Lemma lookup_set_other d k k' v :
  k' <> k -> lookup (set d k v) k' = lookup d k'.
Proof.
  intros Hne. induction d as [|[k0 v0] d IH]; simpl.
  - apply String.eqb_neq in Hne. rewrite String.eqb_sym in Hne.
    now rewrite Hne.
  - destruct (k0 =? k) eqn:E; simpl.
    + apply String.eqb_eq in E; subst k0.
      assert (E' : (k =? k') = false)
        by (apply String.eqb_neq; congruence).
      now rewrite E'.
    + destruct (k0 =? k'); auto.
Qed.

Lemma keys_set_present d k v old :
  lookup d k = Some old -> keys (set d k v) = keys d.
Proof.
  unfold keys. induction d as [|[k' v'] d IH]; simpl; [discriminate|].
  destruct (k' =? k) eqn:E; simpl; [reflexivity|].
  intros H. now rewrite IH.
Qed.

Lemma set_absent d k v :
  lookup d k = None -> set d k v = (d ++ [(k, v)])%list.
Proof.
  induction d as [|[k' v'] d IH]; simpl; [reflexivity|].
  destruct (k' =? k) eqn:E; [discriminate|].
  intros H. now rewrite IH.
Qed.

End DictFacts.

(** ** Registry lookup *)

Lemma existsb_triggered (text : string) (flow_class : Base.SpecialtyNode) :
  existsb (fun trigger => str_in trigger text)
    (Base.get_trigger_phrases flow_class) = true <->
  triggered_by text flow_class.
Proof.
  unfold triggered_by. rewrite existsb_exists.
  split; intros [t [Hin H]]; exists t; split; auto; now apply str_in_occurs.
Qed.

Lemma first_triggered_spec (text : string)
  (classes : list Base.SpecialtyNode) :
  first_such (triggered_by text) classes
    (NodeRegistry.first_triggered text classes).
Proof.
  induction classes as [|c rest IH]; simpl.
  - intros ? [].
  - destruct (existsb _ (Base.get_trigger_phrases c)) eqn:E.
    + exists [], rest. repeat split.
      * now apply existsb_triggered.
      * intros ? [].
    + assert (Hc : ~ triggered_by text c).
      { intros H. apply existsb_triggered in H. congruence. }
      destruct (NodeRegistry.first_triggered text rest) as [fc|]; simpl in *.
      * destruct IH as (before & after & -> & Hfc & Hbefore).
        exists (c :: before), after. repeat split; auto.
        intros other [<-|Hin]; auto.
      * intros other [<-|Hin]; auto.
Qed.

(** The registry lookup, whatever the phrases: the first class, in the
    order of [_flows], with a phrase that occurs verbatim in the
    lower-cased complaint. *)
Lemma get_node_for_complaint_verbatim (_flows : NodeRegistry.flows)
  (complaint : string) :
  exists result,
    NodeRegistry.get_node_for_complaint _flows (VStr complaint) = Ok result /\
    first_such (triggered_by (lower complaint)) (values _flows) result.
Proof.
  eexists. split; [reflexivity|]. apply first_triggered_spec.
Qed.

Lemma triggered_matches_ci (complaint : string)
  (flow_class : Base.SpecialtyNode) :
  forallb is_lower (Base.get_trigger_phrases flow_class) = true ->
  (triggered_by (lower complaint) flow_class <-> matches_ci complaint flow_class).
Proof.
  intros Hlow. rewrite forallb_forall in Hlow.
  unfold triggered_by, matches_ci, occurs_ci.
  split; intros (t & Hin & Ho); exists t; split; auto;
    rewrite (is_lower_eq _ (Hlow _ Hin)) in *; exact Ho.
Qed.

(** C3, amended. For every complaint text and every registry whose
    trigger phrases have no upper-case letter, the lookup is a
    case-insensitive substring match of the complaint against each
    class's phrases: it returns the first registered class with a
    matching phrase, and nothing when no phrase occurs. *)
Theorem get_node_for_complaint_first_match (_flows : NodeRegistry.flows)
  (complaint : string) :
  lower_case_phrases _flows ->
  match_is_case_insensitive _flows complaint.
Proof.
  intros Hlow.
  destruct (get_node_for_complaint_verbatim _flows complaint)
    as (result & Hres & Hfirst).
  exists result. split; [exact Hres|].
  destruct result as [fc|]; simpl in *.
  - destruct Hfirst as (before & after & Heq & Hfc & Hbefore).
    exists before, after. split; [exact Heq|].
    assert (Hin : forall c, In c (before ++ fc :: after)%list ->
                    In c (values _flows)) by (now rewrite <- Heq).
    split.
    + apply triggered_matches_ci; auto.
      apply Hlow, Hin, in_or_app. right. now left.
    + intros other Hother Hm. apply (Hbefore other Hother).
      apply triggered_matches_ci; auto.
      apply Hlow, Hin, in_or_app. now left.
  - intros other Hother Hm. apply (Hfirst other Hother).
    apply triggered_matches_ci; auto.
Qed.

Lemma get_node_for_complaint_first_match_witness :
  match_is_case_insensitive colliding_flows "Sudden CHEST PAIN".
Proof.
  apply get_node_for_complaint_first_match.
  intros fc [<-|[<-|[]]]; reflexivity.
Defined.

Example colliding_flows_first_registered :
  NodeRegistry.get_node_for_complaint colliding_flows
    (VStr "Sudden CHEST PAIN") = Ok (Some ChestPain.ChestPainNode).
Proof. reflexivity. Qed.

(** C3 as stated fails: the phrase ["Cough"] occurs in the complaint
    ["Cough"], yet the lookup returns nothing, because only the complaint
    is lower-cased. *)
Lemma get_node_for_complaint_not_case_insensitive :
  ~ match_is_case_insensitive capitalised_flows "Cough".
Proof.
  intros (result & Hres & Hfirst).
  cbv in Hres. inversion Hres; subst result. simpl in Hfirst.
  eapply Hfirst; [left; reflexivity|].
  exists "Cough". split; [left; reflexivity|].
  apply str_in_occurs. reflexivity.
Qed.

(** ** Registration *)

(** C6 as stated fails: registering a second class under a name already
    present succeeds, and the first class is gone from the registry. *)
Lemma duplicate_registration_replaces :
  ~ duplicate_registration_fails /\
  (flows1 <- NodeRegistry.register ChestPain.ChestPainNode [] ;;
   NodeRegistry.register second_ChestPainNode flows1)
  = Ok [("ChestPainNode", second_ChestPainNode)].
Proof.
  split; [|reflexivity].
  intros H.
  destruct (H second_ChestPainNode ChestPain.ChestPainNode
              [("ChestPainNode", ChestPain.ChestPainNode)] eq_refl) as [e He].
  discriminate He.
Qed.

(** C6, amended. Registering a class whose name is already in the
    registry does not fail: the new class takes the place of the old one
    under that name, at the old one's position in registration order, and
    every other entry is kept. *)
Theorem register_duplicate_replaces (flow_class old : Base.SpecialtyNode)
  (_flows : NodeRegistry.flows) :
  lookup _flows (Base.class_name flow_class) = Some old ->
  exists flows',
    NodeRegistry.register flow_class _flows = Ok flows' /\
    lookup flows' (Base.class_name flow_class) = Some flow_class /\
    keys flows' = keys _flows /\
    forall name, name <> Base.class_name flow_class ->
                 lookup flows' name = lookup _flows name.
Proof.
  intros Hold. eexists. split; [reflexivity|]. repeat split.
  - apply lookup_set_same.
  - eapply keys_set_present; eassumption.
  - intros name Hne. now apply lookup_set_other.
Qed.

Lemma register_duplicate_replaces_witness :
  exists flows',
    NodeRegistry.register second_ChestPainNode
      [("ChestPainNode", ChestPain.ChestPainNode);
       ("RespiratoryNode", Respiratory.RespiratoryNode)] = Ok flows' /\
    lookup flows' "ChestPainNode" = Some second_ChestPainNode /\
    keys flows' = ["ChestPainNode"; "RespiratoryNode"].
Proof.
  destruct (register_duplicate_replaces second_ChestPainNode
              ChestPain.ChestPainNode
              [("ChestPainNode", ChestPain.ChestPainNode);
               ("RespiratoryNode", Respiratory.RespiratoryNode)] eq_refl)
    as (flows' & Hreg & Hnew & Hkeys & _).
  exists flows'. repeat split; assumption.
Defined.

(** A class with a new name goes to the end of the registration order. *)
Lemma register_new_appends (flow_class : Base.SpecialtyNode)
  (_flows : NodeRegistry.flows) :
  lookup _flows (Base.class_name flow_class) = None ->
  NodeRegistry.register flow_class _flows =
    Ok (_flows ++ [(Base.class_name flow_class, flow_class)])%list.
Proof.
  intros H. unfold NodeRegistry.register. now rewrite set_absent.
Qed.

(** ** Consent transition *)

Lemma verify_consent_shape (args : dict value) :
  exists consent_given,
    Entry.verify_consent args = Ok (consent_result consent_given).
Proof.
  unfold Entry.verify_consent, get, consent_result.
  destruct (lookup args "consent") as [[ | b | z | s | l | d | m ]|];
    simpl; eauto.
Qed.

Lemma current_node_snoc (st : dict value) (nodes : list (string * node))
  (entry : string * node) :
  current_node {| state := st; installed := nodes ++ [entry] |} = Some entry.
Proof.
  unfold current_node; simpl. rewrite map_app. simpl.
  now rewrite last_last.
Qed.

(** Once an end node is current no tool call can be delivered. *)
Lemma run_ended (_flows : NodeRegistry.flows) (events : list event)
  (fm : flow_manager) :
  session_ended fm = true -> run _flows events fm = fm.
Proof.
  intros Hend. induction events as [|e rest IH]; simpl; [reflexivity|].
  unfold deliver, session_ended in *.
  destruct (current_node fm) as [[name n]|]; [|exact IH].
  unfold is_end_node in Hend. unfold find_function.
  destruct (functions n); [simpl; exact IH | discriminate].
Qed.

(** C4. Whatever the consent handler is given, its result drives the
    entry transition as follows.  Consent given: the flag is recorded in
    the session state and the chief-complaint node is installed next.
    Consent refused: nothing is recorded and the node installed next is
    the terminal end node with the decline message; in a session, where
    the entry node is served on an empty state, the state then has no key
    other than the consent flag and no later tool call changes it. *)
Theorem entry_transition_on_consent (args : dict value) (now : string)
  (fm : flow_manager) (_flows : NodeRegistry.flows) :
  exists consent_given : bool,
    Entry.verify_consent args = Ok (consent_result consent_given) /\
    (consent_given = true ->
     Entry.handle_consent_transition args (consent_result true) now fm =
       (consented fm, Ok tt) /\
     lookup (state (consented fm)) "consent_given" = Some (VBool true) /\
     deliver _flows (Event "process_consent" args now) start_session =
       Some (consented start_session, Ok tt)) /\
    (consent_given = false ->
     Entry.handle_consent_transition args (consent_result false) now fm =
       (declined fm, Ok tt) /\
     is_end_node (EndNode.create_end_call_node decline_message) = true /\
     deliver _flows (Event "process_consent" args now) start_session =
       Some (declined start_session, Ok tt) /\
     (forall key, In key (keys (state (declined start_session))) ->
                  key = "consent_given") /\
     (forall events,
        run _flows events (declined start_session) = declined start_session)).
Proof.
  destruct (verify_consent_shape args) as [c Hc].
  exists c. split; [exact Hc|]. split.
  - intros ->. split; [reflexivity|]. split; [apply lookup_set_same|].
    unfold deliver. simpl. rewrite Hc. reflexivity.
  - intros ->. split; [reflexivity|]. split; [reflexivity|]. split.
    + unfold deliver. simpl. rewrite Hc. reflexivity.
    + split; [intros key []|].
      intros events. apply run_ended. reflexivity.
Qed.

Lemma entry_transition_on_consent_witness :
  Entry.handle_consent_transition [("consent", VBool false)]
    (consent_result false) "2025-01-01T09:00:00" start_session
  = (declined start_session, Ok tt) /\
  Entry.handle_consent_transition [("consent", VBool true)]
    (consent_result true) "2025-01-01T09:00:00" start_session
  = (consented start_session, Ok tt).
Proof.
  split.
  - destruct (entry_transition_on_consent [("consent", VBool false)]
                "2025-01-01T09:00:00" start_session [])
      as (c & Hc & _ & Hno).
    apply Hno. inversion Hc. reflexivity.
  - destruct (entry_transition_on_consent [("consent", VBool true)]
                "2025-01-01T09:00:00" start_session [])
      as (c & Hc & Hyes & _).
    apply Hyes. inversion Hc. reflexivity.
Defined.

(** ** Chief complaint: the chest-pain scenario *)

(** Had the two specialties of the repository been registered, in
    either order, the complaint ["I have chest pain"] with duration
    ["2 days"] would be matched to the chest-pain specialty: the
    transition installs the specialty's intro node, whose utterance
    contains both ["chest pain"] and ["2 days"], and then the chest-pain
    assessment node. *)
Lemma chest_pain_complaint_installs_assessment
  (_flows : NodeRegistry.flows) (now : string) (fm : flow_manager) :
  register_all [ChestPain.ChestPainNode; Respiratory.RespiratoryNode]
    = Ok _flows \/
  register_all [Respiratory.RespiratoryNode; ChestPain.ChestPainNode]
    = Ok _flows ->
  exists result utterance,
    ChiefComplaint.collect_chief_complaint chest_pain_args = Ok result /\
    NodeRegistry.get_node_for_complaint _flows (VStr "I have chest pain")
      = Ok (Some ChestPain.ChestPainNode) /\
    ChiefComplaint.handle_complaint_transition _flows chest_pain_args result
      now fm = (chest_pain_installed fm, Ok tt) /\
    task_messages
      (Base.create_transition_node ChestPain.ChestPainNode
         chest_pain_transition_message) = [system utterance] /\
    occurs "chest pain" utterance /\
    occurs "2 days" utterance /\
    current_node (chest_pain_installed fm) =
      Some ("chestpainnode_assessment", ChestPain.create_assessment_node).
Proof.
  intros Hreg.
  assert (Hmatch :
            NodeRegistry.get_node_for_complaint _flows
              (VStr "I have chest pain") = Ok (Some ChestPain.ChestPainNode)).
  { destruct Hreg as [H|H]; cbv in H; inversion H; subst; reflexivity. }
  eexists. eexists. split; [reflexivity|]. split; [exact Hmatch|].
  split; [|split; [reflexivity|]].
  - assert (Hsnoc : forall (a b : string * node),
               (installed fm ++ [a; b] = (installed fm ++ [a]) ++ [b])%list)
      by (intros; now rewrite <- app_assoc).
    unfold chest_pain_installed. rewrite Hsnoc.
    destruct Hreg as [H|H]; cbv in H; inversion H; subst; reflexivity.
  - split; [apply str_in_occurs; reflexivity|].
    split; [apply str_in_occurs; reflexivity|].
    unfold chest_pain_installed.
    change (installed fm ++ [?a; ?b])%list
      with (installed fm ++ [a] ++ [b])%list.
    rewrite app_assoc. apply current_node_snoc.
Qed.

Lemma chest_pain_complaint_installs_assessment_witness :
  ChiefComplaint.handle_complaint_transition
    [("ChestPainNode", ChestPain.ChestPainNode);
     ("RespiratoryNode", Respiratory.RespiratoryNode)]
    chest_pain_args
    (VDict [("status", VStr "success");
            ("complaint", VStr "I have chest pain");
            ("duration", VStr "2 days")])
    "2025-01-01T09:00:00" (consented start_session)
  = (chest_pain_installed (consented start_session), Ok tt).
Proof.
  destruct (chest_pain_complaint_installs_assessment
              [("ChestPainNode", ChestPain.ChestPainNode);
               ("RespiratoryNode", Respiratory.RespiratoryNode)]
              "2025-01-01T09:00:00" (consented start_session)
              (or_introl eq_refl))
    as (result & utterance & Hres & _ & Hstep & _).
  inversion Hres; subst result. exact Hstep.
Defined.

(** C9. In the program the registry is empty, so no complaint is matched
    to a specialty.  For the complaint ["I have chest pain"] with duration
    ["2 days"] the chief-complaint transition records both and installs
    the medical-history node alone: neither the chest-pain intro node,
    whose utterance would echo complaint and duration, nor the chest-pain
    assessment node is installed. *)
Theorem chest_pain_complaint_skips_assessment (now : string)
  (fm : flow_manager) :
  (forall complaint : string,
     NodeRegistry.get_node_for_complaint program_registry (VStr complaint)
       = Ok None) /\
  exists result fm',
    ChiefComplaint.collect_chief_complaint chest_pain_args = Ok result /\
    ChiefComplaint.handle_complaint_transition program_registry
      chest_pain_args result now fm = (fm', Ok tt) /\
    state fm' =
      set (state fm) "chief_complaint"
        (VDict [("complaint", VStr "I have chest pain");
                ("duration", VStr "2 days")]) /\
    installed fm' =
      (installed fm ++
       [("medical_history", MedicalHistory.create_medical_history_node)])%list /\
    current_node fm' =
      Some ("medical_history", MedicalHistory.create_medical_history_node).
Proof.
  split; [reflexivity|].
  eexists. eexists. split; [reflexivity|]. split; [reflexivity|].
  split; [reflexivity|]. split; [reflexivity|].
  apply current_node_snoc.
Qed.

(** ** Specialty assessment transitions *)

Lemma assess_returns_dict (sp : specialty) (args : dict value) (r : value) :
  assess sp args = Ok r -> exists d, r = VDict d.
Proof.
  destruct sp; simpl;
    unfold ChestPain.assess_chest_pain, Respiratory.assess_respiratory;
    match goal with
    | |- context [lower_method ?v] => destruct (lower_method v); simpl
    end; try discriminate;
    match goal with
    | |- context [detect_emergency ?i ?t ?s] =>
        destruct (detect_emergency i t s); simpl
    end; try discriminate;
    intros H; inversion H; eauto.
Qed.

(** The respiratory callback does what the transition rule asks: the
    assessment is recorded under ["respiratory_assessment"], then the
    emergency node with the reason is handed to [set_node] when the flag
    is set and the medical-history node otherwise. *)
Lemma respiratory_assessment_routes (args : dict value) (r : value)
  (now : string) (fm : flow_manager) :
  Respiratory.assess_respiratory args = Ok r ->
  exists (b : bool) (recorded : value),
    getitem r "requires_emergency" = Ok (VBool b) /\
    Respiratory.handle_respiratory_assessment args r now fm =
      ({| state := set (state fm) "respiratory_assessment" recorded;
          installed :=
            installed fm ++
            [if b
             then ("emergency",
                   Emergency.create_emergency_node
                     (VStr "Severe respiratory distress detected"))
             else ("medical_history",
                   MedicalHistory.create_medical_history_node)] |},
       Ok tt).
Proof.
  unfold Respiratory.assess_respiratory.
  destruct (lower_method _) as [text|]; simpl; [|discriminate].
  destruct (detect_emergency _ _ _) as [b|]; simpl; [|discriminate].
  intros H; inversion H; subst; clear H.
  exists b. eexists. split; [reflexivity|].
  destruct b; reflexivity.
Qed.

(** A [dict] has no attribute [pain_location]: on a dictionary the
    chest-pain callback stops at its first attribute read. *)
Lemma chest_pain_callback_on_dict (args : dict value)
  (d : list (string * value)) (now : string) (fm : flow_manager) :
  ChestPain.handle_chest_pain_assessment args (VDict d) now fm =
    (fm, Raise (AttributeError "pain_location")).
Proof. reflexivity. Qed.

(** C1, at the chest-pain specialty. Whatever result the chest-pain
    handler returns, emergency or not, the chest-pain callback raises
    [AttributeError] at its first attribute read: nothing is recorded in
    the session state and no node is installed. *)
Theorem chest_pain_assessment_callback_raises (args : dict value)
  (r : value) (now : string) (fm : flow_manager) :
  ChestPain.assess_chest_pain args = Ok r ->
  ChestPain.handle_chest_pain_assessment args r now fm =
    (fm, Raise (AttributeError "pain_location")).
Proof.
  intros Hr. destruct (assess_returns_dict chest_pain args r Hr) as [d ->].
  apply chest_pain_callback_on_dict.
Qed.

Lemma chest_pain_assessment_callback_raises_witness :
  exists r,
    ChestPain.assess_chest_pain
      [("severity", VStr "severe crushing pressure")] = Ok r /\
    getitem r "requires_emergency_routing" = Ok (VBool true) /\
    ChestPain.handle_chest_pain_assessment
      [("severity", VStr "severe crushing pressure")] r
      "2025-01-01T09:00:00" start_session
    = (start_session, Raise (AttributeError "pain_location")).
Proof.
  eexists. split; [reflexivity|]. split; [reflexivity|].
  apply chest_pain_assessment_callback_raises. reflexivity.
Defined.

(** ** Sessions *)

(** At the chest-pain assessment node every tool call leaves the flow
    manager as it was. *)
Lemma chest_pain_assessment_stuck (_flows : NodeRegistry.flows)
  (events : list event) (fm : flow_manager) :
  current_node fm =
    Some ("chestpainnode_assessment", ChestPain.create_assessment_node) ->
  run _flows events fm = fm.
Proof.
  intros Hcur. induction events as [|e rest IH]; simpl; [reflexivity|].
  assert (Hd : deliver _flows e fm = None \/
               exists o, deliver _flows e fm = Some (fm, o)).
  { unfold deliver. rewrite Hcur. unfold find_function.
    cbn [functions ChestPain.create_assessment_node find fn_name].
    destruct ("assess_chest_pain" =? ev_function e); [|now left].
    right. cbn [fn_handler fn_transition_callback run_handler run_callback].
    destruct (ChestPain.assess_chest_pain (ev_args e)) as [r|exc] eqn:Hr.
    - destruct (assess_returns_dict chest_pain _ _ Hr) as [d ->].
      rewrite chest_pain_callback_on_dict. eauto.
    - eauto. }
  destruct Hd as [-> | [o ->]]; exact IH.
Qed.

Lemma chest_pain_session_prefix (_flows : NodeRegistry.flows)
  (now1 now2 : string) :
  both_registered _flows ->
  run _flows [consent_event now1; chest_pain_complaint_event now2]
    start_session
  = chest_pain_installed (consented start_session).
Proof.
  intros [H|H]; cbv in H; inversion H; subst; reflexivity.
Qed.

(** Had the specialties been registered: after consent and the complaint
    ["I have chest pain"], whatever tool calls follow, the session stays
    at the chest-pain assessment node: the end node is never installed
    and no chest-pain assessment is ever recorded. *)
Lemma chest_pain_session_never_ends (_flows : NodeRegistry.flows)
  (now1 now2 : string) (events : list event) :
  both_registered _flows ->
  let fm :=
    run _flows
      (consent_event now1 :: chest_pain_complaint_event now2 :: events)
      start_session in
  session_ended fm = false /\
  current_node fm =
    Some ("chestpainnode_assessment", ChestPain.create_assessment_node) /\
  lookup (state fm) "chest_pain_assessment" = None.
Proof.
  intros Hreg fm.
  assert (Hfm : fm = chest_pain_installed (consented start_session)).
  { unfold fm.
    change (consent_event now1 :: chest_pain_complaint_event now2 :: events)
      with ([consent_event now1; chest_pain_complaint_event now2] ++ events)%list.
    assert (Happ : forall evs1 evs2 fm0,
               run _flows (evs1 ++ evs2)%list fm0 =
               run _flows evs2 (run _flows evs1 fm0)).
    { induction evs1 as [|e evs1 IH]; intros; simpl; [reflexivity|].
      destruct (deliver _flows e fm0) as [[fm1 o]|]; apply IH. }
    rewrite Happ, (chest_pain_session_prefix _ _ _ Hreg).
    apply chest_pain_assessment_stuck. reflexivity. }
  rewrite Hfm. repeat split; reflexivity.
Qed.

Lemma chest_pain_session_never_ends_witness :
  session_ended
    (run [("ChestPainNode", ChestPain.ChestPainNode);
          ("RespiratoryNode", Respiratory.RespiratoryNode)]
       [consent_event "2025-01-01T09:00:00";
        chest_pain_complaint_event "2025-01-01T09:01:00";
        {| ev_function := "assess_chest_pain";
           ev_args := [("pain_location", VStr "left side");
                       ("pain_quality", VStr "dull");
                       ("severity", VStr "3")];
           ev_now := "2025-01-01T09:02:00" |}]
       start_session) = false.
Proof.
  apply (chest_pain_session_never_ends
           [("ChestPainNode", ChestPain.ChestPainNode);
            ("RespiratoryNode", Respiratory.RespiratoryNode)]
           "2025-01-01T09:00:00" "2025-01-01T09:01:00"
           [{| ev_function := "assess_chest_pain";
               ev_args := [("pain_location", VStr "left side");
                           ("pain_quality", VStr "dull");
                           ("severity", VStr "3")];
               ev_now := "2025-01-01T09:02:00" |}]).
  left. reflexivity.
Defined.

(** ** Handlers as functions of their arguments *)

(** C7 as stated fails at the shared emergency handler: two calls with
    the same (empty) arguments one second apart differ in their
    timestamp. *)
Lemma shared_handle_emergency_not_pure :
  ~ pure_handler shared_handle_emergency_h.
Proof.
  intros H.
  specialize (H [] "2025-01-01T09:00:00" "2025-01-01T09:00:01").
  discriminate H.
Qed.

Lemma get_agree (fields : list string) (args1 args2 : dict value)
  (field : string) (default : value) :
  agree_on fields args1 args2 ->
  In field fields ->
  get args1 field default = get args2 field default.
Proof. intros Hagree Hin. unfold get. now rewrite (Hagree field Hin). Qed.

(** C7, amended. A handler that a node descriptor of the repository names
    is a function of the fields its schema declares, and of nothing else:
    two calls whose arguments agree on the declared fields have the same
    outcome, whenever they are made and whatever else the arguments hold;
    so two calls with the same arguments do.  The shared emergency
    handler, which no descriptor names, is a function of its arguments and
    the clock: its result is a part that depends on the arguments alone,
    followed by the timestamp of the call. *)
Theorem node_handlers_read_declared_fields :
  (forall n f h,
     factory_node n -> In f (functions n) -> fn_handler f = Some h ->
     forall args1 args2 now1 now2,
       agree_on (declared_fields f) args1 args2 ->
       run_handler h now1 args1 = run_handler h now2 args2) /\
  (forall args, exists fields,
     forall now,
       SharedHandlers.handle_emergency now args =
         Ok (VDict (fields ++ [("timestamp", VStr now)]))).
Proof.
  split.
  - intros n f h Hn Hin Hh args1 args2 now1 now2 Hagree.
    destruct Hn as [ | | | | reason | message | fc message | sp ];
      try destruct sp; simpl in Hin;
      repeat (destruct Hin as [<- | Hin]; [|try contradiction]);
      try contradiction;
      simpl in Hh; inversion Hh; subst h; clear Hh;
      unfold declared_fields in Hagree; simpl in Hagree;
      unfold run_handler, Entry.verify_consent,
        ChiefComplaint.collect_chief_complaint,
        MedicalHistory.collect_medical_history,
        Emergency.handle_emergency,
        ChestPain.assess_chest_pain, Respiratory.assess_respiratory;
      repeat rewrite (get_agree _ args1 args2 _ _ Hagree) by (simpl; tauto);
      reflexivity.
  - intros args. eexists. intros now.
    unfold SharedHandlers.handle_emergency.
    change [("status", VStr "success");
            ("emergency_reason",
             get args "emergency_reason" (VStr "Unspecified emergency"));
            ("timestamp", VStr now)]
      with ([("status", VStr "success");
             ("emergency_reason",
              get args "emergency_reason" (VStr "Unspecified emergency"))]
            ++ [("timestamp", VStr now)])%list.
    reflexivity.
Qed.

Lemma node_handlers_read_declared_fields_witness :
  ChestPain.assess_chest_pain
    [("caller", VStr "Ricky"); ("severity", VStr "Mild")] =
  ChestPain.assess_chest_pain
    [("severity", VStr "Mild"); ("pain_scale", VStr "3")].
Proof.
  apply (proj1 node_handlers_read_declared_fields
           (assessment_node chest_pain) _ assess_chest_pain_h
           (factory_assessment chest_pain) (or_introl eq_refl) eq_refl
           [("caller", VStr "Ricky"); ("severity", VStr "Mild")]
           [("severity", VStr "Mild"); ("pain_scale", VStr "3")]
           "2025-01-01T09:00:00" "2025-01-01T09:00:01").
  intros field Hin. simpl in Hin.
  repeat (destruct Hin as [<- | Hin]; [reflexivity|]).
  contradiction.
Defined.

(** ** Missing fields *)

(** C8 as stated fails at the emergency node: without an
    [emergency_reason] its handler reports the text
    ["Unspecified emergency"], not the empty string. *)
Lemma emergency_reason_default_not_empty :
  exists f,
    In f (functions (Emergency.create_emergency_node VNone)) /\
    ~ coerces_missing_to (fun _ ty => safe_default ty) f.
Proof.
  eexists. split; [left; reflexivity|].
  intros H.
  destruct (H emergency_handle_emergency_h [] "2025-01-01T09:00:00"
              eq_refl eq_refl) as (d & Hd & Hfields).
  specialize (Hfields "emergency_reason" JString (or_introl eq_refl) eq_refl).
  inversion Hd; subst d. discriminate Hfields.
Qed.

(** Goes through the declared fields of a schema, one missing field at a
    time. *)
Ltac missing_field Hin Hnone :=
  simpl in Hin;
  repeat (destruct Hin as [Hin | Hin];
          [inversion Hin; subst; clear Hin; simpl;
           unfold get; rewrite ?Hnone; try reflexivity |]);
  try contradiction.

Lemma assessment_coerces (sp : specialty) (f : function_decl) :
  In f (functions (assessment_node sp)) ->
  coerces_missing_to default_of f.
Proof.
  intros Hf h args now Hh Hwf.
  assert (Hsp : well_formed (assessment_schema sp) args = true /\
                h = match sp with
                    | chest_pain => assess_chest_pain_h
                    | respiratory => assess_respiratory_h
                    end).
  { destruct sp; simpl in Hf; destruct Hf as [<-|[]];
      simpl in Hh; inversion Hh; auto. }
  destruct Hsp as [Hwf' ->].
  destruct (assess_total sp args Hwf') as [r Hr].
  destruct sp; simpl in Hf; destruct Hf as [<-|[]]; simpl in *;
    unfold ChestPain.assess_chest_pain, Respiratory.assess_respiratory in *.
  - destruct (get args "severity" (VStr "")) as [ | | | text | | | ] eqn:Hsev;
      simpl in *; try discriminate.
    destruct (detect_emergency _ _ _) as [b|]; simpl in *; try discriminate.
    eexists. split; [reflexivity|].
    intros field ty Hin Hnone. missing_field Hin Hnone.
    unfold get in Hsev. rewrite Hnone in Hsev. now inversion Hsev.
  - destruct (get args "breathing_difficulty" (VStr ""))
      as [ | | | text | | | ] eqn:Hbd; simpl in *; try discriminate.
    destruct (detect_emergency _ _ _) as [b|]; simpl in *; try discriminate.
    eexists. split; [reflexivity|].
    intros field ty Hin Hnone. missing_field Hin Hnone.
    unfold get in Hbd. rewrite Hnone in Hbd. now inversion Hbd.
Qed.

(** C8, amended. For every handler a node descriptor of the repository
    names and all arguments in which each supplied field has its declared
    type, the handler does not raise, and each missing field is reported
    with its default: the empty string, the empty list or false, except
    [emergency_reason], whose default is ["Unspecified emergency"]. *)
Theorem handlers_coerce_missing_fields (n : node) (f : function_decl) :
  factory_node n ->
  In f (functions n) ->
  coerces_missing_to default_of f.
Proof.
  intros Hn Hf.
  destruct Hn as [ | | | | reason | message | fc message | sp ];
    [ | | | | | | | now apply (assessment_coerces sp) ];
    simpl in Hf; try contradiction;
    destruct Hf as [<-|[]]; intros h args now Hh Hwf;
    simpl in Hh; inversion Hh; subst h; clear Hh; simpl.
  - destruct (verify_consent_shape args) as [c Hc].
    eexists. split; [exact Hc|].
    intros field ty Hin Hnone. missing_field Hin Hnone.
    unfold Entry.verify_consent, get in Hc. rewrite Hnone in Hc.
    simpl in Hc. now inversion Hc.
  - eexists. split; [reflexivity|].
    intros field ty Hin Hnone. missing_field Hin Hnone.
  - eexists. split; [reflexivity|].
    intros field ty Hin Hnone. missing_field Hin Hnone.
  - eexists. split; [reflexivity|].
    intros field ty Hin Hnone. missing_field Hin Hnone.
Qed.

Lemma handlers_coerce_missing_fields_witness :
  exists d,
    run_handler collect_medical_history_h "2025-01-01T09:00:00"
      [("conditions", VList [VStr "asthma"])] = Ok (VDict d) /\
    lookup d "allergies" = Some (VList []).
Proof.
  destruct (handlers_coerce_missing_fields
              MedicalHistory.create_medical_history_node _
              factory_medical_history (or_introl eq_refl)
              collect_medical_history_h
              [("conditions", VList [VStr "asthma"])]
              "2025-01-01T09:00:00" eq_refl eq_refl)
    as (d & Hd & Hfields).
  exists d. split; [exact Hd|].
  apply (Hfields "allergies" (JArray JString)).
  - simpl. tauto.
  - reflexivity.
Defined.

(** ** The path of a session *)

Lemma climbs_bound (l : list nat) (top : nat) :
  climbs l top ->
  (forall s, In s l -> s <= top) /\ NoDup l /\ length l <= S top.
Proof.
  induction 1 as [s | l s s' Hl (Hle & Hnd & Hlen) Hlt].
  - split; [|split].
    + intros ? [<-|[]]; lia.
    + constructor; [intros []|constructor].
    + simpl; lia.
  - split; [|split].
    + intros x Hx. apply in_app_or in Hx as [Hx|[<-|[]]]; [|lia].
      specialize (Hle x Hx). lia.
    + apply NoDup_app; [exact Hnd | constructor; [intros [] | constructor] |].
      intros x Hx [<-|[]]. specialize (Hle _ Hx). lia.
    + rewrite length_app. simpl. lia.
Qed.

Lemma stage_le_5 (name : string) : stage name <= 5.
Proof.
  unfold stage.
  repeat match goal with
         | |- context [if ?b then _ else _] => destruct b
         end; lia.
Qed.

Lemma canonical_not_intro (name : string) (n : node) :
  canonical name n -> is_intro name = false.
Proof. destruct 1; reflexivity. Qed.

Lemma current_node_installed (fm fm' : flow_manager) :
  installed fm' = installed fm -> current_node fm' = current_node fm.
Proof. unfold current_node. now intros ->. Qed.

Lemma visited_installed (fm fm' : flow_manager) :
  installed fm' = installed fm -> visited fm' = visited fm.
Proof. unfold visited. now intros ->. Qed.

Lemma both_registered_values (_flows : NodeRegistry.flows) :
  both_registered _flows ->
  values _flows = [ChestPain.ChestPainNode; Respiratory.RespiratoryNode] \/
  values _flows = [Respiratory.RespiratoryNode; ChestPain.ChestPainNode].
Proof.
  intros [H|H]; cbv in H; inversion H; subst; [left|right]; reflexivity.
Qed.

(** Exhibits the node a transition installed. *)
Ltac advance :=
  eexists; eexists;
  split; [cbn; rewrite <- ?app_assoc; reflexivity |];
  split; [reflexivity |];
  split; [constructor | cbv; lia].

Lemma deliver_advances (_flows : NodeRegistry.flows) (e : event)
  (fm fm' : flow_manager) (o : outcome unit) (name : string) (n : node) :
  both_registered _flows ->
  current_node fm = Some (name, n) ->
  canonical name n ->
  deliver _flows e fm = Some (fm', o) ->
  installed fm' = installed fm \/ advanced fm fm' name.
Proof.
  intros Hreg Hcur Hcan Hdel.
  unfold deliver in Hdel. rewrite Hcur in Hdel. unfold find_function in Hdel.
  destruct Hcan; cbn -[String.eqb run_handler run_callback] in Hdel;
    try discriminate;
    match type of Hdel with
    | context [if ?b then _ else _] => destruct b; [|discriminate]
    end; cbn [fn_handler fn_transition_callback run_handler run_callback] in Hdel.
  - destruct (verify_consent_shape (ev_args e)) as [c Hc].
    rewrite Hc in Hdel. destruct c; cbn in Hdel; inversion Hdel; subst.
    + right. exists []. advance.
    + right. exists []. advance.
  - unfold ChiefComplaint.collect_chief_complaint in Hdel.
    unfold ChiefComplaint.handle_complaint_transition, bind, lift, set_state in Hdel.
    cbn [getitem lookup String.eqb Ascii.eqb Bool.eqb state installed] in Hdel.
    destruct (get (ev_args e) "complaint" (VStr "")) as [ | | | s | | | ];
      try (cbn in Hdel; inversion Hdel; left; reflexivity).
    unfold NodeRegistry.get_node_for_complaint in Hdel.
    cbn [lower_method obind] in Hdel.
    destruct (both_registered_values _ Hreg) as [Hv|Hv]; rewrite Hv in Hdel;
      cbn [NodeRegistry.first_triggered] in Hdel;
      repeat match type of Hdel with
             | context [if ?b then _ else _] => destruct b
             end;
      unfold Base.setup, bind, set_node in Hdel;
      cbn [state installed Base.class_name ChestPain.ChestPainNode
           Respiratory.RespiratoryNode Base.create_assessment_node] in Hdel;
      inversion Hdel; subst; clear Hdel.
    all: try (right; eexists [_]; advance).
    all: right; exists []; advance.
  - left.
    destruct (ChestPain.assess_chest_pain (ev_args e)) as [r|exc] eqn:Hr.
    + destruct (assess_returns_dict chest_pain _ _ Hr) as [d ->].
      rewrite chest_pain_callback_on_dict in Hdel. now inversion Hdel.
    + now inversion Hdel.
  - destruct (Respiratory.assess_respiratory (ev_args e)) as [r|exc] eqn:Hr.
    + destruct (respiratory_assessment_routes _ _ (ev_now e) fm Hr)
        as (b & recorded & _ & Hcb).
      rewrite Hcb in Hdel. inversion Hdel; subst; clear Hdel.
      right. exists []. destruct b; advance.
    + inversion Hdel. now left.
  - cbn in Hdel. inversion Hdel; subst. right. exists []. advance.
  - cbn in Hdel. inversion Hdel; subst. right. exists []. advance.
  - cbn in Hdel. inversion Hdel; subst. right. exists []. advance.
Qed.

Lemma on_path_deliver (_flows : NodeRegistry.flows) (e : event)
  (fm fm' : flow_manager) (o : outcome unit) :
  both_registered _flows ->
  on_path fm ->
  deliver _flows e fm = Some (fm', o) ->
  on_path fm'.
Proof.
  intros Hreg (name & n & Hcur & Hcan & Hclimb) Hdel.
  destruct (deliver_advances _ _ _ _ _ _ _ Hreg Hcur Hcan Hdel)
    as [Hsame | (intro & name' & n' & Hinst & Hintro & Hcan' & Hlt)].
  - exists name, n.
    rewrite (current_node_installed _ _ Hsame), (visited_installed _ _ Hsame).
    auto.
  - exists name', n'. split; [|split; [exact Hcan'|]].
    + unfold current_node. rewrite Hinst, app_assoc, map_app. simpl.
      now rewrite last_last.
    + assert (Hvis : visited fm' = (visited fm ++ [name'])%list).
      { unfold visited. rewrite Hinst, !map_app, !filter_app. simpl.
        rewrite (canonical_not_intro _ _ Hcan'). simpl. f_equal.
        replace (filter (fun name0 => negb (is_intro name0)) (map fst intro))
          with (@nil string); [reflexivity|].
        clear -Hintro. induction intro as [|p intro IH]; simpl in *; auto.
        apply andb_true_iff in Hintro as [Hp Hrest].
        rewrite Hp. simpl. auto. }
      rewrite Hvis, map_app. simpl. now apply climbs_step with (s := stage name).
Qed.

Lemma on_path_run (_flows : NodeRegistry.flows) (events : list event)
  (fm : flow_manager) :
  both_registered _flows -> on_path fm -> on_path (run _flows events fm).
Proof.
  intros Hreg. revert fm. induction events as [|e rest IH]; intros fm Hfm;
    simpl; [exact Hfm|].
  destruct (deliver _flows e fm) as [[fm' o]|] eqn:Hdel; [|now apply IH].
  apply IH. eapply on_path_deliver; eassumption.
Qed.

Lemma on_path_start : on_path start_session.
Proof.
  exists "initial", Entry.create_entry_node.
  split; [reflexivity|]. split; constructor.
Qed.

(** X13. Acyclic and bounded: along any session, with the two
    specialties registered, no state is visited twice, the stages of the
    visited states strictly increase, and at most six states are
    visited. *)
Lemma session_path_bounded (_flows : NodeRegistry.flows)
  (events : list event) :
  both_registered _flows ->
  let fm := run _flows events start_session in
  NoDup (visited fm) /\
  length (visited fm) <= 6 /\
  exists top, climbs (map stage (visited fm)) top.
Proof.
  intros Hreg fm.
  destruct (on_path_run _ events _ Hreg on_path_start)
    as (name & n & _ & _ & Hclimb).
  fold fm in Hclimb.
  destruct (climbs_bound _ _ Hclimb) as (_ & Hnd & Hlen).
  split; [|split; [|eauto]].
  - eapply NoDup_map_inv. exact Hnd.
  - rewrite length_map in Hlen. pose proof (stage_le_5 name). lia.
Qed.

Lemma can_end_after (_flows : NodeRegistry.flows) (e : event)
  (fm fm' : flow_manager) (o : outcome unit) :
  deliver _flows e fm = Some (fm', o) ->
  can_end _flows fm' -> can_end _flows fm.
Proof.
  intros Hdel [events Hend]. exists (e :: events). simpl. now rewrite Hdel.
Qed.

Lemma can_end_wrap_up (_flows : NodeRegistry.flows) (fm : flow_manager) :
  current_node fm = Some ("wrap_up", WrapUp.create_wrap_up_node) ->
  can_end _flows fm.
Proof.
  intros Hcur. eapply (can_end_after _ (call "finish_conversation")).
  - unfold deliver. rewrite Hcur. cbn. reflexivity.
  - exists []. cbn [run]. unfold session_ended.
    now rewrite current_node_snoc.
Qed.

Lemma can_end_medical_history (_flows : NodeRegistry.flows)
  (fm : flow_manager) :
  current_node fm =
    Some ("medical_history", MedicalHistory.create_medical_history_node) ->
  can_end _flows fm.
Proof.
  intros Hcur. eapply (can_end_after _ (call "collect_medical_history")).
  - unfold deliver. rewrite Hcur. cbn. reflexivity.
  - apply can_end_wrap_up. apply current_node_snoc.
Qed.

Lemma can_end_emergency (_flows : NodeRegistry.flows) (fm : flow_manager)
  (reason : value) :
  current_node fm = Some ("emergency", Emergency.create_emergency_node reason) ->
  can_end _flows fm.
Proof.
  intros Hcur. eapply (can_end_after _ (call "handle_emergency")).
  - unfold deliver. rewrite Hcur. cbn. reflexivity.
  - exists []. cbn [run]. unfold session_ended.
    now rewrite current_node_snoc.
Qed.

(** [end] is reachable from every state a session can be in, the
    chest-pain assessment apart. *)
Lemma end_reachable_off_chest_pain (_flows : NodeRegistry.flows)
  (fm : flow_manager) (name : string) (n : node) :
  both_registered _flows ->
  current_node fm = Some (name, n) ->
  canonical name n ->
  name <> "chestpainnode_assessment" ->
  can_end _flows fm.
Proof.
  intros Hreg Hcur Hcan Hname. destruct Hcan.
  - eapply (can_end_after _ (call "process_consent")).
    + unfold deliver. rewrite Hcur. cbn. reflexivity.
    + exists []. cbn [run]. unfold session_ended.
      now rewrite current_node_snoc.
  - eapply (can_end_after _ (call "collect_chief_complaint")).
    + unfold deliver. rewrite Hcur.
      destruct Hreg as [H|H]; cbv in H; inversion H; subst; cbn; reflexivity.
    + apply can_end_medical_history. apply current_node_snoc.
  - contradiction.
  - eapply (can_end_after _ (call "assess_respiratory")).
    + unfold deliver. rewrite Hcur. cbn. reflexivity.
    + apply can_end_medical_history. apply current_node_snoc.
  - now apply can_end_medical_history.
  - now apply can_end_emergency with (reason := reason).
  - now apply can_end_wrap_up.
  - exists []. cbn [run]. unfold session_ended. now rewrite Hcur.
Qed.

(** ** Sessions of the program *)

(** Exhibits the general node a transition installed. *)
Ltac step_on :=
  eexists; eexists;
  split; [reflexivity |];
  split; [constructor | cbv; lia].

Lemma deliver_general (e : event) (fm fm' : flow_manager)
  (o : outcome unit) (name : string) (n : node) :
  current_node fm = Some (name, n) ->
  general_node name n ->
  deliver program_registry e fm = Some (fm', o) ->
  installed fm' = installed fm \/ stepped fm fm' name.
Proof.
  intros Hcur Hgen Hdel.
  unfold deliver in Hdel. rewrite Hcur in Hdel. unfold find_function in Hdel.
  destruct Hgen; cbn -[String.eqb run_handler run_callback] in Hdel;
    try discriminate;
    match type of Hdel with
    | context [if ?b then _ else _] => destruct b; [|discriminate]
    end;
    cbn [fn_handler fn_transition_callback run_handler run_callback] in Hdel.
  - destruct (verify_consent_shape (ev_args e)) as [c Hc].
    rewrite Hc in Hdel. destruct c; cbn in Hdel; inversion Hdel; subst;
      right; step_on.
  - unfold ChiefComplaint.collect_chief_complaint in Hdel.
    unfold ChiefComplaint.handle_complaint_transition, bind, lift, set_state
      in Hdel.
    cbn [getitem lookup String.eqb Ascii.eqb Bool.eqb state installed] in Hdel.
    destruct (get (ev_args e) "complaint" (VStr "")) as [ | | | s | | | ];
      cbn in Hdel; inversion Hdel; subst; try (left; reflexivity).
    right. step_on.
  - cbn in Hdel. inversion Hdel; subst. right. step_on.
  - cbn in Hdel. inversion Hdel; subst. right. step_on.
Qed.

Lemma general_not_intro (name : string) (n : node) :
  general_node name n -> is_intro name = false.
Proof. destruct 1; reflexivity. Qed.

Lemma stepped_visited (fm fm' : flow_manager) (name : string) :
  stepped fm fm' name ->
  exists name' n',
    current_node fm' = Some (name', n') /\
    general_node name' n' /\
    stage name < stage name' /\
    visited fm' = (visited fm ++ [name'])%list.
Proof.
  intros (name' & n' & Hinst & Hgen & Hlt).
  exists name', n'. repeat split; auto.
  - unfold current_node. rewrite Hinst, map_app. simpl. now rewrite last_last.
  - unfold visited. rewrite Hinst, map_app, filter_app. simpl.
    now rewrite (general_not_intro _ _ Hgen).
Qed.

Lemma on_general_path_run (events : list event) (fm : flow_manager) :
  on_general_path fm -> on_general_path (run program_registry events fm).
Proof.
  revert fm. induction events as [|e rest IH]; intros fm Hfm; simpl;
    [exact Hfm|].
  destruct (deliver program_registry e fm) as [[fm' o]|] eqn:Hdel;
    [|now apply IH].
  apply IH. destruct Hfm as (name & n & Hcur & Hgen & Hclimb).
  destruct (deliver_general _ _ _ _ _ _ Hcur Hgen Hdel) as [Hsame | Hstep].
  - exists name, n.
    rewrite (current_node_installed _ _ Hsame), (visited_installed _ _ Hsame).
    auto.
  - destruct (stepped_visited _ _ _ Hstep)
      as (name' & n' & Hcur' & Hgen' & Hlt & Hvis).
    exists name', n'. rewrite Hvis, map_app. simpl. repeat split; auto.
    now apply climbs_step with (s := stage name).
Qed.

Lemma on_general_path_start : on_general_path start_session.
Proof.
  exists "initial", Entry.create_entry_node.
  split; [reflexivity|]. split; constructor.
Qed.

Lemma general_progress (e : event) (fm : flow_manager) (name : string)
  (n : node) (f : function_decl) :
  current_node fm = Some (name, n) ->
  general_node name n ->
  find_function (ev_function e) n = Some f ->
  well_formed (fn_parameters f) (ev_args e) = true ->
  exists fm',
    deliver program_registry e fm = Some (fm', Ok tt) /\
    stepped fm fm' name.
Proof.
  intros Hcur Hgen Hf Hwf.
  unfold deliver. rewrite Hcur, Hf. unfold find_function in Hf.
  destruct Hgen; cbn -[String.eqb] in Hf; try discriminate;
    match type of Hf with
    | context [if ?b then _ else _] => destruct b; [|discriminate]
    end; inversion Hf; subst f; clear Hf;
    cbn [fn_handler fn_transition_callback run_handler run_callback].
  - destruct (verify_consent_shape (ev_args e)) as [c ->].
    destruct c; eexists; (split; [reflexivity|]); step_on.
  - destruct (well_formed_text _ _ "complaint" Hwf (or_introl eq_refl))
      as [s Hs].
    unfold ChiefComplaint.collect_chief_complaint.
    unfold ChiefComplaint.handle_complaint_transition, bind, lift, set_state.
    cbn [getitem lookup String.eqb Ascii.eqb Bool.eqb state installed].
    rewrite Hs. cbn. eexists; (split; [reflexivity|]); step_on.
  - eexists; (split; [reflexivity|]); step_on.
  - eexists; (split; [reflexivity|]); step_on.
Qed.

Lemma general_can_end (fm : flow_manager) (name : string) (n : node) :
  current_node fm = Some (name, n) ->
  general_node name n ->
  can_end program_registry fm.
Proof.
  intros Hcur Hgen. destruct Hgen.
  - eapply (can_end_after _ (call "process_consent")).
    + unfold deliver. rewrite Hcur. cbn. reflexivity.
    + exists []. cbn [run]. unfold session_ended.
      now rewrite current_node_snoc.
  - eapply (can_end_after _ (call "collect_chief_complaint")).
    + unfold deliver. rewrite Hcur. cbn. reflexivity.
    + apply can_end_medical_history. apply current_node_snoc.
  - now apply can_end_medical_history.
  - now apply can_end_wrap_up.
  - exists []. cbn [run]. unfold session_ended. now rewrite Hcur.
Qed.

Lemma general_halted (fm : flow_manager) (name : string) (n : node) :
  current_node fm = Some (name, n) ->
  general_node name n ->
  halted program_registry fm <-> session_ended fm = true.
Proof.
  intros Hcur Hgen. split.
  - intros Hhalt. unfold session_ended. rewrite Hcur.
    destruct Hgen; try reflexivity;
      [ specialize (Hhalt (call "process_consent"))
      | specialize (Hhalt (call "collect_chief_complaint"))
      | specialize (Hhalt (call "collect_medical_history"))
      | specialize (Hhalt (call "finish_conversation")) ];
      unfold deliver in Hhalt; rewrite Hcur in Hhalt; discriminate Hhalt.
  - intros Hend e. revert Hend.
    unfold session_ended, deliver, is_end_node, find_function. rewrite Hcur.
    destruct (functions n); [reflexivity | discriminate].
Qed.

(** C5. For every session of the program, that is, every sequence of tool
    calls served from the entry node on the program's registry: no state
    is visited twice, the stages of the visited states strictly increase,
    and at most six states are visited.  The path reaches the end state:
    every call of a function of the current node with arguments that
    match its schema is served without a raise and takes the session one
    state further, the only state at which no call can be served any more
    is the end, and from wherever the session stands some sequence of
    calls takes it there. *)
Theorem session_path_acyclic_bounded_reaches_end (events : list event) :
  let fm := run program_registry events start_session in
  NoDup (visited fm) /\
  length (visited fm) <= 6 /\
  (exists top, climbs (map stage (visited fm)) top) /\
  makes_progress program_registry fm /\
  (halted program_registry fm <-> session_ended fm = true) /\
  can_end program_registry fm.
Proof.
  intros fm.
  destruct (on_general_path_run events start_session on_general_path_start)
    as (name & n & Hcur & Hgen & Hclimb).
  fold fm in Hcur, Hclimb.
  destruct (climbs_bound _ _ Hclimb) as (_ & Hnd & Hlen).
  split; [eapply NoDup_map_inv; exact Hnd|].
  split; [rewrite length_map in Hlen; pose proof (stage_le_5 name); lia|].
  split; [eauto|]. split.
  - intros e name0 n0 f Hcur0 Hf Hwf.
    rewrite Hcur in Hcur0. inversion Hcur0; subst name0 n0.
    destruct (general_progress e fm name n f Hcur Hgen Hf Hwf)
      as (fm' & Hdel & Hstep).
    exists fm'. split; [exact Hdel|].
    destruct (stepped_visited _ _ _ Hstep) as (next & _ & _ & _ & _ & Hvis).
    eauto.
  - split; [eapply general_halted; eassumption|].
    eapply general_can_end; eassumption.
Qed.

Lemma session_path_acyclic_bounded_reaches_end_witness :
  exists fm',
    deliver program_registry (chest_pain_complaint_event "2025-01-01T09:01:00")
      (run program_registry [consent_event "2025-01-01T09:00:00"]
         start_session) = Some (fm', Ok tt) /\
    visited fm' = ["initial"; "chief_complaint"; "medical_history"].
Proof.
  destruct (session_path_acyclic_bounded_reaches_end
              [consent_event "2025-01-01T09:00:00"])
    as (_ & _ & _ & Hprogress & _ & _).
  destruct (Hprogress (chest_pain_complaint_event "2025-01-01T09:01:00")
              "chief_complaint" ChiefComplaint.create_chief_complaint_node
              _ eq_refl eq_refl eq_refl) as (fm' & Hdel & next & Hvis).
  exists fm'. split; [exact Hdel|].
  cbv in Hdel. inversion Hdel. reflexivity.
Defined.

(** ** Two sessions, run *)

(** The registry with both specialties, chest pain registered first. *)
Definition two_specialties : NodeRegistry.flows :=
  [("ChestPainNode", ChestPain.ChestPainNode);
   ("RespiratoryNode", Respiratory.RespiratoryNode)].

Example respiratory_session :
  visited
    (run two_specialties
       [{| ev_function := "process_consent";
           ev_args := [("consent", VStr "True")];
           ev_now := "2025-01-01T09:00:00" |};
        {| ev_function := "collect_chief_complaint";
           ev_args := [("complaint", VStr "Bad COUGH");
                       ("duration", VStr "1 week")];
           ev_now := "2025-01-01T09:01:00" |};
        {| ev_function := "assess_respiratory";
           ev_args := [("breathing_difficulty", VStr "mild");
                       ("associated_symptoms", VList [VStr "Sore throat"])];
           ev_now := "2025-01-01T09:02:00" |};
        {| ev_function := "collect_medical_history";
           ev_args := [];
           ev_now := "2025-01-01T09:03:00" |};
        {| ev_function := "finish_conversation";
           ev_args := [];
           ev_now := "2025-01-01T09:04:00" |}]
       start_session)
  = ["initial"; "chief_complaint"; "respiratorynode_assessment";
     "medical_history"; "wrap_up"; "end_call"].
Proof. reflexivity. Qed.

Example headache_session :
  visited
    (run two_specialties
       [{| ev_function := "process_consent";
           ev_args := [("consent", VBool true)];
           ev_now := "2025-01-01T09:00:00" |};
        {| ev_function := "collect_chief_complaint";
           ev_args := [("complaint", VStr "headache");
                       ("duration", VStr "3 days")];
           ev_now := "2025-01-01T09:01:00" |};
        {| ev_function := "collect_medical_history";
           ev_args := [];
           ev_now := "2025-01-01T09:02:00" |};
        {| ev_function := "finish_conversation";
           ev_args := [];
           ev_now := "2025-01-01T09:03:00" |}]
       start_session)
  = ["initial"; "chief_complaint"; "medical_history"; "wrap_up"; "end_call"].
Proof. reflexivity. Qed.

(* ================================================================== *)
(** * Further properties *)

(** ** Transitions, one by one *)

Lemma occurs_middle (before needle after : string) :
  occurs needle (before ++ needle ++ after).
Proof. now exists before, after. Qed.

Lemma append_assoc (a b c : string) : (a ++ b) ++ c = a ++ b ++ c.
Proof. induction a as [|x a IH]; simpl; [reflexivity | now rewrite IH]. Qed.

(** X1. Whenever the respiratory handler returns a result, the
    respiratory callback first records the assessment under
    ["respiratory_assessment"] (the free text lower-cased, the other
    fields as supplied or at their defaults, without status, flag or
    reason), whether or not the result flags an emergency.  The result
    flags one exactly when an indicator keyword occurs in the free text
    or a symptom; when it flags none, the callback goes on to install the
    medical-history node, and that node alone, and does not raise. *)
Theorem respiratory_transition_records_and_routes (args : dict value)
  (r : value) (now : string) (fm : flow_manager) :
  Respiratory.assess_respiratory args = Ok r ->
  exists (text : string) (b : bool),
    get args "breathing_difficulty" (VStr "") = VStr text /\
    getitem r "requires_emergency" = Ok (VBool b) /\
    (b = true <->
     keyword_hit Respiratory.emergency_indicators text
       (elements (get args "associated_symptoms" (VList [])))) /\
    state (fst (Respiratory.handle_respiratory_assessment args r now fm)) =
      set (state fm) "respiratory_assessment" (respiratory_record args text) /\
    (b = false ->
     Respiratory.handle_respiratory_assessment args r now fm =
       ({| state :=
             set (state fm) "respiratory_assessment"
               (respiratory_record args text);
           installed :=
             installed fm ++
             [("medical_history",
               MedicalHistory.create_medical_history_node)] |},
        Ok tt)).
Proof.
  intros Hr.
  destruct (assess_unfold respiratory args r Hr)
    as (text & b & Ht & Hd & _ & _).
  exists text, b. split; [exact Ht|].
  simpl in Ht, Hd. unfold Respiratory.assess_respiratory in Hr.
  rewrite Ht in Hr. simpl in Hr. rewrite Hd in Hr. simpl in Hr.
  inversion Hr; subst r. split; [reflexivity|]. split.
  - apply (detect_emergency_spec _ _ _ _ (indicators_lower respiratory) Hd).
  - split; [destruct b; reflexivity|]. intros ->. reflexivity.
Qed.

Lemma respiratory_transition_records_and_routes_witness :
  exists r,
    Respiratory.assess_respiratory
      [("breathing_difficulty", VStr "Mild");
       ("associated_symptoms", VList [VStr "a bit tired"])] = Ok r /\
    current_node
      (fst (Respiratory.handle_respiratory_assessment
              [("breathing_difficulty", VStr "Mild");
               ("associated_symptoms", VList [VStr "a bit tired"])]
              r "2025-01-01T09:00:00" start_session))
    = Some ("medical_history", MedicalHistory.create_medical_history_node).
Proof.
  eexists. split; [reflexivity|].
  destruct (respiratory_transition_records_and_routes
              [("breathing_difficulty", VStr "Mild");
               ("associated_symptoms", VList [VStr "a bit tired"])]
              _ "2025-01-01T09:00:00" start_session eq_refl)
    as (text & b & Ht & Hflag & Hb & Hstate & Hstep).
  inversion Hflag; subst b.
  rewrite (Hstep eq_refl). reflexivity.
Defined.

(** X2. For a complaint that is a text, whatever the registry holds:
    the chief-complaint transition records complaint and duration under
    ["chief_complaint"] and does not raise.  When the registry lookup
    finds a class, the first in registration order with a phrase in the
    lower-cased complaint, it installs that class's intro node and then
    its assessment node, and the announced message contains the complaint
    and the duration as given; when no class is found it installs the
    medical-history node alone. *)
Theorem complaint_transition_routes (_flows : NodeRegistry.flows)
  (args : dict value) (s : string) (now : string) (fm : flow_manager) :
  get args "complaint" (VStr "") = VStr s ->
  exists r found,
    ChiefComplaint.collect_chief_complaint args = Ok r /\
    NodeRegistry.get_node_for_complaint _flows (VStr s) = Ok found /\
    first_such (triggered_by (lower s)) (values _flows) found /\
    ChiefComplaint.handle_complaint_transition _flows args r now fm =
      ({| state := set (state fm) "chief_complaint" (complaint_record args);
          installed :=
            installed fm ++
            complaint_route (VStr s) (get args "duration" (VStr "")) found |},
       Ok tt) /\
    occurs s (transition_message (VStr s) (get args "duration" (VStr ""))) /\
    occurs (str (get args "duration" (VStr "")))
      (transition_message (VStr s) (get args "duration" (VStr ""))).
Proof.
  intros Hs.
  destruct (get_node_for_complaint_verbatim _flows s)
    as (found & Hfound & Hfirst).
  eexists. exists found. split; [reflexivity|]. split; [exact Hfound|].
  split; [exact Hfirst|]. split.
  - unfold ChiefComplaint.handle_complaint_transition, bind, lift, set_state.
    cbn [getitem lookup String.eqb Ascii.eqb Bool.eqb state installed].
    rewrite Hs, Hfound. unfold complaint_record. rewrite Hs.
    destruct found as [flow|]; [|reflexivity].
    unfold Base.setup, bind, set_node. cbn [state installed complaint_route].
    rewrite <- app_assoc. reflexivity.
  - unfold transition_message. split.
    + apply occurs_middle.
    + exists ("I understand you've been experiencing " ++ s ++ " for "),
        (". "
         ++ "I'd like to ask a few more specific questions about this to help the doctor "
         ++ "better prepare for your appointment.").
      cbn [str]. now rewrite !append_assoc.
Qed.

Lemma complaint_transition_routes_witness :
  exists r,
    ChiefComplaint.collect_chief_complaint
      [("complaint", VStr "Headache"); ("duration", VStr "3 days")] = Ok r /\
    ChiefComplaint.handle_complaint_transition two_specialties
      [("complaint", VStr "Headache"); ("duration", VStr "3 days")] r
      "2025-01-01T09:00:00" (consented start_session)
    = ({| state :=
            set (state (consented start_session)) "chief_complaint"
              (VDict [("complaint", VStr "Headache");
                      ("duration", VStr "3 days")]);
          installed :=
            installed (consented start_session) ++
            [("medical_history",
              MedicalHistory.create_medical_history_node)] |},
       Ok tt).
Proof.
  destruct (complaint_transition_routes two_specialties
              [("complaint", VStr "Headache"); ("duration", VStr "3 days")]
              "Headache" "2025-01-01T09:00:00" (consented start_session)
              eq_refl)
    as (r & found & Hr & Hfound & _ & Hstep & _).
  exists r. split; [exact Hr|].
  rewrite Hstep. inversion Hfound; subst found. reflexivity.
Defined.

(** X3. When the complaint is not a text (a number, a list, ...) the
    chief-complaint transition raises [AttributeError] in the registry
    lookup, after it has recorded complaint and duration under
    ["chief_complaint"]: the state is changed and no node is installed. *)
Theorem complaint_not_text_raises_after_recording
  (_flows : NodeRegistry.flows) (args : dict value) (r : value)
  (now : string) (fm : flow_manager) :
  type_of (get args "complaint" (VStr "")) <> TStrT ->
  ChiefComplaint.collect_chief_complaint args = Ok r ->
  ChiefComplaint.handle_complaint_transition _flows args r now fm =
    ({| state := set (state fm) "chief_complaint" (complaint_record args);
        installed := installed fm |},
     Raise (AttributeError "lower")).
Proof.
  intros Hty Hr. unfold ChiefComplaint.collect_chief_complaint in Hr.
  inversion Hr; subst r; clear Hr.
  unfold ChiefComplaint.handle_complaint_transition, bind, lift, set_state.
  cbn [getitem lookup String.eqb Ascii.eqb Bool.eqb state installed].
  unfold complaint_record.
  destruct (get args "complaint" (VStr "")); try reflexivity.
  now elim Hty.
Qed.

Lemma complaint_not_text_raises_after_recording_witness :
  ChiefComplaint.handle_complaint_transition two_specialties
    [("complaint", VList [VStr "chest pain"]); ("duration", VStr "2 days")]
    (VDict [("status", VStr "success");
            ("complaint", VList [VStr "chest pain"]);
            ("duration", VStr "2 days")])
    "2025-01-01T09:00:00" (consented start_session)
  = ({| state :=
          [("consent_given", VBool true);
           ("chief_complaint",
            VDict [("complaint", VList [VStr "chest pain"]);
                   ("duration", VStr "2 days")])];
        installed := installed (consented start_session) |},
     Raise (AttributeError "lower")).
Proof.
  apply (complaint_not_text_raises_after_recording two_specialties
           [("complaint", VList [VStr "chest pain"]);
            ("duration", VStr "2 days")]).
  - discriminate.
  - reflexivity.
Defined.

(** X4. For all arguments, of whatever types, the medical-history
    handler and its callback do not raise: conditions, medications,
    allergies and surgeries are recorded under ["medical_history"] as
    supplied, an empty list standing for a missing one, the wrap-up node
    is installed next, and no other key of the state changes. *)
Theorem medical_history_transition_records (args : dict value)
  (now : string) (fm : flow_manager) :
  exists r,
    MedicalHistory.collect_medical_history args = Ok r /\
    MedicalHistory.handle_medical_history_transition args r now fm =
      ({| state := set (state fm) "medical_history"
                     (medical_history_record args);
          installed :=
            installed fm ++ [("wrap_up", WrapUp.create_wrap_up_node)] |},
       Ok tt) /\
    (forall key, key <> "medical_history" ->
       lookup (set (state fm) "medical_history" (medical_history_record args))
         key = lookup (state fm) key).
Proof.
  eexists. split; [reflexivity|]. split; [reflexivity|].
  intros key Hkey. now apply lookup_set_other.
Qed.

(** X5. At an emergency node, whatever reason it alerts the staff
    with, serving [handle_emergency] records under ["emergency"] the
    reason of the call's own arguments (["Unspecified emergency"] when
    they have none) with the time of the call, and installs the end node
    with the hold-the-line message; the session is then over and no
    later tool call changes it. *)
Theorem emergency_call_records_and_ends (_flows : NodeRegistry.flows)
  (alert_reason : value) (args : dict value) (now : string)
  (fm : flow_manager) :
  current_node fm =
    Some ("emergency", Emergency.create_emergency_node alert_reason) ->
  let fm' :=
    {| state :=
         set (state fm) "emergency"
           (VDict [("reason",
                    get args "emergency_reason" (VStr "Unspecified emergency"));
                   ("timestamp", VStr now)]);
       installed :=
         installed fm ++
         [("end_call", EndNode.create_end_call_node hold_message)] |} in
  deliver _flows
    {| ev_function := "handle_emergency"; ev_args := args; ev_now := now |} fm
  = Some (fm', Ok tt) /\
  session_ended fm' = true /\
  forall events, run _flows events fm' = fm'.
Proof.
  intros Hcur fm'.
  assert (Hend : session_ended fm' = true).
  { unfold session_ended, fm'. now rewrite current_node_snoc. }
  split; [|split; [exact Hend|]].
  - unfold deliver. rewrite Hcur. reflexivity.
  - intros events. now apply run_ended.
Qed.

Lemma emergency_call_records_and_ends_witness :
  lookup
    (state
       (run two_specialties
          [{| ev_function := "handle_emergency";
              ev_args := [];
              ev_now := "2025-01-01T09:05:00" |}]
          {| state := [];
             installed :=
               [("emergency",
                 Emergency.create_emergency_node
                   (VStr "Severe respiratory distress detected"))] |}))
    "emergency"
  = Some (VDict [("reason", VStr "Unspecified emergency");
                 ("timestamp", VStr "2025-01-01T09:05:00")]).
Proof.
  cbn [run].
  rewrite (proj1 (emergency_call_records_and_ends two_specialties
                    (VStr "Severe respiratory distress detected") []
                    "2025-01-01T09:05:00"
                    {| state := [];
                       installed :=
                         [("emergency",
                           Emergency.create_emergency_node
                             (VStr "Severe respiratory distress detected"))] |}
                    eq_refl)).
  reflexivity.
Defined.

(** *** Detection: what is inspected, and when it raises *)

Lemma any_indicator_in_text_mentions (sp : specialty) (text : string) :
  any_indicator_in_text (indicators sp) (lower text) = true <->
  mentions (indicators sp) text.
Proof.
  rewrite any_indicator_in_text_true. unfold mentions, occurs_ci.
  pose proof (indicators_lower sp) as Hlow. rewrite forallb_forall in Hlow.
  split; intros (k & Hin & Ho); exists k; split; auto;
    rewrite (is_lower_eq _ (Hlow _ Hin)) in *; exact Ho.
Qed.

Lemma no_indicator_in_text (sp : specialty) (text : string) :
  ~ mentions (indicators sp) text ->
  any_indicator_in_text (indicators sp) (lower text) = false.
Proof.
  intros Hno. destruct (any_indicator_in_text _ _) eqn:H; [|reflexivity].
  now apply any_indicator_in_text_mentions in H.
Qed.

Lemma assess_after_detection (sp : specialty) (args : dict value)
  (text : string) (o : outcome bool) :
  get args (description_field sp) (VStr "") = VStr text ->
  detect_emergency (indicators sp) (lower text)
    (get args "associated_symptoms" (VList [])) = o ->
  match o with
  | Ok b => exists r, assess sp args = Ok r /\
                      getitem r (emergency_flag sp) = Ok (VBool b)
  | Raise exc => assess sp args = Raise exc
  end.
Proof.
  intros Ht Hd.
  destruct sp; simpl in *;
    unfold ChestPain.assess_chest_pain, Respiratory.assess_respiratory;
    rewrite Ht; simpl; rewrite Hd; destruct o; simpl; eauto.
Qed.

(** X18. For both specialty handlers: when an indicator keyword occurs
    in the free text, the handler returns with the emergency flag set
    whatever [associated_symptoms] is, even a value that cannot be
    iterated; when none occurs and [associated_symptoms] cannot be
    iterated, it raises [TypeError]; and when the free text is not a
    text, it raises [AttributeError]. *)
Theorem free_text_hit_short_circuits (sp : specialty) (args : dict value) :
  (forall text,
     get args (description_field sp) (VStr "") = VStr text ->
     mentions (indicators sp) text ->
     exists r, assess sp args = Ok r /\ flagged sp r) /\
  (forall text,
     get args (description_field sp) (VStr "") = VStr text ->
     ~ mentions (indicators sp) text ->
     iterate (get args "associated_symptoms" (VList [])) =
       Raise (TypeError "object is not iterable") ->
     assess sp args = Raise (TypeError "object is not iterable")) /\
  (type_of (get args (description_field sp) (VStr "")) <> TStrT ->
   assess sp args = Raise (AttributeError "lower")).
Proof.
  split; [|split].
  - intros text Ht Hm. apply any_indicator_in_text_mentions in Hm.
    apply (assess_after_detection sp args text (Ok true) Ht).
    unfold detect_emergency. now rewrite Hm.
  - intros text Ht Hm Hit.
    apply (assess_after_detection sp args text (Raise _) Ht).
    unfold detect_emergency.
    now rewrite (no_indicator_in_text sp text Hm), Hit.
  - intros Hty.
    destruct sp; simpl in *;
      unfold ChestPain.assess_chest_pain, Respiratory.assess_respiratory;
      match goal with
      | |- context [lower_method ?v] => destruct v; try reflexivity
      end; now elim Hty.
Qed.

Lemma free_text_hit_short_circuits_witness :
  (exists r,
     assess chest_pain
       [("severity", VStr "UNBEARABLE"); ("associated_symptoms", VInt 3)]
     = Ok r /\ flagged chest_pain r) /\
  assess respiratory
    [("breathing_difficulty", VStr "mild"); ("associated_symptoms", VNone)]
  = Raise (TypeError "object is not iterable") /\
  assess chest_pain [("severity", VInt 9)] = Raise (AttributeError "lower").
Proof.
  split; [|split].
  - apply (proj1 (free_text_hit_short_circuits chest_pain
                    [("severity", VStr "UNBEARABLE");
                     ("associated_symptoms", VInt 3)]) "UNBEARABLE").
    + reflexivity.
    + exists "unbearable". split; [simpl; tauto|].
      apply str_in_occurs. reflexivity.
  - apply (proj1 (proj2 (free_text_hit_short_circuits respiratory
                    [("breathing_difficulty", VStr "mild");
                     ("associated_symptoms", VNone)])) "mild").
    + reflexivity.
    + intros Hm. apply any_indicator_in_text_mentions in Hm. discriminate Hm.
    + reflexivity.
  - apply (proj2 (proj2 (free_text_hit_short_circuits chest_pain
                    [("severity", VInt 9)]))).
    discriminate.
Defined.

Lemma any_indicator_in_symptom_text (s : string) (indicators : list string) :
  any_indicator_in_symptom (VStr s) indicators =
    Ok (any_indicator_in_text indicators (lower s)).
Proof.
  induction indicators as [|k rest IH]; simpl; [reflexivity|].
  destruct (str_in k (lower s)); [reflexivity | exact IH].
Qed.

Lemma any_indicator_in_symptoms_skip (indicators : list string)
  (quiet rest : list value) :
  Forall (fun symptom =>
            exists s, symptom = VStr s /\
                      any_indicator_in_text indicators (lower s) = false)
    quiet ->
  any_indicator_in_symptoms indicators (quiet ++ rest)%list =
  any_indicator_in_symptoms indicators rest.
Proof.
  induction 1 as [|symptom quiet (s & -> & Hs) _ IH]; simpl; [reflexivity|].
  rewrite any_indicator_in_symptom_text, Hs. simpl. exact IH.
Qed.

(** X19. For both specialty handlers, with no indicator keyword in the
    free text, the symptoms are inspected in order up to the first hit:
    after text symptoms without a keyword, a text symptom with a keyword
    sets the flag whatever follows it, and a symptom that is not a text
    raises [AttributeError] whatever follows it. *)
Theorem symptoms_inspected_up_to_first_hit (sp : specialty)
  (args : dict value) (text : string) (quiet rest : list value)
  (symptom : value) :
  get args (description_field sp) (VStr "") = VStr text ->
  ~ mentions (indicators sp) text ->
  get args "associated_symptoms" (VList []) =
    VList (quiet ++ symptom :: rest) ->
  Forall (fun q => exists s, q = VStr s /\ ~ mentions (indicators sp) s)
    quiet ->
  (forall s, symptom = VStr s -> mentions (indicators sp) s ->
     exists r, assess sp args = Ok r /\ flagged sp r) /\
  (type_of symptom <> TStrT ->
   assess sp args = Raise (AttributeError "lower")).
Proof.
  intros Ht Hno Hsym Hquiet.
  pose proof (no_indicator_in_text sp text Hno) as Htext.
  assert (Hskip :
            detect_emergency (indicators sp) (lower text)
              (VList (quiet ++ symptom :: rest)) =
            any_indicator_in_symptoms (indicators sp) (symptom :: rest)).
  { unfold detect_emergency. rewrite Htext. cbn [iterate obind].
    apply any_indicator_in_symptoms_skip.
    eapply Forall_impl; [|exact Hquiet].
    intros q (s & -> & Hs). exists s. split; [reflexivity|].
    now apply no_indicator_in_text. }
  split.
  - intros s -> Hm. apply any_indicator_in_text_mentions in Hm.
    apply (assess_after_detection sp args text (Ok true) Ht).
    rewrite Hsym, Hskip. simpl.
    now rewrite any_indicator_in_symptom_text, Hm.
  - intros Hty.
    apply (assess_after_detection sp args text (Raise _) Ht).
    rewrite Hsym, Hskip.
    destruct sp; destruct symptom; try (now elim Hty); reflexivity.
Qed.

Lemma symptoms_inspected_up_to_first_hit_witness :
  (exists r,
     assess respiratory
       [("associated_symptoms",
         VList [VStr "tired"; VStr "Blue lips"; VInt 7])] = Ok r /\
     flagged respiratory r) /\
  assess respiratory
    [("associated_symptoms", VList [VStr "tired"; VInt 7; VStr "Blue lips"])]
  = Raise (AttributeError "lower").
Proof.
  assert (Hquiet :
            Forall (fun q => exists s,
                        q = VStr s /\ ~ mentions (indicators respiratory) s)
              [VStr "tired"]).
  { constructor; [|constructor]. exists "tired". split; [reflexivity|].
    intros Hm. apply any_indicator_in_text_mentions in Hm. discriminate Hm. }
  assert (Hno : ~ mentions (indicators respiratory) "").
  { intros Hm. apply any_indicator_in_text_mentions in Hm. discriminate Hm. }
  split.
  - apply (proj1 (symptoms_inspected_up_to_first_hit respiratory
                    [("associated_symptoms",
                      VList [VStr "tired"; VStr "Blue lips"; VInt 7])]
                    "" [VStr "tired"] [VInt 7] (VStr "Blue lips")
                    eq_refl Hno eq_refl Hquiet) "Blue lips").
    + reflexivity.
    + exists "blue lips". split; [simpl; tauto|].
      apply str_in_occurs. reflexivity.
  - apply (proj2 (symptoms_inspected_up_to_first_hit respiratory
                    [("associated_symptoms",
                      VList [VStr "tired"; VInt 7; VStr "Blue lips"])]
                    "" [VStr "tired"] [VStr "Blue lips"] (VInt 7)
                    eq_refl Hno eq_refl Hquiet)).
    discriminate.
Defined.

(** *** Entering a specialty *)

(** X20. Entering a specialty leaves the session state alone and
    installs two nodes, the intro and then the assessment, under the
    lower-cased class name with [_intro] and [_assessment] appended.  The
    intro utters the message, names no handler, and its one function
    points ([transition_to]) to the name the assessment is installed
    under; the assessment node is the current node when [setup]
    returns. *)
Theorem setup_installs_intro_then_assessment (flow : Base.SpecialtyNode)
  (message now : string) (fm : flow_manager) :
  let intro_name := lower (Base.class_name flow) ++ "_intro" in
  let assessment_name := lower (Base.class_name flow) ++ "_assessment" in
  let intro := Base.create_transition_node flow message in
  exists fm',
    Base.setup flow message now fm = (fm', Ok tt) /\
    state fm' = state fm /\
    installed fm' =
      (installed fm ++
       [(intro_name, intro);
        (assessment_name, Base.create_assessment_node flow)])%list /\
    current_node fm' =
      Some (assessment_name, Base.create_assessment_node flow) /\
    map fn_transition_to (functions intro) = [Some assessment_name] /\
    node_handlers intro = [] /\
    task_messages intro = [system ("Say: '" ++ message ++ "'")].
Proof.
  intros intro_name assessment_name intro.
  eexists. split; [reflexivity|]. cbn [state installed].
  split; [reflexivity|]. split; [now rewrite <- app_assoc|].
  split; [apply current_node_snoc|]. repeat split.
Qed.

(** *** The registry as classes are added *)

Lemma values_app {V : Type} (d1 d2 : dict V) :
  values (d1 ++ d2)%list = (values d1 ++ values d2)%list.
Proof. unfold values. apply map_app. Qed.

Lemma first_triggered_app (text : string)
  (classes more : list Base.SpecialtyNode) :
  NodeRegistry.first_triggered text (classes ++ more)%list =
  match NodeRegistry.first_triggered text classes with
  | Some flow => Some flow
  | None => NodeRegistry.first_triggered text more
  end.
Proof.
  induction classes as [|c rest IH]; simpl; [reflexivity|].
  destruct (existsb _ (Base.get_trigger_phrases c)); [reflexivity | exact IH].
Qed.

(** X15. Registering a class under a name not yet in the registry
    changes no lookup that found a class before; a complaint that found
    nothing before is now answered as by a registry holding the new class
    alone. *)
Theorem register_new_keeps_earlier_matches (flow_class : Base.SpecialtyNode)
  (_flows : NodeRegistry.flows) :
  lookup _flows (Base.class_name flow_class) = None ->
  exists flows',
    NodeRegistry.register flow_class _flows = Ok flows' /\
    forall complaint found,
      NodeRegistry.get_node_for_complaint _flows (VStr complaint) = Ok found ->
      NodeRegistry.get_node_for_complaint flows' (VStr complaint) =
        match found with
        | Some earlier => Ok (Some earlier)
        | None =>
            NodeRegistry.get_node_for_complaint
              [(Base.class_name flow_class, flow_class)] (VStr complaint)
        end.
Proof.
  intros Hnew. eexists. split; [apply register_new_appends; exact Hnew|].
  intros complaint found Hfound.
  unfold NodeRegistry.get_node_for_complaint in *. cbn [lower_method obind] in *.
  inversion Hfound; subst found; clear Hfound.
  rewrite values_app, first_triggered_app.
  destruct (NodeRegistry.first_triggered (lower complaint) (values _flows));
    reflexivity.
Qed.

Lemma register_new_keeps_earlier_matches_witness :
  exists flows',
    NodeRegistry.register Respiratory.RespiratoryNode
      [("ChestPainNode", ChestPain.ChestPainNode)] = Ok flows' /\
    NodeRegistry.get_node_for_complaint flows'
      (VStr "Chest pain and shortness of breath")
    = Ok (Some ChestPain.ChestPainNode).
Proof.
  destruct (register_new_keeps_earlier_matches Respiratory.RespiratoryNode
              [("ChestPainNode", ChestPain.ChestPainNode)] eq_refl)
    as (flows' & Hreg & Hkeep).
  exists flows'. split; [exact Hreg|].
  apply (Hkeep "Chest pain and shortness of breath"
           (Some ChestPain.ChestPainNode)).
  reflexivity.
Defined.

Lemma occurs_empty (text : string) : occurs "" text.
Proof. now exists "", text. Qed.

Lemma split_at_first {A : Type} (before after before' after' : list A)
  (x y : A) :
  (before ++ x :: after = before' ++ y :: after')%list ->
  In y (before ++ [x])%list \/ In x before'.
Proof.
  revert before'. induction before as [|h t IH]; intros [|z before'] Heq;
    simpl in Heq; inversion Heq; subst.
  - left. now left.
  - right. now left.
  - left. now left.
  - destruct (IH before' H1) as [Hin | Hin].
    + left. now right.
    + right. now right.
Qed.

(** X16. A registered class with the empty text among its trigger
    phrases matches every complaint: no text complaint is answered with
    nothing, so the general path is never taken, and the answer is that
    class or one registered before it, never one registered after it. *)
Theorem empty_trigger_matches_every_complaint (_flows : NodeRegistry.flows)
  (flow_class : Base.SpecialtyNode)
  (before after : list Base.SpecialtyNode) (complaint : string) :
  values _flows = (before ++ flow_class :: after)%list ->
  In "" (Base.get_trigger_phrases flow_class) ->
  exists found,
    NodeRegistry.get_node_for_complaint _flows (VStr complaint)
      = Ok (Some found) /\
    In found (before ++ [flow_class])%list.
Proof.
  intros Hvalues Hempty.
  assert (Htrig : triggered_by (lower complaint) flow_class).
  { exists "". split; [exact Hempty | apply occurs_empty]. }
  destruct (get_node_for_complaint_verbatim _flows complaint)
    as ([found|] & Hres & Hfirst); simpl in Hfirst.
  - exists found. split; [exact Hres|].
    destruct Hfirst as (before' & after' & Heq & _ & Hbefore).
    rewrite Hvalues in Heq.
    destruct (split_at_first _ _ _ _ _ _ Heq) as [Hin | Hin];
      [exact Hin|].
    now elim (Hbefore flow_class Hin).
  - exfalso. apply (Hfirst flow_class); [|exact Htrig].
    rewrite Hvalues. apply in_or_app. right. now left.
Qed.

Lemma empty_trigger_matches_every_complaint_witness :
  exists found,
    NodeRegistry.get_node_for_complaint
      [("CatchAll",
        {| Base.class_name := "CatchAll";
           Base.get_trigger_phrases := ["rash"; ""];
           Base.create_assessment_node :=
             Respiratory.create_assessment_node |});
       ("ChestPainNode", ChestPain.ChestPainNode)]
      (VStr "Chest pain")
    = Ok (Some found) /\
    Base.class_name found = "CatchAll".
Proof.
  destruct (empty_trigger_matches_every_complaint
              [("CatchAll",
                {| Base.class_name := "CatchAll";
                   Base.get_trigger_phrases := ["rash"; ""];
                   Base.create_assessment_node :=
                     Respiratory.create_assessment_node |});
               ("ChestPainNode", ChestPain.ChestPainNode)]
              {| Base.class_name := "CatchAll";
                 Base.get_trigger_phrases := ["rash"; ""];
                 Base.create_assessment_node :=
                   Respiratory.create_assessment_node |}
              [] [ChestPain.ChestPainNode] "Chest pain" eq_refl)
    as (found & Hfound & [<- | []]).
  - right. left. reflexivity.
  - eexists. split; [exact Hfound | reflexivity].
Defined.

Lemma first_triggered_head (text : string) (flow : Base.SpecialtyNode)
  (rest : list Base.SpecialtyNode) :
  triggered_by text flow ->
  NodeRegistry.first_triggered text (flow :: rest) = Some flow.
Proof.
  intros H. apply existsb_triggered in H. simpl. now rewrite H.
Qed.

(** X17. For a complaint that triggers two classes of different
    names, the class decorated first is the one returned: registering
    them in one order gives the one, in the other order the other. *)
Theorem registration_order_breaks_ties (a b : Base.SpecialtyNode)
  (complaint : string) :
  Base.class_name a <> Base.class_name b ->
  triggered_by (lower complaint) a ->
  triggered_by (lower complaint) b ->
  exists flows_ab flows_ba,
    register_all [a; b] = Ok flows_ab /\
    register_all [b; a] = Ok flows_ba /\
    NodeRegistry.get_node_for_complaint flows_ab (VStr complaint)
      = Ok (Some a) /\
    NodeRegistry.get_node_for_complaint flows_ba (VStr complaint)
      = Ok (Some b).
Proof.
  intros Hne Ha Hb.
  exists [(Base.class_name a, a); (Base.class_name b, b)],
         [(Base.class_name b, b); (Base.class_name a, a)].
  assert (Hab : (Base.class_name a =? Base.class_name b) = false)
    by now apply String.eqb_neq.
  assert (Hba : (Base.class_name b =? Base.class_name a) = false)
    by (apply String.eqb_neq; congruence).
  unfold register_all, NodeRegistry.register,
    NodeRegistry.get_node_for_complaint.
  cbn [fold_left obind set lower_method values map snd].
  rewrite Hab, Hba.
  repeat split; try reflexivity; f_equal; now apply first_triggered_head.
Qed.

Lemma registration_order_breaks_ties_witness :
  NodeRegistry.get_node_for_complaint
    [("RespiratoryNode", Respiratory.RespiratoryNode);
     ("ChestPainNode", ChestPain.ChestPainNode)]
    (VStr "Chest pain with a cough")
  = Ok (Some Respiratory.RespiratoryNode).
Proof.
  destruct (registration_order_breaks_ties ChestPain.ChestPainNode
              Respiratory.RespiratoryNode "Chest pain with a cough")
    as (flows_ab & flows_ba & _ & Hba & _ & Hfound).
  - discriminate.
  - exists "chest pain". split; [left; reflexivity|].
    apply str_in_occurs. reflexivity.
  - exists "cough". split; [simpl; tauto|].
    apply str_in_occurs. reflexivity.
  - cbv in Hba. inversion Hba; subst flows_ba. exact Hfound.
Defined.

(** ** The state of a session *)

Lemma deliver_writes (_flows : NodeRegistry.flows) (e : event)
  (fm fm' : flow_manager) (o : outcome unit) (name : string) (n : node) :
  current_node fm = Some (name, n) ->
  canonical name n ->
  deliver _flows e fm = Some (fm', o) ->
  state fm' = state fm \/
  exists key v, topic_key name = Some key /\ state fm' = set (state fm) key v.
Proof.
  intros Hcur Hcan Hdel.
  unfold deliver in Hdel. rewrite Hcur in Hdel. unfold find_function in Hdel.
  destruct Hcan; cbn -[String.eqb run_handler run_callback] in Hdel;
    try discriminate;
    match type of Hdel with
    | context [if ?b then _ else _] => destruct b; [|discriminate]
    end; cbn [fn_handler fn_transition_callback run_handler run_callback] in Hdel.
  - destruct (verify_consent_shape (ev_args e)) as [c Hc].
    rewrite Hc in Hdel. destruct c; cbn in Hdel; inversion Hdel; subst.
    + right. eexists _, _. split; reflexivity.
    + now left.
  - right. exists "chief_complaint", (complaint_record (ev_args e)).
    split; [reflexivity|].
    unfold ChiefComplaint.collect_chief_complaint in Hdel.
    unfold ChiefComplaint.handle_complaint_transition, bind, lift, set_state
      in Hdel.
    cbn [getitem lookup String.eqb Ascii.eqb Bool.eqb state installed] in Hdel.
    destruct (NodeRegistry.get_node_for_complaint _ _) as [[flow|]|exc];
      unfold Base.setup, bind, set_node in Hdel; cbn [state installed] in Hdel;
      inversion Hdel; reflexivity.
  - left.
    destruct (ChestPain.assess_chest_pain (ev_args e)) as [r|exc] eqn:Hr.
    + destruct (assess_returns_dict chest_pain _ _ Hr) as [d ->].
      rewrite chest_pain_callback_on_dict in Hdel. now inversion Hdel.
    + now inversion Hdel.
  - destruct (Respiratory.assess_respiratory (ev_args e)) as [r|exc] eqn:Hr.
    + destruct (respiratory_assessment_routes _ _ (ev_now e) fm Hr)
        as (b & recorded & _ & Hcb).
      rewrite Hcb in Hdel. inversion Hdel; subst; clear Hdel.
      right. eexists _, _. split; reflexivity.
    + inversion Hdel. now left.
  - cbn in Hdel. inversion Hdel; subst. right. eexists _, _. split; reflexivity.
  - cbn in Hdel. inversion Hdel; subst. right. eexists _, _. split; reflexivity.
  - cbn in Hdel. inversion Hdel; subst. now left.
Qed.

Lemma topic_key_listed (name key : string) :
  topic_key name = Some key -> In key topic_keys.
Proof.
  unfold topic_key, topic_keys.
  repeat match goal with
         | |- context [if ?b then _ else _] => destruct b
         end; intros H; inversion H; simpl; tauto.
Qed.

Lemma keys_set_incl {V : Type} (d : dict V) (k : string) (v : V) (key : string) :
  In key (keys (set d k v)) -> key = k \/ In key (keys d).
Proof.
  unfold keys. induction d as [|[k' v'] d IH]; simpl.
  - intros [<-|[]]. now left.
  - destruct (k' =? k) eqn:E; simpl.
    + intros [<-|H]; auto.
    + intros [<-|H]; auto. destruct (IH H); auto.
Qed.

(** X6. A tool call served at a state of a session changes no key of
    the session state other than that state's own topic key, whether the
    call succeeds or raises. *)
Theorem transition_writes_own_key_only (_flows : NodeRegistry.flows)
  (e : event) (fm fm' : flow_manager) (o : outcome unit)
  (name : string) (n : node) (key : string) :
  current_node fm = Some (name, n) ->
  canonical name n ->
  deliver _flows e fm = Some (fm', o) ->
  topic_key name <> Some key ->
  lookup (state fm') key = lookup (state fm) key.
Proof.
  intros Hcur Hcan Hdel Hkey.
  destruct (deliver_writes _ _ _ _ _ _ _ Hcur Hcan Hdel)
    as [-> | (k & v & Hk & ->)]; [reflexivity|].
  apply lookup_set_other. congruence.
Qed.

Lemma transition_writes_own_key_only_witness :
  lookup
    (state
       (run two_specialties
          [{| ev_function := "collect_medical_history";
              ev_args := [("allergies", VList [VStr "penicillin"])];
              ev_now := "2025-01-01T09:04:00" |}]
          {| state := [("consent_given", VBool true)];
             installed :=
               [("medical_history",
                 MedicalHistory.create_medical_history_node)] |}))
    "consent_given"
  = Some (VBool true).
Proof.
  cbn [run].
  destruct (deliver two_specialties _ _) as [[fm' o]|] eqn:Hdel;
    [|reflexivity].
  rewrite (transition_writes_own_key_only two_specialties _
             {| state := [("consent_given", VBool true)];
                installed :=
                  [("medical_history",
                    MedicalHistory.create_medical_history_node)] |}
             fm' o "medical_history"
             MedicalHistory.create_medical_history_node "consent_given"
             eq_refl at_medical_history Hdel); [reflexivity|discriminate].
Defined.

Lemma topic_keys_only_run (_flows : NodeRegistry.flows)
  (events : list event) (fm : flow_manager) :
  both_registered _flows ->
  on_path fm -> topic_keys_only fm ->
  topic_keys_only (run _flows events fm).
Proof.
  intros Hreg. revert fm.
  induction events as [|e rest IH]; intros fm Hpath Hkeys; simpl; [exact Hkeys|].
  destruct (deliver _flows e fm) as [[fm' o]|] eqn:Hdel; [|now apply IH].
  apply IH; [eapply on_path_deliver; eassumption|].
  destruct Hpath as (name & n & Hcur & Hcan & _).
  destruct (deliver_writes _ _ _ _ _ _ _ Hcur Hcan Hdel)
    as [Hst | (k & v & Hk & Hst)]; intros key Hin; rewrite Hst in Hin.
  - now apply Hkeys.
  - apply keys_set_incl in Hin as [->|Hin].
    + eapply topic_key_listed; eassumption.
    + now apply Hkeys.
Qed.

(** X7. With the two specialties registered, the state of a session
    never holds a key other than ["consent_given"], ["chief_complaint"],
    ["respiratory_assessment"], ["medical_history"] and ["emergency"];
    in particular no chest-pain assessment is ever recorded. *)
Theorem session_state_topic_keys (_flows : NodeRegistry.flows)
  (events : list event) :
  both_registered _flows ->
  forall key,
    In key (keys (state (run _flows events start_session))) ->
    In key topic_keys.
Proof.
  intros Hreg.
  apply (topic_keys_only_run _ events start_session Hreg on_path_start).
  intros key [].
Qed.

Lemma session_state_topic_keys_witness :
  In "chief_complaint" topic_keys.
Proof.
  apply (session_state_topic_keys two_specialties
           [consent_event "2025-01-01T09:00:00";
            call "collect_chief_complaint"]).
  - left. reflexivity.
  - simpl. tauto.
Defined.

Lemma deliver_ended (_flows : NodeRegistry.flows) (e : event)
  (fm : flow_manager) :
  session_ended fm = true -> deliver _flows e fm = None.
Proof.
  unfold session_ended, deliver, is_end_node, find_function.
  destruct (current_node fm) as [[name n]|]; [|reflexivity].
  destruct (functions n); [reflexivity | discriminate].
Qed.

Lemma general_canonical (name : string) (n : node) :
  general_node name n -> canonical name n.
Proof. destruct 1; constructor. Qed.

Lemma general_topic_key (name : string) (n : node) (key : string) :
  general_node name n -> topic_key name = Some key -> In key general_keys.
Proof.
  destruct 1; simpl; intros H; inversion H; subst; simpl; tauto.
Qed.

Lemma general_only_run (events : list event) (fm : flow_manager) :
  on_general_path fm ->
  general_nodes_only fm ->
  general_keys_only fm ->
  general_nodes_only (run program_registry events fm) /\
  general_keys_only (run program_registry events fm).
Proof.
  revert fm.
  induction events as [|e rest IH]; intros fm Hpath Hnodes Hkeys; simpl;
    [now split|].
  destruct (deliver program_registry e fm) as [[fm' o]|] eqn:Hdel;
    [|now apply IH].
  pose proof (on_general_path_run [e] fm Hpath) as Hpath'.
  simpl in Hpath'. rewrite Hdel in Hpath'.
  destruct Hpath as (name & n & Hcur & Hgen & _).
  apply IH; [exact Hpath'| |].
  - destruct (deliver_general _ _ _ _ _ _ Hcur Hgen Hdel)
      as [Hsame | (name' & n' & Hinst & Hgen' & _)];
      intros x y Hin; rewrite ?Hsame, ?Hinst in Hin; [now apply Hnodes|].
    apply in_app_or in Hin as [Hin | [Heq | []]]; [now apply Hnodes|].
    now inversion Heq; subst.
  - destruct (deliver_writes _ _ _ _ _ _ _ Hcur (general_canonical _ _ Hgen)
                Hdel) as [Hst | (k & v & Hk & Hst)];
      intros key Hin; rewrite Hst in Hin; [now apply Hkeys|].
    apply keys_set_incl in Hin as [-> | Hin]; [|now apply Hkeys].
    eapply general_topic_key; eassumption.
Qed.

Lemma lookup_absent {V : Type} (d : dict V) (k : string) :
  ~ In k (keys d) -> lookup d k = None.
Proof.
  unfold keys. induction d as [|[k' v] d IH]; simpl; [reflexivity|].
  intros Hout. destruct (String.eqb_spec k' k) as [->|Hne]; [tauto|].
  apply IH. tauto.
Qed.

(** X8. A session of the program stays among the general nodes: every
    node it installs is the entry, chief-complaint, medical-history,
    wrap-up or end node under its own name, so neither a specialty
    assessment node nor the emergency node is ever reached; its state
    holds no key other than ["consent_given"], ["chief_complaint"] and
    ["medical_history"], so no specialty assessment and no emergency is
    ever recorded. *)
Theorem program_session_stays_general (events : list event) :
  let fm := run program_registry events start_session in
  (forall name n, In (name, n) (installed fm) -> general_node name n) /\
  (forall key, In key (keys (state fm)) -> In key general_keys) /\
  lookup (state fm) "emergency" = None /\
  lookup (state fm) "chest_pain_assessment" = None /\
  lookup (state fm) "respiratory_assessment" = None.
Proof.
  intros fm.
  destruct (general_only_run events start_session on_general_path_start)
    as [Hnodes Hkeys].
  - intros name n [Heq | []]. inversion Heq; subst. constructor.
  - intros key [].
  - fold fm in Hnodes, Hkeys. split; [exact Hnodes|]. split; [exact Hkeys|].
    repeat split; apply lookup_absent; intros Hin; apply Hkeys in Hin;
      simpl in Hin; intuition discriminate.
Qed.

Lemma climbs_last (l : list nat) (top : nat) :
  climbs l top -> exists l', l = (l' ++ [top])%list.
Proof. destruct 1; [now exists [] | eauto]. Qed.

Lemma deliver_at_entry (_flows : NodeRegistry.flows) (e : event)
  (fm fm' : flow_manager) (o : outcome unit) :
  current_node fm = Some ("initial", Entry.create_entry_node) ->
  deliver _flows e fm = Some (fm', o) ->
  fm' = consented fm \/ fm' = declined fm.
Proof.
  intros Hcur Hdel. unfold deliver in Hdel. rewrite Hcur in Hdel.
  unfold find_function in Hdel.
  cbn -[String.eqb run_handler run_callback] in Hdel.
  destruct ("process_consent" =? ev_function e); [|discriminate].
  cbn [fn_handler fn_transition_callback run_handler run_callback] in Hdel.
  destruct (verify_consent_shape (ev_args e)) as [c Hc].
  rewrite Hc in Hdel. destruct c; cbn in Hdel; inversion Hdel; auto.
Qed.

Lemma visited_snoc (st : dict value) (nodes : list (string * node))
  (name : string) (n : node) :
  is_intro name = false ->
  visited {| state := st; installed := nodes ++ [(name, n)] |} =
  (visited {| state := st; installed := nodes |} ++ [name])%list.
Proof.
  intros Hname. unfold visited. cbn [installed].
  rewrite map_app, filter_app. simpl. now rewrite Hname.
Qed.

Lemma consent_gate_run (_flows : NodeRegistry.flows)
  (events : list event) (fm : flow_manager) :
  on_path_with _flows fm ->
  consent_gate fm ->
  consent_gate (run _flows events fm).
Proof.
  revert fm.
  induction events as [|e rest IH]; intros fm [Hreg Hpath] Hinv; simpl;
    [exact Hinv|].
  destruct (deliver _flows e fm) as [[fm' o]|] eqn:Hdel;
    [|now apply IH].
  apply IH; [split; [exact Hreg | eapply on_path_deliver; eassumption]|].
  destruct Hpath as (name & n & Hcur & Hcan & Hclimb).
  destruct Hinv as [Hyes | [Hvis | Hvis]].
  - left.
    destruct (deliver_writes _ _ _ _ _ _ _ Hcur Hcan Hdel)
      as [-> | (k & v & Hk & Hst)]; [exact Hyes|].
    destruct Hcan; simpl in Hk; inversion Hk; subst k;
      try (rewrite Hst, lookup_set_other; [exact Hyes | discriminate]).
    destruct (deliver_at_entry _ _ _ _ _ Hcur Hdel) as [-> | ->].
    + apply lookup_set_same.
    + exact Hyes.
  - rewrite Hvis in Hclimb. apply climbs_last in Hclimb as [l' Hl'].
    assert (Hstage : stage name = 0).
    { destruct l' as [|x [|y l']]; simpl in Hl'; inversion Hl'; auto. }
    assert (name = "initial" /\ n = Entry.create_entry_node) as [-> ->]
      by (destruct Hcan; try discriminate Hstage; auto).
    destruct (deliver_at_entry _ _ _ _ _ Hcur Hdel) as [-> | ->].
    + left. apply lookup_set_same.
    + right. right. destruct fm as [st nodes]. unfold declined.
      cbn [state installed]. rewrite visited_snoc; [|reflexivity].
      unfold visited in *. cbn [installed] in *. now rewrite Hvis.
  - rewrite Hvis in Hclimb. apply climbs_last in Hclimb as [l' Hl'].
    assert (Hstage : stage name = 5).
    { destruct l' as [|x [|y [|z l']]]; simpl in Hl'; inversion Hl'; auto. }
    assert (Hend : session_ended fm = true).
    { unfold session_ended. rewrite Hcur.
      destruct Hcan; try discriminate Hstage; reflexivity. }
    now rewrite (deliver_ended _ _ _ Hend) in Hdel.
Qed.

(** X11. No intake without consent: with the two specialties
    registered, a session that has visited any state other than the entry
    and the end has ["consent_given"] recorded as true. *)
Theorem no_intake_without_consent (_flows : NodeRegistry.flows)
  (events : list event) (name : string) :
  both_registered _flows ->
  In name (visited (run _flows events start_session)) ->
  name <> "initial" -> name <> "end_call" ->
  lookup (state (run _flows events start_session)) "consent_given"
    = Some (VBool true).
Proof.
  intros Hreg Hin Hn1 Hn2.
  destruct (consent_gate_run _flows events start_session
              (conj Hreg on_path_start) (or_intror (or_introl eq_refl)))
    as [Hyes | [Hvis | Hvis]]; [exact Hyes | |];
    rewrite Hvis in Hin; simpl in Hin; intuition congruence.
Qed.

Lemma no_intake_without_consent_witness :
  lookup
    (state (run two_specialties
              [consent_event "2025-01-01T09:00:00";
               call "collect_chief_complaint"]
              start_session))
    "consent_given"
  = Some (VBool true).
Proof.
  apply (no_intake_without_consent two_specialties
           [consent_event "2025-01-01T09:00:00";
            call "collect_chief_complaint"] "medical_history").
  - left. reflexivity.
  - simpl. tauto.
  - discriminate.
  - discriminate.
Defined.

(** ** Sessions follow the transition graph *)

(** Exhibits the node a transition installed and the edge it took. *)
Ltac move_along :=
  eexists; eexists;
  split; [cbn; rewrite <- ?app_assoc; reflexivity |];
  split; [reflexivity |];
  split; [constructor | simpl; tauto].

Lemma deliver_moves (_flows : NodeRegistry.flows) (e : event)
  (fm fm' : flow_manager) (o : outcome unit) (name : string) (n : node) :
  both_registered _flows ->
  current_node fm = Some (name, n) ->
  canonical name n ->
  deliver _flows e fm = Some (fm', o) ->
  installed fm' = installed fm \/ moved fm fm' name.
Proof.
  intros Hreg Hcur Hcan Hdel.
  unfold deliver in Hdel. rewrite Hcur in Hdel. unfold find_function in Hdel.
  destruct Hcan; cbn -[String.eqb run_handler run_callback] in Hdel;
    try discriminate;
    match type of Hdel with
    | context [if ?b then _ else _] => destruct b; [|discriminate]
    end; cbn [fn_handler fn_transition_callback run_handler run_callback] in Hdel.
  - destruct (verify_consent_shape (ev_args e)) as [c Hc].
    rewrite Hc in Hdel. destruct c; cbn in Hdel; inversion Hdel; subst.
    + right. exists []. move_along.
    + right. exists []. move_along.
  - unfold ChiefComplaint.collect_chief_complaint in Hdel.
    unfold ChiefComplaint.handle_complaint_transition, bind, lift, set_state
      in Hdel.
    cbn [getitem lookup String.eqb Ascii.eqb Bool.eqb state installed] in Hdel.
    destruct (get (ev_args e) "complaint" (VStr "")) as [ | | | s | | | ];
      try (cbn in Hdel; inversion Hdel; left; reflexivity).
    unfold NodeRegistry.get_node_for_complaint in Hdel.
    cbn [lower_method obind] in Hdel.
    destruct (both_registered_values _ Hreg) as [Hv|Hv]; rewrite Hv in Hdel;
      cbn [NodeRegistry.first_triggered] in Hdel;
      repeat match type of Hdel with
             | context [if ?b then _ else _] => destruct b
             end;
      unfold Base.setup, bind, set_node in Hdel;
      cbn [state installed Base.class_name ChestPain.ChestPainNode
           Respiratory.RespiratoryNode Base.create_assessment_node] in Hdel;
      inversion Hdel; subst; clear Hdel.
    all: try (right; eexists [_]; move_along).
    all: right; exists []; move_along.
  - left.
    destruct (ChestPain.assess_chest_pain (ev_args e)) as [r|exc] eqn:Hr.
    + destruct (assess_returns_dict chest_pain _ _ Hr) as [d ->].
      rewrite chest_pain_callback_on_dict in Hdel. now inversion Hdel.
    + now inversion Hdel.
  - destruct (Respiratory.assess_respiratory (ev_args e)) as [r|exc] eqn:Hr.
    + destruct (respiratory_assessment_routes _ _ (ev_now e) fm Hr)
        as (b & recorded & _ & Hcb).
      rewrite Hcb in Hdel. inversion Hdel; subst; clear Hdel.
      right. exists []. destruct b; move_along.
    + inversion Hdel. now left.
  - cbn in Hdel. inversion Hdel; subst. right. exists []. move_along.
  - cbn in Hdel. inversion Hdel; subst. right. exists []. move_along.
  - cbn in Hdel. inversion Hdel; subst. right. exists []. move_along.
Qed.

Lemma visited_moved (fm fm' : flow_manager) (name : string) :
  moved fm fm' name ->
  exists name' n',
    current_node fm' = Some (name', n') /\
    canonical name' n' /\
    In name' (next_states name) /\
    visited fm' = (visited fm ++ [name'])%list.
Proof.
  intros (intro & name' & n' & Hinst & Hintro & Hcan' & Hnext).
  exists name', n'. repeat split; auto.
  - unfold current_node. rewrite Hinst, app_assoc, map_app. simpl.
    now rewrite last_last.
  - unfold visited. rewrite Hinst, !map_app, !filter_app. simpl.
    rewrite (canonical_not_intro _ _ Hcan'). simpl. f_equal.
    replace (filter (fun name0 => negb (is_intro name0)) (map fst intro))
      with (@nil string); [reflexivity|].
    clear -Hintro. induction intro as [|p intro IH]; simpl in *; auto.
    apply andb_true_iff in Hintro as [Hp Hrest].
    rewrite Hp. simpl. auto.
Qed.

Lemma on_walk_run (_flows : NodeRegistry.flows) (events : list event)
  (fm : flow_manager) :
  both_registered _flows -> on_walk fm -> on_walk (run _flows events fm).
Proof.
  intros Hreg. revert fm. induction events as [|e rest IH]; intros fm Hfm;
    simpl; [exact Hfm|].
  destruct (deliver _flows e fm) as [[fm' o]|] eqn:Hdel; [|now apply IH].
  apply IH. destruct Hfm as (name & n & Hcur & Hcan & Hwalk).
  destruct (deliver_moves _ _ _ _ _ _ _ Hreg Hcur Hcan Hdel)
    as [Hsame | Hmoved].
  - exists name, n.
    rewrite (current_node_installed _ _ Hsame), (visited_installed _ _ Hsame).
    auto.
  - destruct (visited_moved _ _ _ Hmoved)
      as (name' & n' & Hcur' & Hcan' & Hnext & Hvis).
    exists name', n'. rewrite Hvis. repeat split; auto.
    now apply walk_step with (a := name).
Qed.

(** X12. With the two specialties registered, the states a session
    visits form a walk through the transition graph [next_states] that
    starts at the entry state and ends at the current node: entry goes to
    chief complaint or end; chief complaint to a specialty assessment or
    medical history; the respiratory assessment to emergency or medical
    history; medical history to wrap-up; wrap-up and emergency to end;
    the chest-pain assessment and the end go nowhere. *)
Theorem session_follows_transition_graph (_flows : NodeRegistry.flows)
  (events : list event) :
  both_registered _flows ->
  exists name n,
    current_node (run _flows events start_session) = Some (name, n) /\
    walk (visited (run _flows events start_session)) name.
Proof.
  intros Hreg.
  destruct (on_walk_run _flows events start_session Hreg)
    as (name & n & Hcur & _ & Hwalk).
  - exists "initial", Entry.create_entry_node.
    split; [reflexivity|]. split; constructor.
  - eauto.
Qed.

Lemma session_follows_transition_graph_witness :
  exists name n,
    current_node
      (run two_specialties
         [consent_event "2025-01-01T09:00:00";
          chest_pain_complaint_event "2025-01-01T09:01:00"]
         start_session) = Some (name, n) /\
    walk
      (visited
         (run two_specialties
            [consent_event "2025-01-01T09:00:00";
             chest_pain_complaint_event "2025-01-01T09:01:00"]
            start_session)) name.
Proof.
  apply (session_follows_transition_graph two_specialties
           [consent_event "2025-01-01T09:00:00";
            chest_pain_complaint_event "2025-01-01T09:01:00"]).
  left. reflexivity.
Defined.

(** X14. With the two specialties registered, from wherever a session
    stands, unless it stands at the chest-pain assessment, some sequence
    of tool calls takes it to the end node. *)
Theorem session_can_end_unless_at_chest_pain (_flows : NodeRegistry.flows)
  (events : list event) :
  both_registered _flows ->
  current_node (run _flows events start_session) <>
    Some ("chestpainnode_assessment", ChestPain.create_assessment_node) ->
  can_end _flows (run _flows events start_session).
Proof.
  intros Hreg Hnot.
  destruct (on_path_run _flows events start_session Hreg on_path_start)
    as (name & n & Hcur & Hcan & _).
  apply (end_reachable_off_chest_pain _ _ name n Hreg Hcur Hcan).
  intros ->. inversion Hcan; subst. contradiction.
Qed.

Lemma session_can_end_unless_at_chest_pain_witness :
  can_end two_specialties
    (run two_specialties
       [consent_event "2025-01-01T09:00:00";
        {| ev_function := "collect_chief_complaint";
           ev_args := [("complaint", VStr "a dry cough");
                       ("duration", VStr "2 weeks")];
           ev_now := "2025-01-01T09:01:00" |}]
       start_session).
Proof.
  apply (session_can_end_unless_at_chest_pain two_specialties
           [consent_event "2025-01-01T09:00:00";
            {| ev_function := "collect_chief_complaint";
               ev_args := [("complaint", VStr "a dry cough");
                           ("duration", VStr "2 weeks")];
               ev_now := "2025-01-01T09:01:00" |}]).
  - left. reflexivity.
  - discriminate.
Defined.

Lemma session_path_bounded_witness :
  length
    (visited
       (run two_specialties
          [consent_event "2025-01-01T09:00:00";
           call "collect_chief_complaint";
           call "collect_medical_history";
           call "finish_conversation";
           call "finish_conversation"]
          start_session)) <= 6.
Proof.
  apply (session_path_bounded two_specialties
           [consent_event "2025-01-01T09:00:00";
            call "collect_chief_complaint";
            call "collect_medical_history";
            call "finish_conversation";
            call "finish_conversation"]).
  left. reflexivity.
Defined.

(** ** The descriptors *)

(** X21. Among the descriptors the factories produce, the end node is
    the only terminal one; every other descriptor offers exactly one
    function, and every field a function requires is declared among its
    properties. *)
Theorem end_node_is_the_only_terminal_descriptor (n : node) :
  factory_node n ->
  (is_end_node n = true <-> exists message, n = EndNode.create_end_call_node message) /\
  (is_end_node n = false -> length (functions n) = 1) /\
  (forall f, In f (functions n) ->
     forall field, In field (required (fn_parameters f)) ->
       exists ty, In (field, ty) (properties (fn_parameters f))).
Proof.
  intros Hn. split; [|split].
  - split.
    + destruct Hn as [ | | | | reason | message | flow message | sp ];
        try destruct sp; try discriminate. eauto.
    + intros [message ->]. reflexivity.
  - destruct Hn as [ | | | | reason | message | flow message | sp ];
      try destruct sp; try reflexivity; discriminate.
  - intros f Hf field Hfield.
    destruct Hn as [ | | | | reason | message | flow message | sp ];
      try destruct sp; simpl in Hf; try contradiction;
      destruct Hf as [<-|[]]; simpl in Hfield;
      repeat (destruct Hfield as [<-|Hfield];
              [eexists; simpl; eauto 10|]); contradiction.
Qed.

Lemma end_node_is_the_only_terminal_descriptor_witness :
  length (functions (Base.create_transition_node Respiratory.RespiratoryNode
                       "One moment.")) = 1.
Proof.
  apply (proj1 (proj2 (end_node_is_the_only_terminal_descriptor _
                         (factory_transition Respiratory.RespiratoryNode
                            "One moment.")))).
  reflexivity.
Defined.

(** ** The server's admission control *)

Lemma lookup_set_pid_same (bot_procs : Server.procs) (key : Z)
  (entry : Server.Popen * string) :
  Server.lookup_pid (Server.set_pid bot_procs key entry) key = Some entry.
Proof.
  induction bot_procs as [|[k old] rest IH]; simpl.
  - now rewrite Z.eqb_refl.
  - destruct (k =? key)%Z eqn:E; simpl; rewrite E; auto.
Qed.

Lemma num_bots_after_set (w : Server.world) (bot_procs : Server.procs)
  (key : Z) (entry : Server.Popen * string) (room_url : string) :
  Server.num_bots_in_room w (Server.set_pid bot_procs key entry) room_url <=
  Server.num_bots_in_room w bot_procs room_url +
  (if (snd entry =? room_url) && Server.poll_is_none w (fst entry)
   then 1 else 0).
Proof.
  unfold Server.num_bots_in_room.
  induction bot_procs as [|[k old] rest IH]; simpl.
  - destruct (_ && _); simpl; lia.
  - destruct (k =? key)%Z; simpl.
    + destruct ((snd entry =? room_url) && _),
        ((snd old =? room_url) && _); simpl; lia.
    + destruct ((snd old =? room_url) && _); simpl; lia.
Qed.

Lemma num_bots_later (w w' : Server.world) (bot_procs : Server.procs)
  (room_url : string) :
  no_resurrection w w' bot_procs ->
  Server.num_bots_in_room w' bot_procs room_url <=
  Server.num_bots_in_room w bot_procs room_url.
Proof.
  unfold Server.num_bots_in_room.
  induction bot_procs as [|[k [proc room]] rest IH]; intros Hmono; simpl;
    [lia|].
  assert (Hrest : no_resurrection w w' rest).
  { intros key p r Hin. apply (Hmono key p r). now right. }
  specialize (IH Hrest).
  destruct (room =? room_url); simpl; [|exact IH].
  destruct (Server.poll_is_none w' proc) eqn:Hw'.
  - rewrite (Hmono k proc room (or_introl eq_refl) Hw'). simpl. lia.
  - destruct (Server.poll_is_none w proc); simpl; lia.
Qed.

Lemma start_agent_cases (w : Server.world) (room_url : option string)
  (bot_procs bot_procs' : Server.procs) (resp : Server.response) :
  Server.start_agent w room_url bot_procs = (resp, bot_procs') ->
  (bot_procs' = bot_procs /\
   exists detail, resp = Server.HTTPException 500 detail) \/
  (exists room proc,
     resp = Server.RedirectResponse room /\
     Server.num_bots_in_room w bot_procs room = 0 /\
     bot_procs' = Server.set_pid bot_procs (Server.pid proc) (proc, room)).
Proof.
  unfold Server.start_agent.
  set (room := match room_url with
               | Some url => if url =? "" then Server.create_room w else url
               | None => Server.create_room w
               end).
  destruct (Server.MAX_BOTS_PER_ROOM <=? _)%nat eqn:Hnum.
  - intros H; inversion H; subst. left. eauto.
  - apply Nat.leb_gt in Hnum. unfold Server.MAX_BOTS_PER_ROOM in Hnum.
    destruct (Server.get_token w room) as [[|c token]|].
    + intros H; inversion H; subst. left. eauto.
    + destruct (Server.popen w _) as [e|proc].
      * intros H; inversion H; subst. left. eauto.
      * intros H; inversion H; subst. right. exists room, proc.
        repeat split. lia.
    + intros H; inversion H; subst. left. eauto.
Qed.

(** A request served with no other request in between keeps every room
    within the limit of one running bot: if no room had more than one
    running bot on record when the request came in, none has afterwards,
    judged by any later liveness report in which no recorded process has
    come back to life. *)
Lemma sequential_start_agent_keeps_limit (w w' : Server.world)
  (room_url : option string) (bot_procs bot_procs' : Server.procs)
  (resp : Server.response) :
  rooms_within_limit w bot_procs ->
  Server.start_agent w room_url bot_procs = (resp, bot_procs') ->
  no_resurrection w w' bot_procs ->
  rooms_within_limit w' bot_procs'.
Proof.
  intros Hlim Hstart Hmono room'.
  pose proof (num_bots_later w w' bot_procs room' Hmono) as Hlater.
  specialize (Hlim room').
  destruct (start_agent_cases _ _ _ _ _ Hstart)
    as [[-> _] | (room & proc & _ & Hzero & ->)]; [lia|].
  pose proof (num_bots_after_set w' bot_procs (Server.pid proc) (proc, room)
                room') as Hset.
  cbn [fst snd] in Hset.
  destruct (String.eqb_spec room room') as [<-|Hne].
  - pose proof (num_bots_later w w' bot_procs room Hmono).
    unfold Server.MAX_BOTS_PER_ROOM.
    destruct (Server.poll_is_none w' proc); simpl in Hset; lia.
  - simpl in Hset. lia.
Qed.

(** X23. A request for a room in which a recorded bot is still running
    is refused with status 500 and the detail ["Max bot limited reach for
    room: <url>"]: [bot_procs] is unchanged, and neither the token
    service nor [Popen] has a say in it. *)
Theorem start_agent_rejects_second_bot (w : Server.world) (room : string)
  (bot_procs : Server.procs) (key : Z) (proc : Server.Popen) :
  room <> "" ->
  In (key, (proc, room)) bot_procs ->
  Server.poll_is_none w proc = true ->
  Server.start_agent w (Some room) bot_procs =
    (Server.HTTPException 500 ("Max bot limited reach for room: " ++ room),
     bot_procs).
Proof.
  intros Hroom Hin Hrun. unfold Server.start_agent.
  apply String.eqb_neq in Hroom. rewrite Hroom.
  assert (Hnum : 1 <= Server.num_bots_in_room w bot_procs room).
  { unfold Server.num_bots_in_room.
    induction bot_procs as [|[k [p r]] rest IH]; [destruct Hin|].
    simpl. destruct Hin as [Heq | Hin].
    - inversion Heq; subst. rewrite String.eqb_refl, Hrun. simpl. lia.
    - specialize (IH Hin). destruct (_ && _); simpl; lia. }
  apply Nat.leb_le in Hnum. unfold Server.MAX_BOTS_PER_ROOM. now rewrite Hnum.
Qed.

(** X24. After a request that [start_agent] answers with a redirect, the
    spawned process is on record under its process id, with the room the
    redirect points to, and [get_status] for that id reports ["running"]
    or ["finished"] as the process polls. *)
Theorem started_bot_is_reported (w : Server.world)
  (room_url : option string) (bot_procs bot_procs' : Server.procs)
  (url : string) :
  Server.start_agent w room_url bot_procs =
    (Server.RedirectResponse url, bot_procs') ->
  exists proc,
    Server.lookup_pid bot_procs' (Server.pid proc) = Some (proc, url) /\
    forall w',
      Server.get_status w' (Server.pid proc) bot_procs' =
        Server.JSONResponse (Server.pid proc)
          (if Server.poll_is_none w' proc then "running" else "finished").
Proof.
  intros Hstart.
  destruct (start_agent_cases _ _ _ _ _ Hstart)
    as [[_ [detail Hresp]] | (room & proc & Hresp & _ & ->)];
    [discriminate Hresp|].
  inversion Hresp; subst room. exists proc.
  split; [apply lookup_set_pid_same|].
  intros w'. unfold Server.get_status. now rewrite lookup_set_pid_same.
Qed.

Lemma start_agent_rejects_second_bot_witness :
  Server.start_agent obliging_world (Some "https://example.daily.co/fresh")
    [(4242%Z,
      ({| Server.handle := 1; Server.pid := 4242 |},
       "https://example.daily.co/fresh"))]
  = (Server.HTTPException 500
       "Max bot limited reach for room: https://example.daily.co/fresh",
     [(4242%Z,
       ({| Server.handle := 1; Server.pid := 4242 |},
        "https://example.daily.co/fresh"))]).
Proof.
  apply (start_agent_rejects_second_bot obliging_world
           "https://example.daily.co/fresh" _ 4242%Z
           {| Server.handle := 1; Server.pid := 4242 |}).
  - discriminate.
  - left. reflexivity.
  - reflexivity.
Defined.

Lemma started_bot_is_reported_witness :
  exists proc,
    Server.get_status obliging_world (Server.pid proc)
      (snd (Server.start_agent obliging_world None []))
    = Server.JSONResponse (Server.pid proc) "running".
Proof.
  destruct (started_bot_is_reported obliging_world None []
              (snd (Server.start_agent obliging_world None []))
              "https://example.daily.co/fresh" eq_refl)
    as (proc & _ & Hstatus).
  exists proc. apply (Hstatus obliging_world).
Defined.

(** Served with nothing in between, the two halves are [start_agent]. *)
Lemma start_agent_unsplit (w : Server.world) (room_url : option string)
  (bot_procs : Server.procs) :
  Server.start_agent w room_url bot_procs =
  match Server.start_agent_admit w room_url bot_procs with
  | inl resp => (resp, bot_procs)
  | inr room => Server.start_agent_resume w room bot_procs
  end.
Proof.
  unfold Server.start_agent, Server.start_agent_admit,
    Server.start_agent_resume.
  destruct (Server.MAX_BOTS_PER_ROOM <=? _)%nat; reflexivity.
Qed.

Lemma spawns_resume (w : Server.world) (room_url : string)
  (proc : Server.Popen) (bot_procs : Server.procs) :
  spawns w room_url proc ->
  Server.start_agent_resume w room_url bot_procs =
    (Server.RedirectResponse room_url,
     Server.set_pid bot_procs (Server.pid proc) (proc, room_url)).
Proof.
  intros (token & Htoken & Hne & Hpopen).
  unfold Server.start_agent_resume. rewrite Htoken.
  destruct token as [|c token]; [congruence|].
  unfold bot_command in Hpopen. now rewrite Hpopen.
Qed.

Lemma num_bots_set_one (w : Server.world) (bot_procs : Server.procs)
  (proc : Server.Popen) (room_url : string) :
  Server.poll_is_none w proc = true ->
  1 <= Server.num_bots_in_room w
         (Server.set_pid bot_procs (Server.pid proc) (proc, room_url))
         room_url.
Proof.
  intros Hrun. unfold Server.num_bots_in_room.
  induction bot_procs as [|[k old] rest IH]; simpl.
  - rewrite String.eqb_refl, Hrun. simpl. lia.
  - destruct (k =? Server.pid proc)%Z; simpl.
    + rewrite String.eqb_refl, Hrun. simpl. lia.
    + destruct (_ && _); simpl; lia.
Qed.

Lemma num_bots_set_two (w : Server.world) (bot_procs : Server.procs)
  (proc1 proc2 : Server.Popen) (room_url : string) :
  Server.pid proc1 <> Server.pid proc2 ->
  Server.poll_is_none w proc1 = true ->
  Server.poll_is_none w proc2 = true ->
  2 <= Server.num_bots_in_room w
         (Server.set_pid
            (Server.set_pid bot_procs (Server.pid proc1) (proc1, room_url))
            (Server.pid proc2) (proc2, room_url))
         room_url.
Proof.
  intros Hpid Hrun1 Hrun2.
  induction bot_procs as [|[k old] rest IH]; simpl.
  - apply Z.eqb_neq in Hpid. rewrite Hpid.
    unfold Server.num_bots_in_room. simpl.
    rewrite String.eqb_refl, Hrun1, Hrun2. simpl. lia.
  - destruct (k =? Server.pid proc1)%Z eqn:E1; simpl.
    + apply Z.eqb_eq in E1. subst k.
      apply Z.eqb_neq in Hpid. rewrite Hpid.
      pose proof (num_bots_set_one w rest proc2 room_url Hrun2) as Hone.
      unfold Server.num_bots_in_room in *. simpl.
      rewrite String.eqb_refl, Hrun1. simpl. lia.
    + destruct (k =? Server.pid proc2)%Z eqn:E2.
      * pose proof (num_bots_set_one w rest proc1 room_url Hrun1) as Hone.
        unfold Server.num_bots_in_room in *. simpl.
        rewrite String.eqb_refl, Hrun2. simpl. lia.
      * unfold Server.num_bots_in_room in *. simpl.
        destruct (_ && _); simpl; lia.
Qed.

(** X22. The admission check of [start_agent] and its insert into
    [bot_procs] are separated by the [await] of [get_token], so two
    requests for the same room can both be admitted.  When the room has
    no running bot and the second request is checked before the first is
    resumed, both pass the check, both are answered with a redirect to
    the room, and [bot_procs] ends up with both spawned processes on
    record for it: as long as the two run, the room exceeds
    [MAX_BOTS_PER_ROOM]. *)
Theorem interleaved_requests_exceed_limit (w1 w2 : Server.world)
  (room : string) (bot_procs : Server.procs) (proc1 proc2 : Server.Popen) :
  room <> "" ->
  Server.num_bots_in_room w1 bot_procs room = 0 ->
  Server.num_bots_in_room w2 bot_procs room = 0 ->
  spawns w1 room proc1 ->
  spawns w2 room proc2 ->
  Server.pid proc1 <> Server.pid proc2 ->
  exists bot_procs1 bot_procs2,
    Server.start_agent_admit w1 (Some room) bot_procs = inr room /\
    Server.start_agent_admit w2 (Some room) bot_procs = inr room /\
    Server.start_agent_resume w1 room bot_procs =
      (Server.RedirectResponse room, bot_procs1) /\
    Server.start_agent_resume w2 room bot_procs1 =
      (Server.RedirectResponse room, bot_procs2) /\
    forall w',
      Server.poll_is_none w' proc1 = true ->
      Server.poll_is_none w' proc2 = true ->
      Server.MAX_BOTS_PER_ROOM < Server.num_bots_in_room w' bot_procs2 room /\
      ~ rooms_within_limit w' bot_procs2.
Proof.
  intros Hroom Hnum1 Hnum2 Hsp1 Hsp2 Hpid.
  apply String.eqb_neq in Hroom.
  exists (Server.set_pid bot_procs (Server.pid proc1) (proc1, room)).
  exists (Server.set_pid
            (Server.set_pid bot_procs (Server.pid proc1) (proc1, room))
            (Server.pid proc2) (proc2, room)).
  split; [unfold Server.start_agent_admit; now rewrite Hroom, Hnum1|].
  split; [unfold Server.start_agent_admit; now rewrite Hroom, Hnum2|].
  split; [now apply spawns_resume|].
  split; [now apply spawns_resume|].
  intros w' Hrun1 Hrun2.
  pose proof (num_bots_set_two w' bot_procs proc1 proc2 room Hpid Hrun1 Hrun2)
    as Htwo.
  unfold Server.MAX_BOTS_PER_ROOM. split; [lia|].
  intros Hlim. specialize (Hlim room).
  unfold Server.MAX_BOTS_PER_ROOM in Hlim. lia.
Qed.

Lemma interleaved_requests_exceed_limit_witness :
  Server.MAX_BOTS_PER_ROOM <
  Server.num_bots_in_room second_world
    (snd (Server.start_agent_resume second_world
            "https://example.daily.co/room"
            (snd (Server.start_agent_resume first_world
                    "https://example.daily.co/room" []))))
    "https://example.daily.co/room".
Proof.
  destruct (interleaved_requests_exceed_limit first_world second_world
              "https://example.daily.co/room" []
              {| Server.handle := 1; Server.pid := 4242 |}
              {| Server.handle := 2; Server.pid := 4243 |})
    as (bot_procs1 & bot_procs2 & _ & _ & H1 & H2 & Hover).
  - discriminate.
  - reflexivity.
  - reflexivity.
  - exists "token". repeat split. discriminate.
  - exists "token". repeat split. discriminate.
  - discriminate.
  - rewrite H1. cbn [snd]. rewrite H2. cbn [snd].
    apply (Hover second_world); reflexivity.
Defined.
